(** * Smiley Store backend: order placement and catalog seeding

    A shallow embedding of [main.py] (FastAPI routes over a MongoDB
    database) and the properties of its order workflow.

    Python values are an inductive type of BSON/JSON values, Python
    [float] is IEEE binary64 (Rocq's primitive floats), dictionaries are
    insertion-ordered association lists, and the handlers run in a small
    state-and-exception monad over the process state: the database
    handle [db], the module-level list [SEED_PRODUCTS] (which pymongo
    annotates in place), the ObjectId generator, and a record of the
    round trips made to the store. *)

From Stdlib Require Import ZArith NArith List String Ascii Bool Lia.
From Stdlib Require Import PrimFloat FloatOps SpecFloat.
Import ListNotations.

Set Warnings "-register-all".

Open Scope string_scope.
Open Scope Z_scope.

(* ================================================================== *)
(** ** ObjectId (bson) *)

(** An ObjectId as the store keeps it is 12 bytes; it is kept here as
    the number those bytes spell, and [str(oid)] is its 24 lowercase
    hexadecimal digits. *)
Record ObjectId : Type := Oid { oid_num : N }.

Definition oid_eqb (a b : ObjectId) : bool := N.eqb (oid_num a) (oid_num b).

(** Hexadecimal digits by their character codes: "0" is 48, "a" is 97
    and "A" is 65. *)
Definition hex_char (d : N) : ascii :=
  ascii_of_N (if (d <? 10)%N then 48 + d else 87 + N.min d 15)%N.

Definition hex_value (c : ascii) : option N :=
  let n := N_of_ascii c in
  if ((48 <=? n) && (n <=? 57))%N then Some (n - 48)%N
  else if ((97 <=? n) && (n <=? 102))%N then Some (n - 87)%N
  else if ((65 <=? n) && (n <=? 70))%N then Some (n - 55)%N
  else None.

(** The [k] low hexadecimal digits of [n], most significant first. *)
Fixpoint hex_of (k : nat) (n : N) : string :=
  match k with
  | O => ""
  | S k' => hex_of k' (n / 16) ++ String (hex_char (n mod 16)) ""
  end.

Fixpoint parse_hex (s : string) (acc : N) : option N :=
  match s with
  | "" => Some acc
  | String c s' =>
      match hex_value c with
      | Some d => parse_hex s' (16 * acc + d)%N
      | None => None
      end
  end.

(** [str(oid)] *)
Definition oid_str (o : ObjectId) : string := hex_of 24 (oid_num o).

(** The 12-byte identifier a text of exactly 24 hexadecimal digits
    (either case) spells; no other text spells one. *)
Definition oid_parse (s : string) : option ObjectId :=
  if Nat.eqb (String.length s) 24
  then option_map Oid (parse_hex s 0%N)
  else None.

(** The characters [bytes.fromhex] skips: the six ASCII white-space
    characters, tab to carriage return (9 to 13) and the space (32). *)
Definition is_space (c : ascii) : bool :=
  let n := N_of_ascii c in
  (((9 <=? n) && (n <=? 13)) || (n =? 32))%N.

(** [bytes.fromhex(text)]: white space is skipped before each pair of
    hexadecimal digits, never between the two digits of a pair; [None]
    stands for [ValueError]. *)
Fixpoint bytes_fromhex (s : string) : option (list N) :=
  match s with
  | "" => Some []
  | String c s' =>
      if is_space c then bytes_fromhex s'
      else
        match hex_value c, s' with
        | Some hi, String c' s'' =>
            match hex_value c', bytes_fromhex s'' with
            | Some lo, Some bs => Some ((16 * hi + lo)%N :: bs)
            | _, _ => None
            end
        | _, _ => None
        end
  end.

(** What [ObjectId(text)] holds.  bson checks that the text has length
    24 and hands it to [bytes.fromhex]: 24 hexadecimal digits give the
    12 bytes of an identifier, and a text of 24 characters with white
    space among its digits is accepted too and gives fewer than 12
    bytes. *)
Inductive parsed_id : Type :=
| WholeId (o : ObjectId)
| ShortId (id_bytes : list N).

(** [ObjectId(text)]: [None] stands for [InvalidId]. *)
Definition ObjectId_of_str (s : string) : option parsed_id :=
  match oid_parse s with
  | Some o => Some (WholeId o)
  | None =>
      if Nat.eqb (String.length s) 24
      then option_map ShortId (bytes_fromhex s)
      else None
  end.

(* ================================================================== *)
(** ** Python values and dictionaries *)

Inductive value : Type :=
| VNone
| VBool (b : bool)
| VInt (n : Z)
| VFloat (x : float)
| VStr (s : string)
| VOid (o : ObjectId)
| VList (l : list value)
| VDict (d : list (string * value)).

(** A [dict] keeps its keys in insertion order; keys are unique. *)
Definition dict : Type := list (string * value).

Fixpoint dict_get (k : string) (d : dict) : option value :=
  match d with
  | [] => None
  | (k', v) :: d' => if String.eqb k k' then Some v else dict_get k d'
  end.

(** [d.get(k, default)] *)
Definition dict_get_default (k : string) (default : value) (d : dict) : value :=
  match dict_get k d with Some v => v | None => default end.

Definition dict_has (k : string) (d : dict) : bool :=
  match dict_get k d with Some _ => true | None => false end.

(** [d.pop(k)] / [del d[k]] *)
Fixpoint dict_pop (k : string) (d : dict) : dict :=
  match d with
  | [] => []
  | (k', v) :: d' => if String.eqb k k' then d' else (k', v) :: dict_pop k d'
  end.

(** [d[k] = v]: an existing key keeps its place, a new one goes last. *)
Fixpoint dict_set (k : string) (v : value) (d : dict) : dict :=
  match d with
  | [] => [(k, v)]
  | (k', v') :: d' =>
      if String.eqb k k' then (k', v) :: d' else (k', v') :: dict_set k v d'
  end.

(** Equality of stored values, as the store's equality filter sees it. *)
Fixpoint value_eqb (a b : value) : bool :=
  match a, b with
  | VNone, VNone => true
  | VBool x, VBool y => Bool.eqb x y
  | VInt x, VInt y => Z.eqb x y
  | VFloat x, VFloat y => PrimFloat.eqb x y
  | VStr x, VStr y => String.eqb x y
  | VOid x, VOid y => oid_eqb x y
  | VList xs, VList ys =>
      (fix go (xs ys : list value) : bool :=
         match xs, ys with
         | [], [] => true
         | x :: xs', y :: ys' => value_eqb x y && go xs' ys'
         | _, _ => false
         end) xs ys
  | VDict xs, VDict ys =>
      (fix go (xs ys : list (string * value)) : bool :=
         match xs, ys with
         | [], [] => true
         | (k, x) :: xs', (k', y) :: ys' =>
             String.eqb k k' && value_eqb x y && go xs' ys'
         | _, _ => false
         end) xs ys
  | _, _ => false
  end.

(* ================================================================== *)
(** ** Python floats *)

(** [float(n)] for an [int]: the nearest binary64 value, ties to even;
    [None] stands for [OverflowError]. *)
Definition float_of_int (n : Z) : option float :=
  match binary_normalize prec emax n 0 false with
  | S754_infinity _ | S754_nan => None
  | sf => Some (SF2Prim sf)
  end.

(** The same conversion where it cannot overflow. *)
Definition int_to_float (n : Z) : float :=
  SF2Prim (binary_normalize prec emax n 0 false).

(** [sum] of floats as the loop accumulates it: from [0.0], left to
    right. *)
Definition float_sum (l : list float) : float :=
  fold_left PrimFloat.add l zero.

(** [m * 2^e] rounded to the nearest integer, ties to even ([m >= 0]). *)
Definition round_half_even (m e : Z) : Z :=
  if 0 <=? e then m * 2 ^ e
  else
    let den := 2 ^ (- e) in
    let q := m / den in
    let r := m mod den in
    match Z.compare (2 * r) den with
    | Lt => q
    | Gt => q + 1
    | Eq => if Z.even q then q else q + 1
    end.

(** [round(x, 2)]: CPython rounds the exact binary value of [x] to two
    decimal places (ties to even) and returns the binary64 value nearest
    to that decimal; zeros, infinities and NaN are returned as they
    are. *)
Definition round2 (x : float) : float :=
  match Prim2SF x with
  | S754_finite s m e =>
      match round_half_even (Zpos m * 100) e with
      | Zpos n =>
          SF2Prim (SFdiv prec emax (S754_finite s n 0) (S754_finite false 100 0))
      | _ => if s then neg_zero else zero
      end
  | _ => x
  end.

(** [k] is an integer nearest to the fraction [n / d] (where [d > 0]),
    and the even one where two integers are equally near. *)
Definition nearest_even (n d k : Z) : Prop :=
  2 * Z.abs (n - k * d) <= d /\
  (2 * Z.abs (n - k * d) = d -> Z.even k = true).

(** The integer [k >= 0] taken with the sign [s]. *)
Definition Z2SF (s : bool) (k : Z) : spec_float :=
  match k with
  | Zpos n => S754_finite s n 0
  | _ => S754_zero s
  end.

(** The binary64 value of [k / 100] taken with the sign [s]: the IEEE
    quotient of the two integers, which is the float nearest to the
    fraction. *)
Definition hundredths (s : bool) (k : Z) : float :=
  SF2Prim (SFdiv prec emax (Z2SF s k) (Z2SF false 100)).

(* ================================================================== *)
(** ** Exceptions and HTTP outcomes *)

Inductive exn : Type :=
| HTTPException (status_code : Z) (detail : string)
| RequestValidationError
| StoreUnavailable
| PyMongoError
| DuplicateKeyError
| InvalidId
| TypeError
| ValueError
| OverflowError
| NotImplementedError.

Inductive result (A : Type) : Type :=
| Return (a : A)
| Raise (e : exn).
Arguments Return {A} a.
Arguments Raise {A} e.

(** The status FastAPI answers with: an [HTTPException] carries its own,
    any other exception of a handler is 500, and a body that fails
    validation is 422 as long as the inputs the 422 answer repeats can
    be rendered as JSON. *)
Definition http_status {A : Type} (r : result A) : Z :=
  match r with
  | Return _ => 200
  | Raise (HTTPException code _) => code
  | Raise RequestValidationError => 422
  | Raise _ => 500
  end.

Definition client_error {A : Type} (r : result A) : bool :=
  (400 <=? http_status r) && (http_status r <? 500).

Definition server_error {A : Type} (r : result A) : bool :=
  500 <=? http_status r.

(* ================================================================== *)
(** ** The process state and the store *)

(** A database is its named collections, each a sequence of documents in
    insertion order; a collection that was never written is empty. *)
Definition Database : Type := list (string * list dict).

Fixpoint collection (d : Database) (name : string) : list dict :=
  match d with
  | [] => []
  | (n, docs) :: d' => if String.eqb name n then docs else collection d' name
  end.

Fixpoint set_collection (name : string) (docs : list dict) (d : Database)
  : Database :=
  match d with
  | [] => [(name, docs)]
  | (n, old) :: d' =>
      if String.eqb name n then (n, docs) :: d'
      else (n, old) :: set_collection name docs d'
  end.

(** One round trip to the store.  [OpFindOneShort] is a [find_one] by
    an identifier of fewer than 12 bytes. *)
Inductive store_op : Type :=
| OpCount (coll : string) (query : dict)
| OpFindOne (coll : string) (query : dict)
| OpFindOneShort (coll : string) (id_bytes : list N)
| OpFind (coll : string) (query : dict)
| OpInsertOne (coll : string) (document : dict)
| OpInsertMany (coll : string) (documents : list dict).

Definition op_collection (op : store_op) : string :=
  match op with
  | OpCount c _ | OpFindOne c _ | OpFindOneShort c _ | OpFind c _
  | OpInsertOne c _ | OpInsertMany c _ => c
  end.

Definition op_is_read (op : store_op) : bool :=
  match op with
  | OpCount _ _ | OpFindOne _ _ | OpFindOneShort _ _ | OpFind _ _ => true
  | OpInsertOne _ _ | OpInsertMany _ _ => false
  end.

(** - [g_db]: the module-level handle [db] ([None] when no connection
      string was configured);
    - [g_SEED_PRODUCTS]: the current content of the module-level list
      [SEED_PRODUCTS];
    - [next_oid]: the ObjectId generator;
    - [faults]: the environment: whether each coming round trip fails
      ([true]) or goes through; an exhausted list means no failure;
    - [oplog]: the round trips attempted so far, oldest first. *)
Record process : Type := {
  g_db : option Database;
  g_SEED_PRODUCTS : list dict;
  next_oid : N;
  faults : list bool;
  oplog : list store_op
}.

Definition set_db (d : option Database) (st : process) : process :=
  {| g_db := d; g_SEED_PRODUCTS := g_SEED_PRODUCTS st;
     next_oid := next_oid st; faults := faults st; oplog := oplog st |}.

Definition set_SEED_PRODUCTS (l : list dict) (st : process) : process :=
  {| g_db := g_db st; g_SEED_PRODUCTS := l;
     next_oid := next_oid st; faults := faults st; oplog := oplog st |}.

Definition docs_of (st : process) (name : string) : list dict :=
  match g_db st with
  | Some d => collection d name
  | None => []
  end.

Definition put_docs (name : string) (docs : list dict) (st : process)
  : process :=
  match g_db st with
  | Some d => set_db (Some (set_collection name docs d)) st
  | None => st
  end.

(* ================================================================== *)
(** ** State and exceptions *)

(** A computation runs on the process state and either returns or
    raises; what it did to the state before raising stays done. *)
Definition M (A : Type) : Type := process -> result A * process.

Definition ret {A : Type} (a : A) : M A := fun st => (Return a, st).

Definition raise {A : Type} (e : exn) : M A := fun st => (Raise e, st).

Definition bind {A B : Type} (m : M A) (k : A -> M B) : M B :=
  fun st =>
    match m st with
    | (Return a, st') => k a st'
    | (Raise e, st') => (Raise e, st')
    end.

(** [try: m  except Exception: h] *)
Definition try_except {A : Type} (m : M A) (h : exn -> M A) : M A :=
  fun st =>
    match m st with
    | (Return a, st') => (Return a, st')
    | (Raise e, st') => h e st'
    end.

Notation "x <- m ;; k" := (bind m (fun x => k))
  (at level 61, m at next level, right associativity).
Notation "m ;;; k" := (bind m (fun _ => k))
  (at level 61, right associativity).

Definition lift_option {A : Type} (e : exn) (o : option A) : M A :=
  match o with
  | Some a => ret a
  | None => raise e
  end.

Definition lift_result {A : Type} (r : result A) : M A := fun st => (r, st).

(* ================================================================== *)
(** ** pymongo *)

(** A collection handle is the collection's name. *)
Definition Collection : Type := string.

(** [db[name]]: subscripting [None] is a [TypeError]. *)
Definition db_getitem (name : string) : M Collection :=
  fun st =>
    match g_db st with
    | Some _ => (Return name, st)
    | None => (Raise TypeError, st)
    end.

(** [db is None] *)
Definition db_is_None : M bool :=
  fun st =>
    match g_db st with
    | Some _ => (Return false, st)
    | None => (Return true, st)
    end.

(** [ObjectId()] *)
Definition new_ObjectId : M ObjectId :=
  fun st =>
    (Return (Oid (next_oid st)),
     {| g_db := g_db st; g_SEED_PRODUCTS := g_SEED_PRODUCTS st;
        next_oid := N.succ (next_oid st);
        faults := faults st; oplog := oplog st |}).

(** Every operation on a collection is one round trip: it is recorded,
    and it raises when the environment makes it fail. *)
Definition round_trip (op : store_op) : M unit :=
  fun st =>
    let st' := {| g_db := g_db st; g_SEED_PRODUCTS := g_SEED_PRODUCTS st;
                  next_oid := next_oid st;
                  faults := tl (faults st);
                  oplog := oplog st ++ [op] |} in
    match faults st with
    | true :: _ => (Raise PyMongoError, st')
    | _ => (Return tt, st')
    end.

(** A document matches an equality filter when it has every field of
    the filter with an equal value. *)
Definition matches (query : dict) (doc : dict) : bool :=
  forallb (fun kv => match dict_get (fst kv) doc with
                     | Some v => value_eqb v (snd kv)
                     | None => false
                     end) query.

(** [coll.count_documents(query)] *)
Definition count_documents (c : Collection) (query : dict) : M Z :=
  round_trip (OpCount c query) ;;;
  fun st => (Return (Z.of_nat (List.length (filter (matches query) (docs_of st c)))), st).

(** [coll.find_one(query)]: the first matching document or [None]. *)
Definition find_one (c : Collection) (query : dict) : M (option dict) :=
  round_trip (OpFindOne c query) ;;;
  fun st => (Return (find (matches query) (docs_of st c)), st).

(** [coll.find_one({"_id": oid})] for what [ObjectId(text)] holds.  The
    identifiers the store keeps are 12 bytes, so one of fewer bytes is
    asked for and finds nothing. *)
Definition find_one_id (c : Collection) (oid : parsed_id) : M (option dict) :=
  match oid with
  | WholeId o => find_one c [("_id", VOid o)]
  | ShortId bs => round_trip (OpFindOneShort c bs) ;;; ret None
  end.

(** [coll.find(query)], read to the end. *)
Definition find_all (c : Collection) (query : dict) : M (list dict) :=
  round_trip (OpFind c query) ;;;
  fun st => (Return (filter (matches query) (docs_of st c)), st).

(** The driver gives a document that has no ["_id"] a new ObjectId, in
    the caller's dictionary itself. *)
Definition assign_id (document : dict) : M dict :=
  if dict_has "_id" document then ret document
  else o <- new_ObjectId ;; ret (dict_set "_id" (VOid o) document).

Fixpoint assign_ids (documents : list dict) : M (list dict) :=
  match documents with
  | [] => ret []
  | d :: ds =>
      d' <- assign_id d ;;
      ds' <- assign_ids ds ;;
      ret (d' :: ds')
  end.

(** A stored document leads with its ["_id"]. *)
Definition stored_form (document : dict) : dict :=
  match dict_get "_id" document with
  | Some v => ("_id", v) :: dict_pop "_id" document
  | None => document
  end.

Definition same_id (document other : dict) : bool :=
  match dict_get "_id" document, dict_get "_id" other with
  | Some a, Some b => value_eqb a b
  | _, _ => false
  end.

(** The server appends the document unless its ["_id"] is taken. *)
Definition server_insert (c : Collection) (document : dict) : M unit :=
  fun st =>
    if existsb (same_id document) (docs_of st c)
    then (Raise DuplicateKeyError, st)
    else (Return tt, put_docs c (docs_of st c ++ [stored_form document]) st).

(** An ordered bulk insert stops at the first document it cannot
    insert; the ones before it stay inserted. *)
Fixpoint server_insert_all (c : Collection) (documents : list dict) : M unit :=
  match documents with
  | [] => ret tt
  | d :: ds => server_insert c d ;;; server_insert_all c ds
  end.

(** [coll.insert_one(document).inserted_id] *)
Definition insert_one (c : Collection) (document : dict) : M value :=
  doc <- assign_id document ;;
  round_trip (OpInsertOne c doc) ;;;
  server_insert c doc ;;;
  ret (dict_get_default "_id" VNone doc).

(** [coll.insert_many(documents)] where [documents] is the module-level
    list [SEED_PRODUCTS]: the identifiers the driver assigns are written
    into that list's dictionaries before anything is sent. *)
Definition insert_many_SEED_PRODUCTS (c : Collection) : M unit :=
  docs <- (fun st => (Return (g_SEED_PRODUCTS st), st)) ;;
  docs' <- assign_ids docs ;;
  (fun st => (Return tt, set_SEED_PRODUCTS docs' st)) ;;;
  round_trip (OpInsertMany c docs') ;;;
  server_insert_all c docs'.

(* ================================================================== *)
(** ** main.py *)

Section Main.

(** Two Python built-ins are taken as they are: [float(text)], with
    [None] for [ValueError], and the text [str] gives for a value that
    is neither a [str] nor an ObjectId. *)
Variable float_of_str : string -> option float.
Variable repr : value -> string.

(** So is the truth value of a database handle, which the class of the
    handle decides: database.py, where [db] is bound, is not among the
    sources.  It is [Return b] when testing the handle gives [b], and
    [Raise e] when the handle's class refuses to be tested, as pymongo's
    [Database] does since version 4 ([NotImplementedError]: "Database
    objects do not implement truth value testing"); before that version
    a handle tested true. *)
Variable handle_bool : result bool.

(** The test of [db] in [... if db else ...]: [None] is false. *)
Definition db_truthy : M bool :=
  fun st =>
    match g_db st with
    | Some _ => (handle_bool, st)
    | None => (Return false, st)
    end.

(** [str(v)] *)
Definition py_str (v : value) : string :=
  match v with
  | VStr s => s
  | VOid o => oid_str o
  | _ => repr v
  end.

(** [float(v)] *)
Definition py_float (v : value) : result float :=
  match v with
  | VFloat x => Return x
  | VInt n =>
      match float_of_int n with
      | Some x => Return x
      | None => Raise OverflowError
      end
  | VBool b => Return (if b then one else zero)
  | VStr s =>
      match float_of_str s with
      | Some x => Return x
      | None => Raise ValueError
      end
  | VNone | VOid _ | VList _ | VDict _ => Raise TypeError
  end.

(** *** Helpers *)

Definition serialize_doc (doc : dict) : dict :=
  let d := doc in
  let d := match dict_get "_id" d with
           | Some v => dict_set "id" (VStr (py_str v)) (dict_pop "_id" d)
           | None => d
           end in
  fold_left (fun (d : dict) (kv : string * value) =>
               match snd kv with
               | VOid o => dict_set (fst kv) (VStr (oid_str o)) d
               | _ => d
               end) d d.

(** *** Models *)

Record CartItem : Type := {
  product_id : string;
  size : string;
  quantity : Z
}.

Record CustomerInfo : Type := {
  name : string;
  email : string;
  address : string
}.

Record OrderCreate : Type := {
  items : list CartItem;
  customer : CustomerInfo
}.

(** Validation of a request body against the models.  A [str] field
    takes a JSON string and the [int] field a JSON integer; pydantic's
    conversions of other JSON values to [int] are left out. *)
Definition validate_str (v : option value) : option string :=
  match v with
  | Some (VStr s) => Some s
  | _ => None
  end.

(** [quantity: int = Field(..., ge=1, le=10)] *)
Definition validate_quantity (v : option value) : option Z :=
  match v with
  | Some (VInt q) => if (1 <=? q) && (q <=? 10) then Some q else None
  | _ => None
  end.

Definition validate_CartItem (v : value) : option CartItem :=
  match v with
  | VDict d =>
      match validate_str (dict_get "product_id" d),
            validate_str (dict_get "size" d),
            validate_quantity (dict_get "quantity" d) with
      | Some p, Some s, Some q =>
          Some {| product_id := p; size := s; quantity := q |}
      | _, _, _ => None
      end
  | _ => None
  end.

Definition validate_CustomerInfo (v : option value) : option CustomerInfo :=
  match v with
  | Some (VDict d) =>
      match validate_str (dict_get "name" d),
            validate_str (dict_get "email" d),
            validate_str (dict_get "address" d) with
      | Some n, Some e, Some a =>
          Some {| name := n; email := e; address := a |}
      | _, _, _ => None
      end
  | _ => None
  end.

(** [items: List[CartItem]] *)
Fixpoint validate_items (l : list value) : option (list CartItem) :=
  match l with
  | [] => Some []
  | v :: l' =>
      match validate_CartItem v, validate_items l' with
      | Some i, Some is' => Some (i :: is')
      | _, _ => None
      end
  end.

Definition validate_OrderCreate (body : value) : option OrderCreate :=
  match body with
  | VDict d =>
      match dict_get "items" d with
      | Some (VList l) =>
          match validate_items l, validate_CustomerInfo (dict_get "customer" d) with
          | Some is', Some c => Some {| items := is'; customer := c |}
          | _, _ => None
          end
      | _ => None
      end
  | _ => None
  end.

(** [customer.model_dump()] *)
Definition model_dump_CustomerInfo (c : CustomerInfo) : dict :=
  [("name", VStr (name c)); ("email", VStr (email c));
   ("address", VStr (address c))].

(** *** Seed data *)

Definition seed_sizes : value := VList [VStr "S"; VStr "M"; VStr "L"; VStr "XL"].

Definition SEED_PRODUCTS : list dict :=
  [ [("title", VStr "Smiley Classic Hoodie");
     ("description", VStr "Cozy fleece hoodie with the iconic Smiley front print.");
     ("price", VFloat 59.0);
     ("category", VStr "hoodies");
     ("images", VList [VStr "https://images.unsplash.com/photo-1548883354-7622d03acae1?q=80&w=1600&auto=format&fit=crop"]);
     ("sizes", seed_sizes);
     ("in_stock", VBool true)];
    [("title", VStr "Smiley Minimal Tee");
     ("description", VStr "Soft cotton t‑shirt with a subtle embroidered smile.");
     ("price", VFloat 24.0);
     ("category", VStr "t-shirts");
     ("images", VList [VStr "https://images.unsplash.com/photo-1512436991641-6745cdb1723f?q=80&w=1600&auto=format&fit=crop"]);
     ("sizes", seed_sizes);
     ("in_stock", VBool true)];
    [("title", VStr "Smiley Oversized Hoodie");
     ("description", VStr "Premium heavyweight hoodie, oversized fit.");
     ("price", VFloat 72.0);
     ("category", VStr "hoodies");
     ("images", VList [VStr "https://images.unsplash.com/photo-1544441893-675973e31985?q=80&w=1600&auto=format&fit=crop"]);
     ("sizes", seed_sizes);
     ("in_stock", VBool true)];
    [("title", VStr "Smiley Retro Tee");
     ("description", VStr "90s inspired graphic tee with retro smile.");
     ("price", VFloat 29.0);
     ("category", VStr "t-shirts");
     ("images", VList [VStr "https://images.unsplash.com/photo-1503342217505-b0a15cf70489?q=80&w=1600&auto=format&fit=crop"]);
     ("sizes", seed_sizes);
     ("in_stock", VBool true)] ].

Definition ensure_seed_products : M unit :=
  try_except
    (count <- (t <- db_truthy ;;
               if (t : bool)
               then c <- db_getitem "product" ;; count_documents c []
               else ret 0) ;;
     if count =? 0
     then c <- db_getitem "product" ;; insert_many_SEED_PRODUCTS c
     else ret tt)
    (fun _ => ret tt).

(** *** database.py *)

(** Modelled from the spec: [create_document] of database.py, which is
    not among the sources.  "create(collection, document) -> identifier:
    inserts a new record; returns its assigned identifier.  Fails with
    StoreUnavailable if no backing connection exists."  The identifier
    travels as text. *)
Definition create_document (collection_name : string) (data : dict) : M string :=
  absent <- db_is_None ;;
  if (absent : bool)
  then raise StoreUnavailable
  else inserted_id <- insert_one collection_name data ;;
       ret (py_str inserted_id).

(** Modelled from the spec: [get_documents] of database.py, which is not
    among the sources.  "find_many(collection, filter) -> sequence of
    document: fetches all matching a simple equality filter"; without a
    connection "reads return empty". *)
Definition get_documents (collection_name : string) (filter_dict : dict)
  : M (list dict) :=
  absent <- db_is_None ;;
  if (absent : bool)
  then ret []
  else find_all collection_name filter_dict.

(** *** Routes *)

(** [GET /api/products] *)
Definition list_products (category : option string) : M (list dict) :=
  ensure_seed_products ;;;
  let query := match category with
               | Some (String _ _ as c) => [("category", VStr c)]
               | _ => []
               end in
  products <- get_documents "product" query ;;
  ret (map serialize_doc products).

(** The [try]/[except] of the loop body: the product of a cart item, or
    [None] when anything at all goes wrong while fetching it. *)
Definition lookup_product (item : CartItem) : M (option dict) :=
  try_except
    (c <- db_getitem "product" ;;
     oid <- lift_option InvalidId (ObjectId_of_str (product_id item)) ;;
     find_one_id c oid)
    (fun _ => ret None).

Definition line_item (item : CartItem) (prod : dict) (price line_total : float)
  : value :=
  VDict [("product_id", VStr (product_id item));
         ("title", dict_get_default "title" VNone prod);
         ("size", VStr (size item));
         ("quantity", VInt (quantity item));
         ("unit_price", VFloat price);
         ("line_total", VFloat line_total)].

(** The [for] loop of [create_order], with its two accumulators. *)
Fixpoint order_loop (l : list CartItem) (total : float)
    (items_serialized : list value) : M (float * list value) :=
  match l with
  | [] => ret (total, items_serialized)
  | item :: rest =>
      prod <- lookup_product item ;;
      match prod with
      | None | Some [] =>
          raise (HTTPException 404 ("Product not found: " ++ product_id item))
      | Some prod =>
          price <- lift_result (py_float (dict_get_default "price" (VInt 0) prod)) ;;
          qty <- lift_option OverflowError (float_of_int (quantity item)) ;;
          let line_total := (price * qty)%float in
          order_loop rest (total + line_total)%float
            (items_serialized ++ [line_item item prod price line_total])
      end
  end.

(** [POST /api/order], once the body is an [OrderCreate]. *)
Definition create_order (order : OrderCreate) : M dict :=
  acc <- order_loop (items order) zero [] ;;
  let order_doc :=
    [("items", VList (snd acc));
     ("customer", VDict (model_dump_CustomerInfo (customer order)));
     ("total", VFloat (round2 (fst acc)));
     ("status", VStr "received")] in
  order_id <- create_document "order" order_doc ;;
  c <- db_getitem "order" ;;
  oid <- lift_option InvalidId (ObjectId_of_str order_id) ;;
  saved <- find_one_id c oid ;;
  match saved with
  | Some doc => ret (serialize_doc doc)
  | None => raise TypeError
  end.

(** What FastAPI can render as JSON ([jsonable_encoder], then
    [json.dumps] with [allow_nan=False]): no NaN, no infinity and no
    ObjectId anywhere in the value. *)
Fixpoint json_renderable (v : value) : bool :=
  match v with
  | VFloat x => is_finite x
  | VOid _ => false
  | VList l =>
      (fix go (l : list value) : bool :=
         match l with
         | [] => true
         | x :: l' => json_renderable x && go l'
         end) l
  | VDict d =>
      (fix go (d : list (string * value)) : bool :=
         match d with
         | [] => true
         | (_, x) :: d' => json_renderable x && go d'
         end) d
  | VNone | VBool _ | VInt _ | VStr _ => true
  end.

(** The answer of a handler is rendered before it is sent; what cannot
    be rendered is a [ValueError], answered 500. *)
Definition render (doc : dict) : M dict :=
  if json_renderable (VDict doc) then ret doc else raise ValueError.

(** [POST /api/order] as FastAPI serves it: the body is validated
    against [OrderCreate] before the handler runs, and the handler's
    answer is rendered. *)
Definition post_api_order (body : value) : M dict :=
  match validate_OrderCreate body with
  | Some order => doc <- create_order order ;; render doc
  | None => raise RequestValidationError
  end.

(** *** Vocabulary of the statements *)

(** A process that has just started. *)
Definition start (d : option Database) : process :=
  {| g_db := d; g_SEED_PRODUCTS := SEED_PRODUCTS; next_oid := 0%N;
     faults := []; oplog := [] |}.

(** The state after the round trips [ops] have been attempted. *)
Definition trips (ops : list store_op) (st : process) : process :=
  {| g_db := g_db st; g_SEED_PRODUCTS := g_SEED_PRODUCTS st;
     next_oid := next_oid st;
     faults := skipn (List.length ops) (faults st);
     oplog := oplog st ++ ops |}.

(** None of the next [n] round trips fails. *)
Definition reliable (n : nat) (st : process) : Prop :=
  forallb negb (firstn n (faults st)) = true.

Definition find_by_id (o : ObjectId) (docs : list dict) : option dict :=
  find (matches [("_id", VOid o)]) docs.

Definition find_product_op (o : ObjectId) : store_op :=
  OpFindOne "product" [("_id", VOid o)].

(** What resolving one cart item yields: the identifier its text
    parses to, the product document found under it, and the price read
    from that document. *)
Record resolution : Type := {
  r_item : CartItem;
  r_oid : ObjectId;
  r_prod : dict;
  r_price : float
}.

Definition resolved (st : process) (r : resolution) : Prop :=
  oid_parse (product_id (r_item r)) = Some (r_oid r) /\
  find_by_id (r_oid r) (docs_of st "product") = Some (r_prod r) /\
  py_float (dict_get_default "price" (VInt 0) (r_prod r)) = Return (r_price r) /\
  1 <= quantity (r_item r) <= 10.

(** The product a cart item refers to, if its text is an identifier and
    the catalog has a product under it. *)
Definition product_of (st : process) (item : CartItem) : option dict :=
  match oid_parse (product_id item) with
  | Some o => find_by_id o (docs_of st "product")
  | None => None
  end.

(** The round trip made for a cart item, if any: none when
    [ObjectId(text)] raises. *)
Definition lookup_ops (item : CartItem) : list store_op :=
  match ObjectId_of_str (product_id item) with
  | Some (WholeId o) => [find_product_op o]
  | Some (ShortId bs) => [OpFindOneShort "product" bs]
  | None => []
  end.

Definition line_total_of (r : resolution) : float :=
  (r_price r * int_to_float (quantity (r_item r)))%float.

(** No document of [docs] has the identifier [o]. *)
Definition oid_unused (o : ObjectId) (docs : list dict) : Prop :=
  forall d, In d docs -> dict_get "_id" d <> Some (VOid o).

(** The next generated identifier is a 12-byte one and no order has it
    yet. *)
Definition generator_fresh (st : process) : Prop :=
  (next_oid st < 16 ^ 24)%N /\
  oid_unused (Oid (next_oid st)) (docs_of st "order").

(** The line item and the order document built from resolved items. *)
Definition line_of (r : resolution) : value :=
  line_item (r_item r) (r_prod r) (r_price r) (line_total_of r).

Definition order_doc_of (c : CustomerInfo) (rs : list resolution) : dict :=
  [("items", VList (map line_of rs));
   ("customer", VDict (model_dump_CustomerInfo c));
   ("total", VFloat (round2 (float_sum (map line_total_of rs))));
   ("status", VStr "received")].

(** The state after the generator handed out one identifier. *)
Definition took_oid (st : process) : process :=
  {| g_db := g_db st; g_SEED_PRODUCTS := g_SEED_PRODUCTS st;
     next_oid := N.succ (next_oid st);
     faults := faults st; oplog := oplog st |}.

(** The state a successful placement leaves: one lookup per item, then
    the insertion of the order under a new identifier, then its
    re-fetch. *)
Definition order_placed (c : CustomerInfo) (rs : list resolution)
    (st : process) : process :=
  let o := Oid (next_oid st) in
  let doc := order_doc_of c rs in
  trips [OpFindOne "order" [("_id", VOid o)]]
    (put_docs "order" (docs_of st "order" ++ [("_id", VOid o) :: doc])%list
       (trips [OpInsertOne "order" (doc ++ [("_id", VOid o)])%list]
          (took_oid (trips (map (fun r => find_product_op (r_oid r)) rs) st)))).

(** The answer of a successful placement. *)
Definition order_response (c : CustomerInfo) (rs : list resolution)
    (st : process) : dict :=
  (order_doc_of c rs ++ [("id", VStr (oid_str (Oid (next_oid st))))])%list.

(** Every order's identifier came from the generator. *)
Definition orders_below (st : process) : Prop :=
  forall d o, In d (docs_of st "order") ->
    dict_get "_id" d = Some (VOid o) -> (oid_num o < next_oid st)%N.

(** A computation leaves the product collection as it found it, and
    the round trips it makes to that collection are reads. *)
Definition catalog_read_only {A : Type} (m : M A) : Prop :=
  forall st,
    docs_of (snd (m st)) "product" = docs_of st "product" /\
    exists ops,
      oplog (snd (m st)) = (oplog st ++ ops)%list /\
      Forall (fun op => op_collection op = "product" -> op_is_read op = true) ops.

Definition set_next_oid (n : N) (st : process) : process :=
  {| g_db := g_db st; g_SEED_PRODUCTS := g_SEED_PRODUCTS st;
     next_oid := n; faults := faults st; oplog := oplog st |}.

(** The seed products as the driver leaves them in [SEED_PRODUCTS] once
    it has given them the identifiers [ids], as the store keeps them, and
    as the listing shows them. *)
Definition seeds_annotated (ids : list ObjectId) : list dict :=
  map (fun od => (snd od ++ [("_id", VOid (fst od))])%list)
      (combine ids SEED_PRODUCTS).

Definition seeds_stored (ids : list ObjectId) : list dict :=
  map (fun od => ("_id", VOid (fst od)) :: snd od) (combine ids SEED_PRODUCTS).

Definition seeds_listed (ids : list ObjectId) : list dict :=
  map (fun od => (snd od ++ [("id", VStr (oid_str (fst od)))])%list)
      (combine ids SEED_PRODUCTS).

(** [SEED_PRODUCTS] is as the module defines it, or as an earlier
    seeding annotated it. *)
Definition seeds_intact (st : process) : Prop :=
  g_SEED_PRODUCTS st = SEED_PRODUCTS \/
  exists ids, List.length ids = 4%nat /\ NoDup ids /\
              g_SEED_PRODUCTS st = seeds_annotated ids.

(** The query [list_products] builds from its parameter. *)
Definition category_query (category : option string) : dict :=
  match category with
  | Some (String _ _ as c) => [("category", VStr c)]
  | _ => []
  end.

(** The state a seeding listing leaves: the count, the bulk insert of
    the annotated seed products, the query. *)
Definition seeded (ids : list ObjectId) (n : N) (query : dict) (st : process)
  : process :=
  trips [OpFind "product" query]
    (put_docs "product" (seeds_stored ids)
       (trips [OpInsertMany "product" (seeds_annotated ids)]
          (set_SEED_PRODUCTS (seeds_annotated ids)
             (set_next_oid n (trips [OpCount "product" []] st))))).

(** *** A shop to try the statements on *)

(** The store after the first listing seeded it, with the identifiers
    0 to 3 for the four seed products. *)
Definition seed_ids : list ObjectId := [Oid 0; Oid 1; Oid 2; Oid 3].

Definition shop : process := seeded seed_ids 4 [] (start (Some [])).

Definition hoodie : dict := nth 0 (seeds_stored seed_ids) [].
Definition tee : dict := nth 1 (seeds_stored seed_ids) [].

Definition alice : CustomerInfo :=
  {| name := "Alice"; email := "alice@example.org"; address := "1 Main St" |}.

(** Two Classic Hoodies, size M; three Minimal Tees in a size the
    product does not declare; an identifier no product has; a text that
    is no identifier. *)
Definition two_hoodies : CartItem :=
  {| product_id := "000000000000000000000000"; size := "M"; quantity := 2 |}.

Definition three_tees : CartItem :=
  {| product_id := "000000000000000000000001"; size := "XXXL"; quantity := 3 |}.

Definition no_such_product : CartItem :=
  {| product_id := "ffffffffffffffffffffffff"; size := "M"; quantity := 1 |}.

Definition not_an_id : CartItem :=
  {| product_id := "does-not-exist"; size := "M"; quantity := 1 |}.

Definition two_hoodies_resolved : resolution :=
  {| r_item := two_hoodies; r_oid := Oid 0; r_prod := hoodie; r_price := 59 |}.

Definition three_tees_resolved : resolution :=
  {| r_item := three_tees; r_oid := Oid 1; r_prod := tee; r_price := 24 |}.

Definition json_customer : value :=
  VDict [("name", VStr "Alice"); ("email", VStr "alice@example.org");
         ("address", VStr "1 Main St")].

Definition json_item (item : CartItem) : value :=
  VDict [("product_id", VStr (product_id item)); ("size", VStr (size item));
         ("quantity", VInt (quantity item))].

(** In the shop every price is a float and every identifier an
    ObjectId, so neither built-in is ever called there; they are given
    constant answers.  The handle tests true. *)
Definition float_of_str_unused : string -> option float := fun _ => None.
Definition repr_unused : value -> string := fun _ => "".
Definition handle_true : result bool := Return true.

(** pymongo's handle since version 4. *)
Definition handle_refuses : result bool := Raise NotImplementedError.

(** A text of 24 characters that [ObjectId] accepts and that spells 8
    bytes only. *)
Definition spaced_id : CartItem :=
  {| product_id := "00 00 00 00 00 00 00 00 "; size := "M"; quantity := 1 |}.

(** The same state with the coming round trips failing as [fs] says. *)
Definition with_faults (fs : list bool) (st : process) : process :=
  {| g_db := g_db st; g_SEED_PRODUCTS := g_SEED_PRODUCTS st;
     next_oid := next_oid st; faults := fs; oplog := oplog st |}.

(** *** Products: the model and the route that creates one *)

Record ProductCreate : Type := {
  title : string;
  description : option string;
  price : float;
  category : string;
  images : list string;
  sizes : list string;
  in_stock : bool
}.

(** [description: Optional[str] = None] *)
Definition validate_optional_str (v : option value) : option (option string) :=
  match v with
  | None | Some VNone => Some None
  | Some (VStr s) => Some (Some s)
  | _ => None
  end.

(** [price: float = Field(..., ge=0)]: a JSON number, integer or not,
    that is at least 0; pydantic's conversions of other JSON values to
    [float] are left out. *)
Definition validate_price (v : option value) : option float :=
  let number := match v with
                | Some (VFloat x) => Some x
                | Some (VInt n) => float_of_int n
                | _ => None
                end in
  match number with
  | Some x => if PrimFloat.leb zero x then Some x else None
  | None => None
  end.

Fixpoint validate_strs (l : list value) : option (list string) :=
  match l with
  | [] => Some []
  | VStr s :: l' =>
      match validate_strs l' with
      | Some ss => Some (s :: ss)
      | None => None
      end
  | _ :: _ => None
  end.

(** [List[str] = default] *)
Definition validate_str_list (default : list string) (v : option value)
  : option (list string) :=
  match v with
  | None => Some default
  | Some (VList l) => validate_strs l
  | _ => None
  end.

(** [bool = default]; pydantic's conversions of other JSON values to
    [bool] are left out. *)
Definition validate_bool (default : bool) (v : option value) : option bool :=
  match v with
  | None => Some default
  | Some (VBool b) => Some b
  | _ => None
  end.

Definition validate_ProductCreate (body : value) : option ProductCreate :=
  match body with
  | VDict d =>
      match validate_str (dict_get "title" d),
            validate_optional_str (dict_get "description" d),
            validate_price (dict_get "price" d),
            validate_str (dict_get "category" d) with
      | Some t, Some de, Some pr, Some c =>
          match validate_str_list [] (dict_get "images" d),
                validate_str_list ["S"; "M"; "L"; "XL"] (dict_get "sizes" d),
                validate_bool true (dict_get "in_stock" d) with
          | Some im, Some sz, Some st =>
              Some {| title := t; description := de; price := pr;
                      category := c; images := im; sizes := sz;
                      in_stock := st |}
          | _, _, _ => None
          end
      | _, _, _, _ => None
      end
  | _ => None
  end.

(** [p.model_dump()] *)
Definition model_dump_ProductCreate (p : ProductCreate) : dict :=
  [("title", VStr (title p));
   ("description", match description p with
                   | Some s => VStr s
                   | None => VNone
                   end);
   ("price", VFloat (price p));
   ("category", VStr (category p));
   ("images", VList (map VStr (images p)));
   ("sizes", VList (map VStr (sizes p)));
   ("in_stock", VBool (in_stock p))].

(** [POST /api/products], once the body is a [ProductCreate]. *)
Definition create_product (p : ProductCreate) : M dict :=
  inserted_id <- create_document "product" (model_dump_ProductCreate p) ;;
  c <- db_getitem "product" ;;
  oid <- lift_option InvalidId (ObjectId_of_str inserted_id) ;;
  doc <- find_one_id c oid ;;
  match doc with
  | Some d => ret (serialize_doc d)
  | None => raise TypeError
  end.

(** [POST /api/products] as FastAPI serves it. *)
Definition post_api_products (body : value) : M dict :=
  match validate_ProductCreate body with
  | Some p => doc <- create_product p ;; render doc
  | None => raise RequestValidationError
  end.

(** *** schemas.py *)

(** The two models of schemas.py, "each a collection in MongoDB".  The
    fields of [Product] are those of [ProductCreate], under names of
    their own here. *)
Record Product : Type := {
  product_title : string;
  product_description : option string;
  product_price : float;
  product_category : string;
  product_images : list string;
  product_sizes : list string;
  product_in_stock : bool
}.

Record Order : Type := {
  customer_name : string;
  customer_email : string;
  customer_address : string;
  total : float
}.

Definition validate_Product (doc : value) : option Product :=
  match doc with
  | VDict d =>
      match validate_str (dict_get "title" d),
            validate_optional_str (dict_get "description" d),
            validate_price (dict_get "price" d),
            validate_str (dict_get "category" d) with
      | Some t, Some de, Some pr, Some c =>
          match validate_str_list [] (dict_get "images" d),
                validate_str_list ["S"; "M"; "L"; "XL"] (dict_get "sizes" d),
                validate_bool true (dict_get "in_stock" d) with
          | Some im, Some sz, Some st =>
              Some {| product_title := t; product_description := de;
                      product_price := pr; product_category := c;
                      product_images := im; product_sizes := sz;
                      product_in_stock := st |}
          | _, _, _ => None
          end
      | _, _, _, _ => None
      end
  | _ => None
  end.

(** [total: float = Field(..., ge=0)] has the constraint of a price. *)
Definition validate_Order (doc : value) : option Order :=
  match doc with
  | VDict d =>
      match validate_str (dict_get "customer_name" d),
            validate_str (dict_get "customer_email" d),
            validate_str (dict_get "customer_address" d),
            validate_price (dict_get "total" d) with
      | Some n, Some e, Some a, Some t =>
          Some {| customer_name := n; customer_email := e;
                  customer_address := a; total := t |}
      | _, _, _, _ => None
      end
  | _ => None
  end.

(** *** More vocabulary *)

(** What the loop of [serialize_doc] does to one value. *)
Definition oid_to_text (v : value) : value :=
  match v with
  | VOid o => VStr (oid_str o)
  | _ => v
  end.

(** The keys of a dictionary are distinct. *)
Definition unique_keys (d : dict) : Prop := NoDup (map fst d).

(** The state after a document without ["_id"] was inserted into the
    collection [c] under a new identifier and fetched again. *)
Definition inserted (c : string) (doc : dict) (st : process) : process :=
  let o := Oid (next_oid st) in
  trips [OpFindOne c [("_id", VOid o)]]
    (put_docs c (docs_of st c ++ [("_id", VOid o) :: doc])%list
       (trips [OpInsertOne c (doc ++ [("_id", VOid o)])%list] (took_oid st))).

(** The body a client sends for an [OrderCreate]. *)
Definition json_OrderCreate (order : OrderCreate) : value :=
  VDict [("items", VList (map json_item (items order)));
         ("customer", VDict (model_dump_CustomerInfo (customer order)))].

Definition quantity_in_range (item : CartItem) : bool :=
  (1 <=? quantity item) && (quantity item <=? 10).

(** A computation only ever appends to the collection [c] and leaves
    every other collection as it found it. *)
Definition only_appends (c : string) {A : Type} (m : M A) : Prop :=
  forall st,
    (exists added, docs_of (snd (m st)) c = (docs_of st c ++ added)%list) /\
    forall c', c' <> c -> docs_of (snd (m st)) c' = docs_of st c'.

(** A computation appends at most [n] documents to the collection [c]
    and leaves every other collection as it found it. *)
Definition appends_at_most (n : nat) (c : string) {A : Type} (m : M A) : Prop :=
  forall st,
    (exists added,
       docs_of (snd (m st)) c = (docs_of st c ++ added)%list /\
       (List.length added <= n)%nat) /\
    forall c', c' <> c -> docs_of (snd (m st)) c' = docs_of st c'.

(** A computation is never answered as a client error. *)
Definition no_client_error {A : Type} (m : M A) : Prop :=
  forall st, client_error (fst (m st)) = false.

(** How [create_order] and [create_product] both end: the document is
    created, then fetched again by the identifier that came back, and
    serialized. *)
Definition insert_and_fetch (c : string) (doc : dict) : M dict :=
  inserted_id <- create_document c doc ;;
  h <- db_getitem c ;;
  oid <- lift_option InvalidId (ObjectId_of_str inserted_id) ;;
  saved <- find_one_id h oid ;;
  match saved with
  | Some d => ret (serialize_doc d)
  | None => raise TypeError
  end.

(** A computation leaves the database as it found it. *)
Definition db_unchanged {A : Type} (m : M A) : Prop :=
  forall st, g_db (snd (m st)) = g_db st.

(** *** A shop whose prices do not add up evenly *)

(** A sticker at 0.1 and a badge at 0.2, the floats nearest to these
    decimals; one of each comes to 0.30000000000000004. *)
Definition sticker_shop : process :=
  start (Some [("product",
                [[("_id", VOid (Oid 0)); ("title", VStr "Sticker");
                  ("price", VFloat 0x1.999999999999ap-4)];
                 [("_id", VOid (Oid 1)); ("title", VStr "Badge");
                  ("price", VFloat 0x1.999999999999ap-3)]])]).

Definition one_sticker : CartItem :=
  {| product_id := "000000000000000000000000"; size := "S"; quantity := 1 |}.

Definition one_badge : CartItem :=
  {| product_id := "000000000000000000000001"; size := "S"; quantity := 1 |}.

Definition one_sticker_resolved : resolution :=
  {| r_item := one_sticker; r_oid := Oid 0;
     r_prod := [("_id", VOid (Oid 0)); ("title", VStr "Sticker");
                ("price", VFloat 0x1.999999999999ap-4)];
     r_price := 0x1.999999999999ap-4 |}.

Definition one_badge_resolved : resolution :=
  {| r_item := one_badge; r_oid := Oid 1;
     r_prod := [("_id", VOid (Oid 1)); ("title", VStr "Badge");
                ("price", VFloat 0x1.999999999999ap-3)];
     r_price := 0x1.999999999999ap-3 |}.

(** *** A shop with an unfinished product *)

(** A store whose only product has neither a title nor a price, and one
    whose only product has a price that is no number. *)
Definition bare_shop : process :=
  start (Some [("product", [[("_id", VOid (Oid 0))]])]).

Definition odd_shop : process :=
  start (Some [("product", [[("_id", VOid (Oid 0)); ("title", VStr "Odd");
                              ("price", VNone)]])]).

Definition one_bare : CartItem :=
  {| product_id := "000000000000000000000000"; size := "M"; quantity := 3 |}.

Definition one_bare_resolved : resolution :=
  {| r_item := one_bare; r_oid := Oid 0; r_prod := [("_id", VOid (Oid 0))];
     r_price := 0 |}.

Definition scarf : ProductCreate :=
  {| title := "Smiley Scarf"; description := None; price := 19.5;
     category := "accessories"; images := [];
     sizes := ["S"; "M"; "L"; "XL"]; in_stock := true |}.

Definition json_scarf : value :=
  VDict [("title", VStr "Smiley Scarf"); ("price", VFloat 19.5);
         ("category", VStr "accessories")].

(* ================================================================== *)
(** ** Identifiers round-trip as text *)

Lemma string_app_assoc (a b c : string) : (a ++ b) ++ c = a ++ (b ++ c).
Proof. induction a as [|x a IH]; simpl; [reflexivity | now rewrite IH]. Qed.

Lemma string_length_app (a b : string) :
  String.length (a ++ b) = (String.length a + String.length b)%nat.
Proof. induction a as [|x a IH]; simpl; [reflexivity | now rewrite IH]. Qed.

Lemma hex_of_length (k : nat) (n : N) : String.length (hex_of k n) = k.
Proof.
  revert n; induction k as [|k IH]; intros n; simpl; [reflexivity|].
  rewrite string_length_app, IH; simpl. lia.
Qed.

Lemma hex_value_char (d : N) : (d < 16)%N -> hex_value (hex_char d) = Some d.
Proof.
  intros H.
  assert (Hd : In d (map N.of_nat (seq 0 16))).
  { apply in_map_iff. exists (N.to_nat d). split; [lia|]. apply in_seq. lia. }
  simpl in Hd.
  repeat (destruct Hd as [<- | Hd]; [reflexivity|]).
  destruct Hd.
Qed.

Lemma parse_hex_of (k : nat) : forall (n : N) (t : string) (acc : N),
  parse_hex (hex_of k n ++ t) acc
  = parse_hex t (acc * 16 ^ N.of_nat k + n mod 16 ^ N.of_nat k)%N.
Proof.
  induction k as [|k IH]; intros n t acc.
  - simpl hex_of. simpl append. change (N.of_nat 0) with 0%N.
    rewrite N.pow_0_r, N.mod_1_r. f_equal. lia.
  - rewrite Nnat.Nat2N.inj_succ, N.pow_succ_r'.
    cbn [hex_of]. rewrite string_app_assoc. cbn [append].
    rewrite IH. cbn [parse_hex].
    rewrite hex_value_char by (apply N.mod_lt; lia).
    f_equal.
    rewrite N.Div0.mod_mul_r.
    lia.
Qed.

Lemma oid_parse_str (o : ObjectId) :
  (oid_num o < 16 ^ 24)%N -> oid_parse (oid_str o) = Some o.
Proof.
  intros H. unfold oid_parse, oid_str.
  rewrite hex_of_length. simpl Nat.eqb. cbv iota.
  replace (hex_of 24 (oid_num o)) with (hex_of 24 (oid_num o) ++ "")
    by (clear; induction (hex_of 24 (oid_num o)); simpl; congruence).
  rewrite parse_hex_of. simpl parse_hex.
  change (N.of_nat 24) with 24%N.
  rewrite N.mod_small by exact H.
  destruct o; reflexivity.
Qed.

(** [ObjectId(text)] on a text that spells a 12-byte identifier, and on
    the text of an identifier. *)
Lemma ObjectId_of_str_whole s o :
  oid_parse s = Some o -> ObjectId_of_str s = Some (WholeId o).
Proof. intros H. unfold ObjectId_of_str. now rewrite H. Qed.

Lemma ObjectId_of_str_str (o : ObjectId) :
  (oid_num o < 16 ^ 24)%N -> ObjectId_of_str (oid_str o) = Some (WholeId o).
Proof. intros H. apply ObjectId_of_str_whole. now apply oid_parse_str. Qed.

(** A text that spells no 12-byte identifier is refused or gives a
    short one. *)
Lemma ObjectId_of_str_other s :
  oid_parse s = None ->
  ObjectId_of_str s = None \/ exists bs, ObjectId_of_str s = Some (ShortId bs).
Proof.
  intros H. unfold ObjectId_of_str. rewrite H.
  destruct (Nat.eqb (String.length s) 24); [|now left].
  destruct (bytes_fromhex s) as [bs|]; [right; now exists bs | now left].
Qed.

Open Scope list_scope.

(* ================================================================== *)
(** ** Running computations *)

Lemma bind_run {A B : Type} (m : M A) (k : A -> M B) st a st' :
  m st = (Return a, st') -> bind m k st = k a st'.
Proof. intros H; unfold bind; now rewrite H. Qed.

Lemma bind_raise {A B : Type} (m : M A) (k : A -> M B) st e st' :
  m st = (Raise e, st') -> bind m k st = (Raise e, st').
Proof. intros H; unfold bind; now rewrite H. Qed.

Lemma trips_nil st : trips [] st = st.
Proof. destruct st; unfold trips; simpl. now rewrite app_nil_r. Qed.

Lemma trips_app a b st : trips b (trips a st) = trips (a ++ b) st.
Proof.
  unfold trips; simpl. f_equal.
  - rewrite skipn_skipn, length_app. f_equal. lia.
  - now rewrite app_assoc.
Qed.

Lemma docs_of_trips ops st c : docs_of (trips ops st) c = docs_of st c.
Proof. reflexivity. Qed.

Lemma round_trip_run op st :
  round_trip op st
  = (if hd false (faults st) then Raise PyMongoError else Return tt,
     trips [op] st).
Proof.
  unfold round_trip, trips. destruct (faults st) as [|[|] fs]; reflexivity.
Qed.

Lemma reliable_nil n st : faults st = [] -> reliable n st.
Proof. unfold reliable; intros ->. now destruct n. Qed.

Lemma reliable_S n st :
  reliable (S n) st ->
  hd false (faults st) = false /\ forall op, reliable n (trips [op] st).
Proof.
  unfold reliable, trips; simpl. destruct (faults st) as [|b fs]; simpl.
  - split; [reflexivity | intros _; now destruct n].
  - intros H. apply andb_prop in H as [Hb Hfs]. split.
    + now destruct b.
    + intros _. exact Hfs.
Qed.

Lemma reliable_le n m st : (m <= n)%nat -> reliable n st -> reliable m st.
Proof.
  unfold reliable. generalize (faults st) as fs. revert m.
  induction n as [|n IH]; intros m fs Hle H.
  - now replace m with O by lia.
  - destruct m as [|m]; [reflexivity|]. destruct fs as [|b fs]; [reflexivity|].
    simpl in *. apply andb_prop in H as [Hb Hfs]. rewrite Hb; simpl.
    apply IH; [lia | exact Hfs].
Qed.

Lemma float_of_int_quantity q :
  1 <= q <= 10 -> float_of_int q = Some (int_to_float q).
Proof.
  intros H.
  assert (Hq : In q (map Z.of_nat (seq 1 10))).
  { apply in_map_iff. exists (Z.to_nat q). split; [lia|]. apply in_seq. lia. }
  simpl in Hq.
  repeat (destruct Hq as [<- | Hq]; [vm_compute; reflexivity|]).
  destruct Hq.
Qed.

(** What the guarded lookup of the loop gives, in every state. *)
Lemma lookup_product_run item st :
  lookup_product item st
  = match g_db st, ObjectId_of_str (product_id item) with
    | Some _, Some (WholeId o) =>
        (Return (if hd false (faults st) then None
                 else find_by_id o (docs_of st "product")),
         trips [find_product_op o] st)
    | Some _, Some (ShortId bs) =>
        (Return None, trips [OpFindOneShort "product" bs] st)
    | _, _ => (Return None, st)
    end.
Proof.
  unfold lookup_product, try_except, bind, db_getitem, lift_option, find_one_id,
    find_one, bind, find_by_id, find_product_op.
  destruct (g_db st) as [d|] eqn:Hdb; [|reflexivity].
  destruct (ObjectId_of_str (product_id item)) as [[o|bs]|]; simpl;
    [| |reflexivity]; rewrite round_trip_run;
    destruct (hd false (faults st)); reflexivity.
Qed.

Lemma find_by_id_nonempty o docs prod :
  find_by_id o docs = Some prod -> prod <> [].
Proof.
  intros H. apply find_some in H as [_ H]. now destruct prod.
Qed.

(** One turn of the loop on an item that resolves. *)
Lemma order_loop_step r rest total acc st :
  g_db st <> None -> hd false (faults st) = false -> resolved st r ->
  order_loop (r_item r :: rest) total acc st
  = order_loop rest (total + line_total_of r)%float
      (acc ++ [line_item (r_item r) (r_prod r) (r_price r) (line_total_of r)])
      (trips [find_product_op (r_oid r)] st).
Proof.
  intros Hdb Hok (Hparse & Hfind & Hprice & Hq).
  cbn [order_loop]. unfold bind at 1. rewrite lookup_product_run.
  destruct (g_db st) as [d|]; [|congruence].
  rewrite (ObjectId_of_str_whole _ _ Hparse), Hok, Hfind.
  pose proof (find_by_id_nonempty _ _ _ Hfind) as Hne.
  unfold line_total_of.
  destruct (r_prod r) as [|kv prod]; [congruence|].
  unfold bind, lift_result. rewrite Hprice.
  rewrite (float_of_int_quantity _ Hq). reflexivity.
Qed.

(** The loop over a run of items that all resolve. *)
Lemma order_loop_prefix rs : forall l total acc st,
  g_db st <> None -> reliable (List.length rs) st -> Forall (resolved st) rs ->
  order_loop (map r_item rs ++ l) total acc st
  = order_loop l (fold_left PrimFloat.add (map line_total_of rs) total)
      (acc ++ map line_of rs)
      (trips (map (fun r => find_product_op (r_oid r)) rs) st).
Proof.
  induction rs as [|r rs IH]; intros l total acc st Hdb Hrel Hres.
  - simpl. now rewrite app_nil_r, trips_nil.
  - apply reliable_S in Hrel as [Hhd Hrel].
    inversion Hres as [|? ? Hr Hrs]; subst.
    cbn [map app]. rewrite order_loop_step by assumption.
    rewrite IH; [| exact Hdb | apply Hrel | exact Hrs].
    rewrite trips_app, <- app_assoc. reflexivity.
Qed.

Lemma order_loop_resolved rs total acc st :
  g_db st <> None -> reliable (List.length rs) st -> Forall (resolved st) rs ->
  order_loop (map r_item rs) total acc st
  = (Return (fold_left PrimFloat.add (map line_total_of rs) total,
             (acc ++ map line_of rs)%list),
     trips (map (fun r => find_product_op (r_oid r)) rs) st).
Proof.
  intros Hdb Hrel Hres.
  rewrite <- (app_nil_r (map r_item rs)).
  now rewrite order_loop_prefix.
Qed.

(** The loop on an item whose lookup comes back empty. *)
Lemma order_loop_not_found item rest total acc st :
  fst (lookup_product item st) = Return None ->
  order_loop (item :: rest) total acc st
  = (Raise (HTTPException 404 ("Product not found: " ++ product_id item)%string),
     snd (lookup_product item st)).
Proof.
  intros H. cbn [order_loop]. unfold bind at 1.
  destruct (lookup_product item st) as [r st'].
  simpl in H; subst r. reflexivity.
Qed.

(* ================================================================== *)
(** ** Dictionaries, collections and identifiers in use *)

Lemma dict_set_new k v d :
  dict_get k d = None -> dict_set k v d = (d ++ [(k, v)])%list.
Proof.
  induction d as [|[k' v'] d IH]; simpl; [reflexivity|].
  destruct (String.eqb k k'); [discriminate|]. intros H. now rewrite IH.
Qed.

Lemma dict_get_app_new k v d :
  dict_get k d = None -> dict_get k (d ++ [(k, v)]) = Some v.
Proof.
  induction d as [|[k' v'] d IH]; simpl.
  - now rewrite String.eqb_refl.
  - destruct (String.eqb k k'); [discriminate | exact IH].
Qed.

Lemma dict_pop_app_new k v d :
  dict_get k d = None -> dict_pop k (d ++ [(k, v)]) = d.
Proof.
  induction d as [|[k' v'] d IH]; simpl.
  - now rewrite String.eqb_refl.
  - destruct (String.eqb k k'); [discriminate|]. intros H. now rewrite IH.
Qed.

Lemma stored_form_new v d :
  dict_get "_id" d = None ->
  stored_form (d ++ [("_id", v)]) = ("_id", v) :: d.
Proof.
  intros H. unfold stored_form.
  now rewrite dict_get_app_new, dict_pop_app_new.
Qed.

Lemma collection_set_same n docs d :
  collection (set_collection n docs d) n = docs.
Proof.
  induction d as [|[m old] d IH]; simpl.
  - now rewrite String.eqb_refl.
  - destruct (String.eqb n m) eqn:E; simpl; rewrite E; [reflexivity | exact IH].
Qed.

Lemma collection_set_other n m docs d :
  n <> m -> collection (set_collection n docs d) m = collection d m.
Proof.
  intros Hnm. induction d as [|[k old] d IH]; simpl.
  - apply String.eqb_neq in Hnm. rewrite String.eqb_sym in Hnm. now rewrite Hnm.
  - destruct (String.eqb n k) eqn:E; simpl.
    + apply String.eqb_eq in E; subst k.
      destruct (String.eqb m n) eqn:E'; [|reflexivity].
      apply String.eqb_eq in E'. congruence.
    + destruct (String.eqb m k); [reflexivity | exact IH].
Qed.

Lemma oid_eqb_eq a b : oid_eqb a b = true <-> a = b.
Proof.
  destruct a as [a], b as [b]; unfold oid_eqb; simpl.
  rewrite N.eqb_eq. split; congruence.
Qed.

Lemma value_eqb_oid_l o v : value_eqb (VOid o) v = true -> v = VOid o.
Proof.
  destruct v; simpl; try discriminate.
  intros H. apply oid_eqb_eq in H. now subst.
Qed.

Lemma value_eqb_oid_r o v : value_eqb v (VOid o) = true -> v = VOid o.
Proof.
  destruct v; simpl; try discriminate.
  intros H. apply oid_eqb_eq in H. now subst.
Qed.


Lemma same_id_unused o doc docs :
  oid_unused o docs -> dict_get "_id" doc = Some (VOid o) ->
  existsb (same_id doc) docs = false.
Proof.
  intros Hun Hid. induction docs as [|x docs IH]; [reflexivity|].
  simpl. rewrite IH by (intros d Hd; apply Hun; now right).
  rewrite orb_false_r. unfold same_id. rewrite Hid.
  destruct (dict_get "_id" x) as [v|] eqn:E; [|reflexivity].
  destruct (value_eqb (VOid o) v) eqn:Ev; [|reflexivity].
  apply value_eqb_oid_l in Ev; subst v.
  exfalso. apply (Hun x); [now left | exact E].
Qed.

Lemma matches_id_unused o x :
  dict_get "_id" x <> Some (VOid o) -> matches [("_id", VOid o)] x = false.
Proof.
  intros H. unfold matches; simpl.
  destruct (dict_get "_id" x) as [v|]; [|reflexivity].
  destruct (value_eqb v (VOid o)) eqn:Ev; [|reflexivity].
  apply value_eqb_oid_r in Ev; subst v. congruence.
Qed.


Lemma find_by_id_app_new o docs d :
  oid_unused o docs ->
  find_by_id o (docs ++ [("_id", VOid o) :: d]) = Some (("_id", VOid o) :: d).
Proof.
  intros Hun. unfold find_by_id.
  induction docs as [|x docs IH].
  - simpl. unfold matches; simpl. now rewrite (proj2 (oid_eqb_eq o o) eq_refl).
  - cbn [app find]. rewrite matches_id_unused by (apply Hun; now left).
    apply IH. intros d' Hd; apply Hun; now right.
Qed.

Lemma docs_of_put_same c docs st :
  g_db st <> None -> docs_of (put_docs c docs st) c = docs.
Proof.
  unfold docs_of, put_docs. destruct (g_db st) as [d|]; [|congruence].
  intros _. simpl. apply collection_set_same.
Qed.

Lemma docs_of_put_other c c' docs st :
  c <> c' -> docs_of (put_docs c docs st) c' = docs_of st c'.
Proof.
  intros H. unfold docs_of, put_docs.
  destruct (g_db st) as [d|] eqn:E; [| now rewrite E].
  simpl. now apply collection_set_other.
Qed.

(* ================================================================== *)
(** ** Running the store operations *)

Lemma find_one_run c q st :
  find_one c q st
  = (if hd false (faults st) then Raise PyMongoError
     else Return (find (matches q) (docs_of st c)),
     trips [OpFindOne c q] st).
Proof.
  unfold find_one, bind. rewrite round_trip_run.
  destruct (hd false (faults st)); reflexivity.
Qed.

Lemma insert_one_run c doc st :
  hd false (faults st) = false ->
  dict_get "_id" doc = None ->
  oid_unused (Oid (next_oid st)) (docs_of st c) ->
  insert_one c doc st
  = (Return (VOid (Oid (next_oid st))),
     put_docs c (docs_of st c ++ [("_id", VOid (Oid (next_oid st))) :: doc])
       (trips [OpInsertOne c (doc ++ [("_id", VOid (Oid (next_oid st)))])]
          (took_oid st))).
Proof.
  intros Hhd Hnone Hun.
  unfold insert_one, assign_id, dict_has. rewrite Hnone.
  unfold bind at 1. unfold bind at 1. unfold new_ObjectId, ret.
  rewrite (dict_set_new _ _ _ Hnone).
  unfold bind at 1. rewrite round_trip_run. cbn [faults]. rewrite Hhd.
  unfold bind. unfold server_insert.
  change (docs_of (trips _ _) c) with (docs_of st c).
  rewrite (same_id_unused (Oid (next_oid st))); [| exact Hun | now apply dict_get_app_new].
  rewrite stored_form_new by exact Hnone.
  unfold dict_get_default. rewrite dict_get_app_new by exact Hnone.
  reflexivity.
Qed.

Lemma put_docs_db c docs st : g_db st <> None -> g_db (put_docs c docs st) <> None.
Proof. unfold put_docs. destruct (g_db st); [discriminate | congruence]. Qed.

Lemma put_docs_faults c docs st : faults (put_docs c docs st) = faults st.
Proof. unfold put_docs. now destruct (g_db st). Qed.

Lemma put_docs_oplog c docs st : oplog (put_docs c docs st) = oplog st.
Proof. unfold put_docs. now destruct (g_db st). Qed.

Lemma put_docs_next_oid c docs st : next_oid (put_docs c docs st) = next_oid st.
Proof. unfold put_docs. now destruct (g_db st). Qed.


Lemma serialize_order_doc o c rs :
  serialize_doc (("_id", VOid o) :: order_doc_of c rs)
  = order_doc_of c rs ++ [("id", VStr (oid_str o))].
Proof. reflexivity. Qed.

Lemma reliable_trips ops k st :
  reliable (List.length ops + k) st -> reliable k (trips ops st).
Proof.
  unfold reliable, trips; cbn [faults].
  generalize (faults st) as fs.
  induction ops as [|op ops IH]; intros fs; [exact (fun H => H)|].
  destruct fs as [|b fs]; simpl.
  - intros _. now destruct k.
  - intros H. apply andb_prop in H as [_ H]. now apply IH.
Qed.

Lemma reliable_hd k st : reliable (S k) st -> hd false (faults st) = false.
Proof. intros H. now apply reliable_S in H. Qed.

(** A placement whose items all resolve, on a store that answers. *)
Lemma create_order_run order rs st :
  g_db st <> None ->
  reliable (List.length rs + 2) st ->
  generator_fresh st ->
  items order = map r_item rs ->
  Forall (resolved st) rs ->
  create_order order st
  = (Return (order_response (customer order) rs st),
     order_placed (customer order) rs st).
Proof.
  intros Hdb Hrel [Hlt Hun] Hitems Hres.
  unfold create_order. rewrite Hitems.
  rewrite (bind_run _ _ _ _ _
             (order_loop_resolved rs zero [] st Hdb
                (reliable_le _ _ _ (Nat.le_add_r _ _) Hrel) Hres)).
  cbn [fst snd app].
  rewrite <- (length_map (fun r => find_product_op (r_oid r)) rs) in Hrel.
  apply reliable_trips in Hrel.
  set (st1 := trips (map (fun r => find_product_op (r_oid r)) rs) st) in *.
  fold (float_sum (map line_total_of rs)).
  fold (order_doc_of (customer order) rs).
  unfold create_document.
  unfold bind at 1. unfold bind at 1. unfold db_is_None.
  assert (Hdb1 : g_db st1 <> None) by exact Hdb.
  destruct (g_db st1) as [d|] eqn:Ed; [|congruence].
  unfold bind at 1.
  rewrite insert_one_run;
    [ | exact (reliable_hd _ _ Hrel) | reflexivity | exact Hun ].
  unfold ret at 1. cbn [py_str].
  change (next_oid st1) with (next_oid st).
  change (docs_of st1 "order") with (docs_of st "order").
  set (o := Oid (next_oid st)) in *.
  set (st2 := put_docs "order" _ _).
  assert (Hdb2 : g_db st2 <> None) by (apply put_docs_db; exact Hdb).
  assert (Hhd2 : hd false (faults st2) = false).
  { unfold st2. rewrite put_docs_faults.
    apply reliable_S in Hrel as [_ Hrel].
    exact (reliable_hd _ _ (Hrel (OpInsertOne "order" []))). }
  unfold bind at 1. unfold db_getitem.
  destruct (g_db st2) as [d2|] eqn:Ed2; [|congruence].
  unfold bind at 1. rewrite (ObjectId_of_str_str o Hlt). cbn [lift_option]. unfold ret at 1.
  cbn [find_one_id].
  unfold bind at 1. rewrite find_one_run, Hhd2.
  unfold st2 at 1. rewrite docs_of_put_same by exact Hdb.
  fold (find_by_id o (docs_of st "order" ++ [("_id", VOid o) :: order_doc_of (customer order) rs])).
  rewrite (find_by_id_app_new o _ _ Hun).
  unfold ret. rewrite serialize_order_doc. reflexivity.
Qed.

Lemma order_placed_orders c rs st :
  g_db st <> None ->
  docs_of (order_placed c rs st) "order"
  = docs_of st "order" ++ [("_id", VOid (Oid (next_oid st))) :: order_doc_of c rs].
Proof.
  intros Hdb. unfold order_placed. rewrite docs_of_trips.
  now rewrite docs_of_put_same.
Qed.


Lemma order_placed_oplog c rs st :
  oplog (order_placed c rs st)
  = oplog st ++ map (fun r => find_product_op (r_oid r)) rs
      ++ [OpInsertOne "order"
            (order_doc_of c rs ++ [("_id", VOid (Oid (next_oid st)))]);
          OpFindOne "order" [("_id", VOid (Oid (next_oid st)))]].
Proof.
  unfold order_placed. cbn [trips oplog]. rewrite put_docs_oplog.
  cbn [trips took_oid oplog]. now rewrite <- !app_assoc.
Qed.

(** Identifiers stay fresh from one placement to the next. *)
Lemma orders_below_fresh st :
  orders_below st -> (next_oid st < 16 ^ 24)%N -> generator_fresh st.
Proof.
  intros Hb Hlt. split; [exact Hlt|].
  intros d Hd Hid. specialize (Hb d _ Hd Hid). cbn in Hb. lia.
Qed.

Lemma order_placed_below c rs st :
  g_db st <> None -> orders_below st -> orders_below (order_placed c rs st).
Proof.
  intros Hdb Hb d o Hd Hid.
  rewrite order_placed_orders in Hd by exact Hdb.
  replace (next_oid (order_placed c rs st)) with (N.succ (next_oid st))
    by (unfold order_placed; cbn [trips next_oid]; now rewrite put_docs_next_oid).
  apply in_app_or in Hd as [Hd | [<- | []]].
  - specialize (Hb d o Hd Hid). lia.
  - cbn in Hid. injection Hid as <-. cbn. lia.
Qed.

(* ================================================================== *)
(** ** Rounding to two decimal digits *)

(** [round_half_even m e] is an integer nearest to [m * 2^e], the even
    one at a tie. *)
Lemma round_half_even_nearest m e :
  0 <= m ->
  0 <= round_half_even m e /\
  nearest_even (m * 2 ^ Z.max e 0) (2 ^ Z.max (- e) 0) (round_half_even m e).
Proof.
  intros Hm. unfold round_half_even, nearest_even.
  destruct (0 <=? e) eqn:He.
  - apply Z.leb_le in He.
    rewrite (Z.max_l e 0) by lia. rewrite (Z.max_r (- e) 0) by lia.
    change (2 ^ 0) with 1.
    assert (0 <= 2 ^ e) by (apply Z.pow_nonneg; lia).
    split; [nia|]. split; lia.
  - apply Z.leb_gt in He.
    rewrite (Z.max_r e 0) by lia. rewrite (Z.max_l (- e) 0) by lia.
    change (2 ^ 0) with 1. rewrite Z.mul_1_r.
    set (d := 2 ^ (- e)).
    assert (Hd : 0 < d) by (apply Z.pow_pos_nonneg; lia).
    pose proof (Z.div_mod m d ltac:(lia)) as Hdm.
    pose proof (Z.mod_pos_bound m d Hd) as Hr.
    assert (Hq : 0 <= m / d) by (apply Z.div_pos; lia).
    set (q := m / d) in *. set (r := m mod d) in *.
    cbv zeta.
    destruct (Z.compare_spec (2 * r) d) as [Heq | Hlt | Hgt].
    + destruct (Z.even q) eqn:Hev.
      * split; [exact Hq|]. split; [|intros _; exact Hev].
        replace (m - q * d) with r by lia. lia.
      * split; [lia|]. split.
        -- replace (m - (q + 1) * d) with (r - d) by lia. lia.
        -- intros _. rewrite Z.add_1_r, Z.even_succ, <- Z.negb_even, Hev.
           reflexivity.
    + split; [exact Hq|]. replace (m - q * d) with r by lia. split; lia.
    + split; [lia|]. replace (m - (q + 1) * d) with (r - d) by lia. split; lia.
Qed.

(** What [round2] gives for a finite, non-zero float [(-1)^s * m * 2^e]:
    with [k] the integer nearest to 100 times its magnitude (as an
    exact fraction, ties to even), the float nearest to [k / 100] with
    the same sign. *)
Lemma round2_hundredths x s m e :
  Prim2SF x = S754_finite s m e ->
  exists k,
    0 <= k /\
    nearest_even (100 * (Zpos m * 2 ^ Z.max e 0)) (2 ^ Z.max (- e) 0) k /\
    round2 x = hundredths s k.
Proof.
  intros Hx. unfold round2. rewrite Hx.
  destruct (round_half_even_nearest (Zpos m * 100) e ltac:(lia)) as [Hk Hnear].
  exists (round_half_even (Zpos m * 100) e).
  split; [exact Hk|]. split.
  - replace (100 * (Zpos m * 2 ^ Z.max e 0))
      with (Zpos m * 100 * 2 ^ Z.max e 0) by ring.
    exact Hnear.
  - unfold hundredths.
    destruct (round_half_even (Zpos m * 100) e) as [|n|n];
      [now destruct s | reflexivity | lia].
Qed.

(* ================================================================== *)
(** ** Orders whose items all resolve *)

(** C1: when every cart item resolves to an existing product (and the
    store answers), the order that is returned has status "received",
    each of its line items carries as [unit_price] the price read from
    the product found for that item and as [line_total] that price times
    the quantity, and its [total] is the sum of those products, taken
    from 0.0 in cart order, rounded to two decimal digits: when the sum
    is the finite, non-zero float [(-1)^s * m * 2^e], the total is the
    float nearest to [k / 100] with that sign, where [k] is the integer
    nearest to 100 times the magnitude [m * 2^e], taken exactly (the
    even one at a tie); a sum that is zero, infinite or NaN is the
    total as it is. *)
Theorem create_order_total order rs st :
  g_db st <> None ->
  reliable (List.length rs + 2) st ->
  generator_fresh st ->
  items order = map r_item rs ->
  Forall (resolved st) rs ->
  exists doc lines st',
    create_order order st = (Return doc, st') /\
    dict_get "status" doc = Some (VStr "received") /\
    dict_get "items" doc = Some (VList (map VDict lines)) /\
    Forall2 (fun r line =>
               dict_get "unit_price" line = Some (VFloat (r_price r)) /\
               dict_get "line_total" line
               = Some (VFloat (r_price r * int_to_float (quantity (r_item r)))))
            rs lines /\
    dict_get "total" doc
    = Some (VFloat (round2 (float_sum
         (map (fun r => (r_price r * int_to_float (quantity (r_item r)))%float)
              rs)))) /\
    (forall s m e,
       Prim2SF (float_sum
         (map (fun r => (r_price r * int_to_float (quantity (r_item r)))%float)
              rs)) = S754_finite s m e ->
       exists k,
         0 <= k /\
         nearest_even (100 * (Zpos m * 2 ^ Z.max e 0)) (2 ^ Z.max (- e) 0) k /\
         dict_get "total" doc = Some (VFloat (hundredths s k))) /\
    ((forall s m e,
        Prim2SF (float_sum
          (map (fun r => (r_price r * int_to_float (quantity (r_item r)))%float)
               rs)) <> S754_finite s m e) ->
     dict_get "total" doc
     = Some (VFloat (float_sum
          (map (fun r => (r_price r * int_to_float (quantity (r_item r)))%float)
               rs)))).
Proof.
  intros Hdb Hrel Hfresh Hitems Hres.
  exists (order_response (customer order) rs st).
  exists (map (fun r =>
                 [("product_id", VStr (product_id (r_item r)));
                  ("title", dict_get_default "title" VNone (r_prod r));
                  ("size", VStr (size (r_item r)));
                  ("quantity", VInt (quantity (r_item r)));
                  ("unit_price", VFloat (r_price r));
                  ("line_total", VFloat (line_total_of r))]) rs).
  exists (order_placed (customer order) rs st).
  split; [now apply create_order_run|].
  split; [reflexivity|].
  split; [cbn; now rewrite map_map|].
  split.
  { clear. induction rs as [|r rs IH]; constructor; [|exact IH].
    split; reflexivity. }
  assert (Htotal : dict_get "total" (order_response (customer order) rs st)
                   = Some (VFloat (round2 (float_sum (map line_total_of rs)))))
    by reflexivity.
  fold line_total_of.
  change (fun r => line_total_of r) with line_total_of.
  split; [exact Htotal|]. split.
  - intros s m e Hsum.
    destruct (round2_hundredths _ s m e Hsum) as (k & Hk & Hnear & Hround).
    exists k. split; [exact Hk|]. split; [exact Hnear|].
    now rewrite Htotal, Hround.
  - intros Hsum. rewrite Htotal. unfold round2.
    destruct (Prim2SF (float_sum (map line_total_of rs))) as [sg| sg | |sg m e] eqn:E;
      try reflexivity.
    now destruct (Hsum sg m e).
Qed.

(** C6: a successful placement persists one order document whose line
    items follow the cart's order, one per cart item, each made of
    exactly the item's product identifier, the title of the product
    found, the requested size and quantity, the unit price and the line
    total. *)
Theorem create_order_line_items order rs st :
  g_db st <> None ->
  reliable (List.length rs + 2) st ->
  generator_fresh st ->
  items order = map r_item rs ->
  Forall (resolved st) rs ->
  exists doc saved st',
    create_order order st = (Return doc, st') /\
    docs_of st' "order" = docs_of st "order" ++ [saved] /\
    dict_get "items" doc = dict_get "items" saved /\
    dict_get "items" saved
    = Some (VList (map (fun r =>
         VDict [("product_id", VStr (product_id (r_item r)));
                ("title", dict_get_default "title" VNone (r_prod r));
                ("size", VStr (size (r_item r)));
                ("quantity", VInt (quantity (r_item r)));
                ("unit_price", VFloat (r_price r));
                ("line_total",
                 VFloat (r_price r * int_to_float (quantity (r_item r))))])
         rs)).
Proof.
  intros Hdb Hrel Hfresh Hitems Hres.
  exists (order_response (customer order) rs st).
  exists (("_id", VOid (Oid (next_oid st))) :: order_doc_of (customer order) rs).
  exists (order_placed (customer order) rs st).
  split; [now apply create_order_run|].
  split; [now apply order_placed_orders|].
  split; reflexivity.
Qed.

(** C9: nothing in the conditions of a successful placement relates an
    item's size to the sizes its product declares: when every item
    resolves to an existing product and the store answers, whatever the
    size texts are, the order is placed and each persisted line item
    carries the size text of its cart item as given. *)
Theorem create_order_size_unchecked order rs st :
  g_db st <> None ->
  reliable (List.length rs + 2) st ->
  generator_fresh st ->
  items order = map r_item rs ->
  Forall (resolved st) rs ->
  exists doc saved lines st',
    create_order order st = (Return doc, st') /\
    docs_of st' "order" = docs_of st "order" ++ [saved] /\
    dict_get "items" saved = Some (VList (map VDict lines)) /\
    map (dict_get "size") lines
    = map (fun item => Some (VStr (size item))) (items order).
Proof.
  intros Hdb Hrel Hfresh Hitems Hres.
  exists (order_response (customer order) rs st).
  exists (("_id", VOid (Oid (next_oid st))) :: order_doc_of (customer order) rs).
  exists (map (fun r =>
                 [("product_id", VStr (product_id (r_item r)));
                  ("title", dict_get_default "title" VNone (r_prod r));
                  ("size", VStr (size (r_item r)));
                  ("quantity", VInt (quantity (r_item r)));
                  ("unit_price", VFloat (r_price r));
                  ("line_total", VFloat (line_total_of r))]) rs).
  exists (order_placed (customer order) rs st).
  split; [now apply create_order_run|].
  split; [now apply order_placed_orders|].
  split; [cbn; now rewrite map_map|].
  rewrite Hitems, !map_map. reflexivity.
Qed.

(* ================================================================== *)
(** ** Orders with an item that does not resolve *)

Lemma resolved_connected st r : resolved st r -> g_db st <> None.
Proof.
  intros (_ & Hfind & _). unfold find_by_id, docs_of in Hfind.
  destruct (g_db st); [discriminate | discriminate].
Qed.

Lemma lookup_product_invalid item st :
  ObjectId_of_str (product_id item) = None ->
  lookup_product item st = (Return None, st).
Proof.
  intros H. rewrite lookup_product_run, H. now destruct (g_db st).
Qed.

Lemma lookup_product_absent item st :
  g_db st = None -> lookup_product item st = (Return None, st).
Proof. intros H. now rewrite lookup_product_run, H. Qed.

(** An item that has no product: whatever its text is and whether the
    round trip made for it fails or not, the lookup comes back empty. *)
Lemma lookup_product_unresolved item st :
  g_db st <> None -> product_of st item = None ->
  lookup_product item st = (Return None, trips (lookup_ops item) st).
Proof.
  intros Hdb H. rewrite lookup_product_run. unfold product_of, lookup_ops in *.
  destruct (g_db st); [|congruence].
  destruct (oid_parse (product_id item)) as [o|] eqn:Ho.
  - rewrite (ObjectId_of_str_whole _ _ Ho), H.
    now destruct (hd false (faults st)).
  - destruct (ObjectId_of_str_other _ Ho) as [-> | [bs ->]];
      [now rewrite trips_nil | reflexivity].
Qed.

Lemma lookup_product_fault item o st :
  g_db st <> None -> oid_parse (product_id item) = Some o ->
  hd false (faults st) = true ->
  lookup_product item st = (Return None, trips [find_product_op o] st).
Proof.
  intros Hdb Hparse Hhd.
  rewrite lookup_product_run, (ObjectId_of_str_whole _ _ Hparse), Hhd.
  destruct (g_db st); [reflexivity | congruence].
Qed.

(** The loop stops at the first item whose lookup comes back empty. *)
Lemma order_loop_stops rs item post total acc st :
  reliable (List.length rs) st -> Forall (resolved st) rs ->
  let st1 := trips (map (fun r => find_product_op (r_oid r)) rs) st in
  fst (lookup_product item st1) = Return None ->
  order_loop (map r_item rs ++ item :: post) total acc st
  = (Raise (HTTPException 404 ("Product not found: " ++ product_id item)%string),
     snd (lookup_product item st1)).
Proof.
  intros Hrel Hres st1 Hnone. subst st1.
  destruct rs as [|r rs].
  - cbn [map app] in *. rewrite trips_nil in *.
    now apply order_loop_not_found.
  - rewrite order_loop_prefix; [| | exact Hrel | exact Hres].
    + now apply order_loop_not_found.
    + inversion Hres; subst. eapply resolved_connected; eassumption.
Qed.

Lemma create_order_stops order rs item post st :
  items order = map r_item rs ++ item :: post ->
  reliable (List.length rs) st -> Forall (resolved st) rs ->
  let st1 := trips (map (fun r => find_product_op (r_oid r)) rs) st in
  fst (lookup_product item st1) = Return None ->
  create_order order st
  = (Raise (HTTPException 404 ("Product not found: " ++ product_id item)%string),
     snd (lookup_product item st1)).
Proof.
  intros Hitems Hrel Hres st1 Hnone. unfold create_order. rewrite Hitems.
  apply bind_raise. now apply order_loop_stops.
Qed.

Lemma flat_map_lookup_ops_resolved st rs :
  Forall (resolved st) rs ->
  flat_map lookup_ops (map r_item rs)
  = map (fun r => find_product_op (r_oid r)) rs.
Proof.
  induction 1 as [|r rs Hr _ IH]; [reflexivity|].
  cbn [map flat_map]. rewrite IH. unfold lookup_ops.
  destruct Hr as (Hr & _). now rewrite (ObjectId_of_str_whole _ _ Hr).
Qed.

(** C2: on a connected store, a cart whose items resolve up to one that
    has no product (its text spells an identifier no product has, or
    spells none) is refused with "Product not found" naming that
    identifier, the first that does not resolve; nothing is written (the
    database is what it was, so neither an order nor any part of one is
    persisted, the items before it included), and the store is asked
    about the items up to and including that one only: the items after
    it are never looked up. *)
Theorem create_order_product_not_found order rs item post st :
  items order = map r_item rs ++ item :: post ->
  g_db st <> None ->
  reliable (List.length rs) st ->
  Forall (resolved st) rs ->
  product_of st item = None ->
  exists st',
    create_order order st
    = (Raise (HTTPException 404 ("Product not found: " ++ product_id item)%string),
       st') /\
    g_db st' = g_db st /\
    oplog st' = oplog st ++ flat_map lookup_ops (map r_item rs ++ [item]).
Proof.
  intros Hitems Hdb Hrel Hres Hnone.
  pose proof (create_order_stops order rs item post st Hitems Hrel Hres) as Hrun.
  cbv zeta in Hrun.
  rewrite (lookup_product_unresolved item
             (trips (map (fun r => find_product_op (r_oid r)) rs) st) Hdb Hnone)
    in Hrun.
  eexists. split; [apply Hrun; reflexivity|].
  split; [reflexivity|].
  rewrite flat_map_app, (flat_map_lookup_ops_resolved st rs Hres).
  cbn [flat_map]. rewrite app_nil_r.
  cbn [trips oplog snd]. now rewrite app_assoc.
Qed.

Lemma hd_skipn_nth {A : Type} (d : A) n : forall l,
  hd d (skipn n l) = nth n l d.
Proof. induction n as [|n IH]; intros [|x l]; simpl; auto. Qed.

(** C10: a product identifier that [ObjectId] refuses ([InvalidId]: a
    text that has not 24 characters, or has a character that is neither
    a hexadecimal digit nor white space, or a digit that is not followed
    by a second one) is answered like one that names no product:
    "Product not found" with that text, status 404, a client error and
    not a validation or server error; the store is not asked about it
    and nothing is written. *)
Theorem create_order_invalid_id order rs item post st :
  items order = map r_item rs ++ item :: post ->
  reliable (List.length rs) st ->
  Forall (resolved st) rs ->
  ObjectId_of_str (product_id item) = None ->
  exists st',
    create_order order st
    = (Raise (HTTPException 404 ("Product not found: " ++ product_id item)%string),
       st') /\
    http_status (fst (create_order order st)) = 404 /\
    g_db st' = g_db st /\
    oplog st' = oplog st ++ map (fun r => find_product_op (r_oid r)) rs.
Proof.
  intros Hitems Hrel Hres Hparse.
  pose proof (create_order_stops order rs item post st Hitems Hrel Hres) as Hrun.
  cbv zeta in Hrun. rewrite (lookup_product_invalid _ _ Hparse) in Hrun.
  specialize (Hrun eq_refl). cbn [snd] in Hrun.
  eexists. split; [exact Hrun|]. rewrite Hrun.
  repeat split.
Qed.

(** C3 (as the code has it): when the store fails while a product is
    being resolved, because there is no connection or because the lookup
    round trip fails, the placement is answered "Product not found"
    naming that item's identifier, with status 404, which is a client
    error and not a server error; no order is created. *)
Theorem create_order_store_failure order rs item post st :
  items order = map r_item rs ++ item :: post ->
  reliable (List.length rs) st ->
  Forall (resolved st) rs ->
  g_db st = None \/
  (g_db st <> None /\
   oid_parse (product_id item) <> None /\
   nth (List.length rs) (faults st) false = true) ->
  exists st',
    create_order order st
    = (Raise (HTTPException 404 ("Product not found: " ++ product_id item)%string),
       st') /\
    client_error (fst (create_order order st)) = true /\
    server_error (fst (create_order order st)) = false /\
    g_db st' = g_db st.
Proof.
  intros Hitems Hrel Hres Hfail.
  pose proof (create_order_stops order rs item post st Hitems Hrel Hres) as Hrun.
  cbv zeta in Hrun.
  set (st1 := trips (map (fun r => find_product_op (r_oid r)) rs) st) in *.
  destruct Hfail as [Habs | (Hdb & Hparse & Hnth)].
  - rewrite (lookup_product_absent item st1 Habs) in Hrun.
    specialize (Hrun eq_refl). exists st1.
    rewrite Hrun. repeat split.
  - destruct (oid_parse (product_id item)) as [o|] eqn:Ho; [|congruence].
    assert (Hhd : hd false (faults st1) = true).
    { unfold st1; cbn [trips faults]. rewrite length_map.
      now rewrite hd_skipn_nth. }
    rewrite (lookup_product_fault item o st1 Hdb Ho Hhd) in Hrun.
    specialize (Hrun eq_refl). eexists.
    rewrite Hrun. repeat split.
Qed.

(* ================================================================== *)
(** ** Validation of the request body *)

Lemma validate_items_rejects l v :
  In v l -> validate_CartItem v = None -> validate_items l = None.
Proof.
  intros Hin Hv. induction l as [|x l IH]; [destruct Hin|].
  cbn [validate_items]. destruct Hin as [-> | Hin].
  - now rewrite Hv.
  - rewrite (IH Hin). now destruct (validate_CartItem x).
Qed.

(** C5: a body with a cart item whose quantity is an integer below 1 or
    above 10 fails validation, whatever else it holds: the request ends
    in the validation error, the handler does not run, and the process
    state, the record of round trips to the store included, is what it
    was. *)
Theorem post_api_order_quantity_range body l item q st :
  dict_get "items" body = Some (VList l) ->
  In (VDict item) l ->
  dict_get "quantity" item = Some (VInt q) ->
  q < 1 \/ 10 < q ->
  validate_OrderCreate (VDict body) = None /\
  post_api_order (VDict body) st = (Raise RequestValidationError, st) /\
  oplog (snd (post_api_order (VDict body) st)) = oplog st.
Proof.
  intros Hitems Hin Hq Hrange.
  assert (Hitem : validate_CartItem (VDict item) = None).
  { unfold validate_CartItem, validate_quantity. rewrite Hq.
    replace ((1 <=? q) && (q <=? 10)) with false
      by (symmetry; apply andb_false_iff; lia).
    destruct (validate_str (dict_get "product_id" item));
      [destruct (validate_str (dict_get "size" item))|]; reflexivity. }
  assert (Hv : validate_OrderCreate (VDict body) = None).
  { unfold validate_OrderCreate. rewrite Hitems.
    now rewrite (validate_items_rejects l _ Hin Hitem). }
  unfold post_api_order. rewrite Hv. repeat split.
Qed.

Lemma order_response_empty_renders c st :
  json_renderable (VDict (order_response c [] st)) = true.
Proof. reflexivity. Qed.

(** C4 (as the code has it): a body whose item sequence is empty and
    whose customer is well formed passes validation; the handler runs,
    looks no product up and, on a store that answers, persists one order
    with no line items, total 0.0 and status "received", and returns it:
    the answer has no line items, total 0.0, status "received", the
    customer that was sent, and as its "id" the text of the identifier
    the order is stored under. *)
Theorem post_api_order_empty_cart body c st :
  dict_get "items" body = Some (VList []) ->
  validate_CustomerInfo (dict_get "customer" body) = Some c ->
  g_db st <> None ->
  reliable 2 st ->
  generator_fresh st ->
  exists doc saved o st',
    validate_OrderCreate (VDict body) = Some {| items := []; customer := c |} /\
    post_api_order (VDict body) st = (Return doc, st') /\
    docs_of st' "order" = docs_of st "order" ++ [saved] /\
    dict_get "_id" saved = Some (VOid o) /\
    dict_get "items" saved = Some (VList []) /\
    dict_get "total" saved = Some (VFloat zero) /\
    dict_get "status" saved = Some (VStr "received") /\
    dict_get "id" doc = Some (VStr (oid_str o)) /\
    dict_get "items" doc = Some (VList []) /\
    dict_get "total" doc = Some (VFloat zero) /\
    dict_get "status" doc = Some (VStr "received") /\
    dict_get "customer" doc = Some (VDict (model_dump_CustomerInfo c)) /\
    exists ops,
      oplog st' = oplog st ++ ops /\
      Forall (fun op => op_collection op = "order") ops.
Proof.
  intros Hitems Hc Hdb Hrel Hfresh.
  assert (Hv : validate_OrderCreate (VDict body)
               = Some {| items := []; customer := c |}).
  { unfold validate_OrderCreate. rewrite Hitems, Hc. reflexivity. }
  exists (order_response c [] st),
    (("_id", VOid (Oid (next_oid st))) :: order_doc_of c []),
    (Oid (next_oid st)),
    (order_placed c [] st).
  split; [exact Hv|].
  split.
  { unfold post_api_order. rewrite Hv.
    rewrite (bind_run _ _ _ _ _
               (create_order_run {| items := []; customer := c |} [] st
                  Hdb Hrel Hfresh eq_refl (Forall_nil _))).
    unfold render. cbn [customer]. now rewrite order_response_empty_renders. }
  split; [now apply order_placed_orders|].
  do 9 (split; [reflexivity|]).
  rewrite order_placed_oplog. eexists. split; [reflexivity|].
  repeat constructor.
Qed.

(* ================================================================== *)
(** ** The catalog is only read *)

Lemma cro_same_state {A : Type} (m : M A) :
  (forall st, snd (m st) = st) -> catalog_read_only m.
Proof.
  intros H st. rewrite H. split; [reflexivity|].
  exists []. split; [now rewrite app_nil_r | constructor].
Qed.

Lemma cro_ret {A : Type} (a : A) : catalog_read_only (ret a).
Proof. now apply cro_same_state. Qed.

Lemma cro_raise {A : Type} (e : exn) : catalog_read_only (@raise A e).
Proof. now apply cro_same_state. Qed.

Lemma cro_lift_option {A : Type} e (o : option A) :
  catalog_read_only (lift_option e o).
Proof. apply cro_same_state. now destruct o. Qed.

Lemma cro_lift_result {A : Type} (r : result A) :
  catalog_read_only (lift_result r).
Proof. now apply cro_same_state. Qed.

Lemma cro_bind {A B : Type} (m : M A) (k : A -> M B) :
  catalog_read_only m -> (forall a, catalog_read_only (k a)) ->
  catalog_read_only (bind m k).
Proof.
  intros Hm Hk st. unfold bind.
  destruct (Hm st) as (Hd & ops & Hl & Hops).
  destruct (m st) as [[a|e] st1]; cbn [snd] in *.
  - destruct (Hk a st1) as (Hd' & ops' & Hl' & Hops').
    split; [congruence|]. exists (ops ++ ops'). split.
    + now rewrite Hl', Hl, app_assoc.
    + apply Forall_app; now split.
  - split; [exact Hd|]. now exists ops.
Qed.

Lemma cro_try {A : Type} (m : M A) (h : exn -> M A) :
  catalog_read_only m -> (forall e, catalog_read_only (h e)) ->
  catalog_read_only (try_except m h).
Proof.
  intros Hm Hh st. unfold try_except.
  destruct (Hm st) as (Hd & ops & Hl & Hops).
  destruct (m st) as [[a|e] st1]; cbn [snd] in *.
  - split; [exact Hd|]. now exists ops.
  - destruct (Hh e st1) as (Hd' & ops' & Hl' & Hops').
    split; [congruence|]. exists (ops ++ ops'). split.
    + now rewrite Hl', Hl, app_assoc.
    + apply Forall_app; now split.
Qed.

Lemma cro_round_trip op :
  (op_collection op = "product" -> op_is_read op = true) ->
  catalog_read_only (round_trip op).
Proof.
  intros H st. rewrite round_trip_run. cbn [snd].
  split; [reflexivity|]. exists [op]. split; [reflexivity|].
  now constructor.
Qed.

Lemma cro_find_one c q : catalog_read_only (find_one c q).
Proof.
  unfold find_one. apply cro_bind.
  - now apply cro_round_trip.
  - intros _. now apply cro_same_state.
Qed.

Lemma cro_find_one_id c o : catalog_read_only (find_one_id c o).
Proof.
  destruct o as [o|bs]; cbn [find_one_id]; [apply cro_find_one|].
  apply cro_bind; [now apply cro_round_trip | intros _; apply cro_ret].
Qed.

Lemma cro_render doc : catalog_read_only (render doc).
Proof.
  unfold render. destruct (json_renderable _); [apply cro_ret | apply cro_raise].
Qed.

Lemma cro_insert_one_order doc : catalog_read_only (insert_one "order" doc).
Proof.
  unfold insert_one. apply cro_bind.
  - unfold assign_id. destruct (dict_has "_id" doc); [apply cro_ret|].
    apply cro_bind; [|intros; apply cro_ret].
    intros st. split; [reflexivity|].
    exists []. split; [now rewrite app_nil_r | constructor].
  - intros doc'. apply cro_bind; [apply cro_round_trip; discriminate|].
    intros _. apply cro_bind; [|intros; apply cro_ret].
    intros st. unfold server_insert.
    destruct (existsb _ _); cbn [snd].
    + split; [reflexivity|]. exists []. split; [now rewrite app_nil_r | constructor].
    + split; [apply docs_of_put_other; discriminate|].
      exists []. rewrite put_docs_oplog. split; [now rewrite app_nil_r | constructor].
Qed.

Lemma cro_create_document_order doc :
  catalog_read_only (create_document "order" doc).
Proof.
  unfold create_document. apply cro_bind.
  - apply cro_same_state. intros st. unfold db_is_None. now destruct (g_db st).
  - intros [|]; [apply cro_raise|].
    apply cro_bind; [apply cro_insert_one_order | intros; apply cro_ret].
Qed.

Lemma cro_lookup_product item : catalog_read_only (lookup_product item).
Proof.
  unfold lookup_product. apply cro_try; [|intros; apply cro_ret].
  apply cro_bind.
  - apply cro_same_state. intros st. unfold db_getitem. now destruct (g_db st).
  - intros c. apply cro_bind; [apply cro_lift_option|].
    intros o. apply cro_find_one_id.
Qed.

Lemma cro_order_loop l : forall total acc,
  catalog_read_only (order_loop l total acc).
Proof.
  induction l as [|item l IH]; intros total acc; cbn [order_loop].
  - apply cro_ret.
  - apply cro_bind; [apply cro_lookup_product|].
    intros [[|kv prod]|]; try apply cro_raise.
    apply cro_bind; [apply cro_lift_result|]. intros price.
    apply cro_bind; [apply cro_lift_option|]. intros qty.
    apply IH.
Qed.

Lemma cro_create_order order : catalog_read_only (create_order order).
Proof.
  unfold create_order. apply cro_bind; [apply cro_order_loop|].
  intros acc. apply cro_bind; [apply cro_create_document_order|].
  intros order_id. apply cro_bind.
  { apply cro_same_state. intros st. unfold db_getitem. now destruct (g_db st). }
  intros c. apply cro_bind; [apply cro_lift_option|].
  intros o. apply cro_bind; [apply cro_find_one_id|].
  intros [doc|]; [apply cro_ret | apply cro_raise].
Qed.

(** C8: whatever the body and whatever the state, answering
    [POST /api/order] leaves the product collection as it was, and the
    only round trips it makes to that collection are reads. *)
Theorem post_api_order_catalog_unchanged body st :
  docs_of (snd (post_api_order body st)) "product" = docs_of st "product" /\
  exists ops,
    oplog (snd (post_api_order body st)) = oplog st ++ ops /\
    Forall (fun op => op_collection op = "product" -> op_is_read op = true) ops.
Proof.
  revert st. change (catalog_read_only (post_api_order body)).
  unfold post_api_order.
  destruct (validate_OrderCreate body) as [order|]; [|apply cro_raise].
  apply cro_bind; [apply cro_create_order | intros doc; apply cro_render].
Qed.

(* ================================================================== *)
(** ** Seeding the catalog *)

Lemma set_collection_twice c a b d :
  set_collection c a (set_collection c b d) = set_collection c a d.
Proof.
  induction d as [|[n old] d IH]; simpl.
  - now rewrite String.eqb_refl.
  - destruct (String.eqb c n) eqn:E; simpl; rewrite E; [reflexivity|].
    now rewrite IH.
Qed.

Lemma put_docs_twice c a b st :
  put_docs c a (put_docs c b st) = put_docs c a st.
Proof.
  unfold put_docs. destruct (g_db st) as [d|] eqn:E; simpl.
  - unfold set_db; simpl. now rewrite set_collection_twice.
  - now rewrite E.
Qed.

Lemma stored_form_id d v :
  dict_get "_id" d = Some v -> dict_get "_id" (stored_form d) = Some v.
Proof. intros H. unfold stored_form. rewrite H. reflexivity. Qed.

Lemma server_insert_run c d o st :
  dict_get "_id" d = Some (VOid o) ->
  oid_unused o (docs_of st c) ->
  server_insert c d st
  = (Return tt, put_docs c (docs_of st c ++ [stored_form d]) st).
Proof.
  intros Hid Hun. unfold server_insert.
  now rewrite (same_id_unused o d _ Hun Hid).
Qed.

(** An ordered bulk insert of documents whose identifiers are distinct
    and not in use inserts them all. *)
Lemma server_insert_all_run c : forall docs d ids st,
  g_db st <> None ->
  map (dict_get "_id") (d :: docs) = map (fun o => Some (VOid o)) ids ->
  NoDup ids ->
  (forall o, In o ids -> oid_unused o (docs_of st c)) ->
  server_insert_all c (d :: docs) st
  = (Return tt, put_docs c (docs_of st c ++ map stored_form (d :: docs)) st).
Proof.
  induction docs as [|d' docs IH]; intros d ids st Hdb Hids Hnd Hun;
    destruct ids as [|o ids]; try discriminate;
    injection Hids as Hd Hids;
    change (server_insert_all c (d :: ?ds))
      with (server_insert c d ;;; server_insert_all c ds);
    unfold bind at 1;
    rewrite (server_insert_run c d o st Hd (Hun o (or_introl eq_refl))).
  - reflexivity.
  - inversion Hnd as [|? ? Hnotin Hnd']; subst.
    rewrite (IH d' ids).
    + rewrite put_docs_twice, docs_of_put_same by exact Hdb.
      now rewrite <- app_assoc.
    + now apply put_docs_db.
    + exact Hids.
    + exact Hnd'.
    + intros o' Hin x Hx. rewrite docs_of_put_same in Hx by exact Hdb.
      apply in_app_or in Hx as [Hx | [<- | []]].
      * apply (Hun o' (or_intror Hin) x Hx).
      * rewrite (stored_form_id d _ Hd). intros E. injection E as ->.
        contradiction.
Qed.

Lemma NoDup_4_succ (n : N) :
  NoDup [Oid n; Oid (N.succ n); Oid (N.succ (N.succ n));
         Oid (N.succ (N.succ (N.succ n)))].
Proof.
  repeat constructor; cbn [In]; intros H;
    repeat (destruct H as [H | H]; [injection H; lia|]); exact H.
Qed.

Lemma assign_ids_seeds st :
  seeds_intact st ->
  exists ids n',
    List.length ids = 4%nat /\ NoDup ids /\
    assign_ids (g_SEED_PRODUCTS st) st
    = (Return (seeds_annotated ids), set_next_oid n' st).
Proof.
  intros [H | (ids & Hlen & Hnd & H)]; rewrite H.
  - exists [Oid (next_oid st); Oid (N.succ (next_oid st));
            Oid (N.succ (N.succ (next_oid st)));
            Oid (N.succ (N.succ (N.succ (next_oid st))))].
    exists (N.succ (N.succ (N.succ (N.succ (next_oid st))))).
    split; [reflexivity|]. split; [apply NoDup_4_succ|].
    reflexivity.
  - exists ids, (next_oid st).
    split; [exact Hlen|]. split; [exact Hnd|].
    destruct ids as [|o1 [|o2 [|o3 [|o4 [|o5 ids]]]]]; try discriminate.
    destruct st; reflexivity.
Qed.

Lemma stored_form_seeds ids :
  List.length ids = 4%nat ->
  map stored_form (seeds_annotated ids) = seeds_stored ids.
Proof.
  intros Hlen.
  destruct ids as [|o1 [|o2 [|o3 [|o4 [|o5 ids]]]]]; try discriminate.
  reflexivity.
Qed.

Lemma seeds_annotated_ids ids :
  List.length ids = 4%nat ->
  map (dict_get "_id") (seeds_annotated ids) = map (fun o => Some (VOid o)) ids.
Proof.
  intros Hlen.
  destruct ids as [|o1 [|o2 [|o3 [|o4 [|o5 ids]]]]]; try discriminate.
  reflexivity.
Qed.

Lemma serialize_seeds ids :
  List.length ids = 4%nat ->
  map serialize_doc (seeds_stored ids) = seeds_listed ids.
Proof.
  intros Hlen.
  destruct ids as [|o1 [|o2 [|o3 [|o4 [|o5 ids]]]]]; try discriminate.
  reflexivity.
Qed.

Lemma filter_matches_all (docs : list dict) : filter (matches []) docs = docs.
Proof.
  induction docs as [|d docs IH]; [reflexivity|]. cbn. now rewrite IH.
Qed.

(** When the handle refuses to be tested, the test raises inside the
    [try] and seeding is skipped, whatever the store holds. *)
Lemma ensure_seed_products_refused e st :
  handle_bool = Raise e -> g_db st <> None ->
  ensure_seed_products st = (Return tt, st).
Proof.
  intros Href Hdb. unfold ensure_seed_products, try_except, bind, db_truthy.
  destruct (g_db st); [|congruence]. now rewrite Href.
Qed.

(** A listing on a connected store whose product collection is empty. *)
Lemma list_products_run category st :
  g_db st <> None ->
  handle_bool = Return true ->
  docs_of st "product" = [] ->
  reliable 3 st ->
  seeds_intact st ->
  exists ids n',
    List.length ids = 4%nat /\ NoDup ids /\
    list_products category st
    = (Return (map serialize_doc
                 (filter (matches (category_query category)) (seeds_stored ids))),
       seeded ids n' (category_query category) st).
Proof.
  intros Hdb Htrue Hempty Hrel Hseeds.
  apply reliable_S in Hrel as [Hhd0 Hrel].
  set (st1 := trips [OpCount "product" []] st).
  specialize (Hrel (OpCount "product" [])). fold st1 in Hrel.
  destruct (assign_ids_seeds st1 Hseeds) as (ids & n' & Hlen & Hnd & Hassign).
  exists ids, n'. split; [exact Hlen|]. split; [exact Hnd|].
  apply reliable_S in Hrel as [Hhd1 Hrel].
  set (st2 := set_SEED_PRODUCTS (seeds_annotated ids) (set_next_oid n' st1)).
  set (st3 := trips [OpInsertMany "product" (seeds_annotated ids)] st2).
  assert (Hhd2 : hd false (faults st3) = false).
  { exact (reliable_hd _ _ (Hrel (OpInsertMany "product" []))). }
  set (st4 := put_docs "product" (seeds_stored ids) st3).
  assert (Hseed : ensure_seed_products st = (Return tt, st4)).
  { assert (Hcount :
      (t <- db_truthy ;;
       if (t : bool)
       then c <- db_getitem "product" ;; count_documents c []
       else ret 0) st = (Return 0, st1)).
    { unfold bind at 1. unfold db_truthy.
      destruct (g_db st) as [d|] eqn:Ed; [|congruence].
      rewrite Htrue. unfold bind at 1. unfold db_getitem. rewrite Ed.
      unfold count_documents, bind. rewrite round_trip_run, Hhd0.
      fold st1. change (docs_of st1 "product") with (docs_of st "product").
      now rewrite Hempty. }
    assert (Hinsert :
      (c <- db_getitem "product" ;; insert_many_SEED_PRODUCTS c) st1
      = (Return tt, st4)).
    { unfold bind at 1. unfold db_getitem.
      destruct (g_db st1) as [d|] eqn:Ed; [|now elim Hdb].
      unfold insert_many_SEED_PRODUCTS.
      unfold bind at 1. unfold bind at 1.
      rewrite Hassign. unfold bind at 1.
      fold st2.
      unfold bind at 1. rewrite round_trip_run.
      change (faults st2) with (faults st1). rewrite Hhd1. fold st3.
      destruct (seeds_annotated ids) as [|d0 ds] eqn:Eann.
      { destruct ids as [|o1 [|o2 [|o3 [|o4 [|o5 ids]]]]]; discriminate. }
      rewrite (server_insert_all_run "product" ds d0 ids st3).
      - change (docs_of st3 "product") with (docs_of st "product").
        rewrite Hempty. cbn [app]. rewrite <- Eann.
        rewrite (stored_form_seeds ids Hlen). reflexivity.
      - exact Hdb.
      - rewrite <- Eann. now apply seeds_annotated_ids.
      - exact Hnd.
      - intros o _ x Hx.
        change (docs_of st3 "product") with (docs_of st "product") in Hx.
        rewrite Hempty in Hx. destruct Hx. }
    unfold ensure_seed_products, try_except.
    rewrite (bind_run _ _ _ _ _ Hcount). cbn [Z.eqb].
    now rewrite Hinsert. }
  unfold list_products. fold (category_query category).
  rewrite (bind_run _ _ _ _ _ Hseed).
  unfold get_documents. unfold bind at 1. unfold bind at 1. unfold db_is_None.
  assert (Hdb4 : g_db st4 <> None) by (apply put_docs_db; exact Hdb).
  destruct (g_db st4) as [d4|] eqn:Ed4; [|congruence].
  unfold find_all, bind at 1. rewrite round_trip_run.
  unfold st4 at 1. rewrite put_docs_faults, Hhd2.
  unfold ret. unfold seeded. fold st1 st2 st3 st4.
  rewrite docs_of_trips. unfold st4 at 1.
  rewrite docs_of_put_same by exact Hdb. reflexivity.
Qed.

(** With a handle that tests true: a listing on a connected store that
    answers, whose product collection is empty, first inserts the
    four seed products, then answers from the collection so filled: the
    collection holds exactly the four hardcoded products, each under an
    identifier of its own, and a listing without a category returns the
    four of them with their titles, categories and prices (one with a
    category returns those of the four that have it). *)
Theorem list_products_seeds category st :
  g_db st <> None ->
  handle_bool = Return true ->
  docs_of st "product" = [] ->
  reliable 3 st ->
  seeds_intact st ->
  exists ids answer st',
    list_products category st = (Return answer, st') /\
    List.length ids = 4%nat /\ NoDup ids /\
    docs_of st' "product" = seeds_stored ids /\
    oplog st' = oplog st ++ [OpCount "product" [];
                             OpInsertMany "product" (seeds_annotated ids);
                             OpFind "product" (category_query category)] /\
    answer = map serialize_doc
               (filter (matches (category_query category)) (seeds_stored ids)) /\
    (category = None \/ category = Some "" ->
     answer = seeds_listed ids /\
     map (fun d => (dict_get "title" d, dict_get "category" d, dict_get "price" d))
         answer
     = [(Some (VStr "Smiley Classic Hoodie"), Some (VStr "hoodies"),
         Some (VFloat 59));
        (Some (VStr "Smiley Minimal Tee"), Some (VStr "t-shirts"),
         Some (VFloat 24));
        (Some (VStr "Smiley Oversized Hoodie"), Some (VStr "hoodies"),
         Some (VFloat 72));
        (Some (VStr "Smiley Retro Tee"), Some (VStr "t-shirts"),
         Some (VFloat 29))]).
Proof.
  intros Hdb Htrue Hempty Hrel Hseeds.
  destruct (list_products_run category st Hdb Htrue Hempty Hrel Hseeds)
    as (ids & n' & Hlen & Hnd & Hrun).
  exists ids. eexists. eexists.
  split; [exact Hrun|]. split; [exact Hlen|]. split; [exact Hnd|].
  split.
  { unfold seeded. rewrite docs_of_trips. now apply docs_of_put_same. }
  split.
  { unfold seeded. cbn [trips oplog]. rewrite put_docs_oplog.
    cbn [trips set_SEED_PRODUCTS set_next_oid oplog].
    now rewrite <- !app_assoc. }
  split; [reflexivity|].
  intros Hcat.
  assert (Hq : category_query category = []) by (destruct Hcat; now subst).
  rewrite Hq, filter_matches_all, (serialize_seeds ids Hlen).
  split; [reflexivity|].
  destruct ids as [|o1 [|o2 [|o3 [|o4 [|o5 ids]]]]]; try discriminate.
  reflexivity.
Qed.

(** C7 (where the code departs from it): with a handle that refuses to
    be tested, as pymongo's does, the test [if db] raises inside the
    [try] of [ensure_seed_products], the [except] swallows it, and
    nothing is seeded: the first listing of an empty catalog on a
    connected store that answers makes one round trip, the query,
    inserts nothing, leaves [SEED_PRODUCTS] as it was and answers with
    the empty list. *)
Theorem list_products_unseeded e category st :
  handle_bool = Raise e ->
  g_db st <> None ->
  docs_of st "product" = [] ->
  reliable 1 st ->
  exists st',
    list_products category st = (Return [], st') /\
    docs_of st' "product" = [] /\
    g_SEED_PRODUCTS st' = g_SEED_PRODUCTS st /\
    oplog st' = oplog st ++ [OpFind "product" (category_query category)].
Proof.
  intros Href Hdb Hempty Hrel.
  exists (trips [OpFind "product" (category_query category)] st).
  split; [|now repeat split].
  unfold list_products. unfold bind at 1.
  rewrite (ensure_seed_products_refused e st Href Hdb).
  fold (category_query category).
  unfold get_documents, bind, db_is_None.
  destruct (g_db st) as [d|] eqn:Ed; [|congruence].
  unfold find_all, bind. rewrite round_trip_run, (reliable_hd _ _ Hrel).
  rewrite docs_of_trips, Hempty. reflexivity.
Qed.

(* ================================================================== *)
(** ** serialize_doc *)

Lemma dict_get_pop_same k d : unique_keys d -> dict_get k (dict_pop k d) = None.
Proof.
  unfold unique_keys. induction d as [|[k' v] d IH]; intros Hnd; [reflexivity|].
  inversion Hnd as [|? ? Hnotin Hnd']; subst. cbn [dict_pop].
  destruct (String.eqb k k') eqn:E.
  - apply String.eqb_eq in E; subst k'.
    clear IH Hnd Hnd'. induction d as [|[k2 v2] d IH]; [reflexivity|].
    cbn [dict_get]. destruct (String.eqb k k2) eqn:E2.
    + apply String.eqb_eq in E2; subst. elim Hnotin. now left.
    + apply IH. intros H. apply Hnotin. now right.
  - cbn [dict_get]. rewrite E. now apply IH.
Qed.

Lemma dict_get_pop_other k k' d :
  k' <> k -> dict_get k' (dict_pop k d) = dict_get k' d.
Proof.
  intros Hne. induction d as [|[k2 v] d IH]; [reflexivity|].
  cbn [dict_pop]. destruct (String.eqb k k2) eqn:E.
  - apply String.eqb_eq in E; subst k2. cbn [dict_get].
    apply String.eqb_neq in Hne. now rewrite Hne.
  - cbn [dict_get]. now rewrite IH.
Qed.

Lemma dict_get_set_same k v d : dict_get k (dict_set k v d) = Some v.
Proof.
  induction d as [|[k' v'] d IH]; cbn [dict_set dict_get].
  - now rewrite String.eqb_refl.
  - destruct (String.eqb k k') eqn:E; cbn [dict_get]; rewrite E; [reflexivity | exact IH].
Qed.

Lemma dict_get_set_other k k' v d :
  k' <> k -> dict_get k' (dict_set k v d) = dict_get k' d.
Proof.
  intros Hne. apply String.eqb_neq in Hne.
  induction d as [|[k2 v2] d IH]; cbn [dict_set dict_get].
  - now rewrite Hne.
  - destruct (String.eqb k k2) eqn:E; cbn [dict_get].
    + apply String.eqb_eq in E; subst k2. now rewrite Hne.
    + now rewrite IH.
Qed.

Lemma dict_pop_keys_incl k d x : In x (map fst (dict_pop k d)) -> In x (map fst d).
Proof.
  induction d as [|[k' v] d IH]; [exact (fun H => H)|].
  cbn [dict_pop]. destruct (String.eqb k k'); cbn [map fst In].
  - intros H. right. exact H.
  - intros [H | H]; [left; exact H | right; exact (IH H)].
Qed.

Lemma dict_pop_unique k d : unique_keys d -> unique_keys (dict_pop k d).
Proof.
  unfold unique_keys. induction d as [|[k' v] d IH]; intros Hnd; [exact Hnd|].
  inversion Hnd as [|? ? Hnotin Hnd']; subst. cbn [dict_pop].
  destruct (String.eqb k k'); [exact Hnd'|].
  cbn [map fst]. constructor; [|now apply IH].
  intros H. apply Hnotin. eapply dict_pop_keys_incl; exact H.
Qed.

Lemma dict_set_keys_incl k v d x :
  In x (map fst (dict_set k v d)) -> x = k \/ In x (map fst d).
Proof.
  induction d as [|[k' v'] d IH]; cbn [dict_set].
  - cbn. intros [H | []]. left. symmetry. exact H.
  - destruct (String.eqb k k') eqn:E; cbn [map fst In].
    + intros [H | H]; [right; left; exact H | right; right; exact H].
    + intros [H | H]; [right; left; exact H|].
      destruct (IH H) as [H' | H']; [left; exact H' | right; right; exact H'].
Qed.

Lemma dict_set_unique k v d : unique_keys d -> unique_keys (dict_set k v d).
Proof.
  unfold unique_keys. induction d as [|[k' v'] d IH]; intros Hnd.
  - cbn. constructor; [intros [] | constructor].
  - inversion Hnd as [|? ? Hnotin Hnd']; subst. cbn [dict_set].
    destruct (String.eqb k k') eqn:E; cbn [map fst].
    + constructor; assumption.
    + constructor; [|now apply IH].
      intros H. apply dict_set_keys_incl in H as [-> | H]; [|now apply Hnotin].
      now rewrite String.eqb_refl in E.
Qed.

Lemma dict_set_middle k v v0 a b :
  ~ In k (map fst a) ->
  dict_set k v (a ++ (k, v0) :: b) = a ++ (k, v) :: b.
Proof.
  induction a as [|[k' v'] a IH]; intros Hnotin; cbn [app dict_set].
  - now rewrite String.eqb_refl.
  - destruct (String.eqb k k') eqn:E.
    + apply String.eqb_eq in E; subst. elim Hnotin. now left.
    + rewrite IH; [reflexivity|]. intros H. apply Hnotin. now right.
Qed.

(** With distinct keys, the loop of [serialize_doc] turns every value
    that is an ObjectId into its text and leaves the rest. *)
Lemma serialize_loop d :
  unique_keys d ->
  fold_left (fun (d : dict) (kv : string * value) =>
               match snd kv with
               | VOid o => dict_set (fst kv) (VStr (oid_str o)) d
               | _ => d
               end) d d
  = map (fun kv => (fst kv, oid_to_text (snd kv))) d.
Proof.
  set (step := fun (d : dict) (kv : string * value) => _).
  set (conv := fun kv : string * value => (fst kv, oid_to_text (snd kv))).
  assert (H : forall post pre,
             NoDup (map fst (pre ++ post)) ->
             fold_left step post (map conv pre ++ post) = map conv (pre ++ post)).
  { induction post as [|[k v] post IH]; intros pre Hnd.
    - cbn. now rewrite !app_nil_r.
    - cbn [fold_left].
      assert (Hk : ~ In k (map fst (map conv pre))).
      { rewrite map_map. cbn [conv fst].
        rewrite map_app in Hnd. apply NoDup_remove_2 in Hnd.
        intros Hin. apply Hnd. apply in_or_app. now left. }
      assert (Hstep : step (map conv pre ++ (k, v) :: post) (k, v)
                      = map conv (pre ++ [(k, v)]) ++ post).
      { rewrite map_app, <- app_assoc. cbn [map app conv fst snd].
        unfold step. cbn [fst snd].
        destruct v; cbn [oid_to_text]; try reflexivity.
        now apply dict_set_middle. }
      rewrite Hstep, IH.
      + now rewrite <- app_assoc.
      + now rewrite <- app_assoc. }
  intros Hnd. exact (H d [] Hnd).
Qed.

Lemma dict_get_converted k d :
  dict_get k (map (fun kv => (fst kv, oid_to_text (snd kv))) d)
  = option_map oid_to_text (dict_get k d).
Proof.
  induction d as [|[k' v] d IH]; [reflexivity|].
  cbn [map dict_get fst snd]. now destruct (String.eqb k k').
Qed.

(** What [serialize_doc] gives as a whole. *)
Lemma serialize_doc_run doc :
  unique_keys doc ->
  serialize_doc doc
  = map (fun kv => (fst kv, oid_to_text (snd kv)))
      (match dict_get "_id" doc with
       | Some v => dict_set "id" (VStr (py_str v)) (dict_pop "_id" doc)
       | None => doc
       end).
Proof.
  intros Hnd. unfold serialize_doc. apply serialize_loop.
  destruct (dict_get "_id" doc); [|exact Hnd].
  now apply dict_set_unique, dict_pop_unique.
Qed.

Lemma serialize_doc_drops_id doc :
  unique_keys doc -> dict_get "_id" (serialize_doc doc) = None.
Proof.
  intros Hnd. rewrite (serialize_doc_run doc Hnd), dict_get_converted.
  destruct (dict_get "_id" doc) as [v|] eqn:E.
  - rewrite dict_get_set_other by discriminate.
    now rewrite dict_get_pop_same.
  - now rewrite E.
Qed.

(** X1: for a document with distinct keys, the serialized document has
    no ["_id"]; its ["id"] is the text of the document's ["_id"] when it
    has one, whatever ["id"] the document had of its own; every other
    field is kept, an ObjectId replaced by its text; no field of the
    result is an ObjectId. *)
Theorem serialize_doc_fields doc :
  unique_keys doc ->
  dict_get "_id" (serialize_doc doc) = None /\
  (forall v, dict_get "_id" doc = Some v ->
     dict_get "id" (serialize_doc doc) = Some (VStr (py_str v))) /\
  (forall k, k <> "_id" ->
     k <> "id" \/ dict_get "_id" doc = None ->
     dict_get k (serialize_doc doc) = option_map oid_to_text (dict_get k doc)) /\
  (forall k o, dict_get k (serialize_doc doc) <> Some (VOid o)).
Proof.
  intros Hnd. split; [now apply serialize_doc_drops_id|].
  rewrite (serialize_doc_run doc Hnd).
  repeat split.
  - intros v Hv. rewrite Hv, dict_get_converted, dict_get_set_same. reflexivity.
  - intros k Hk Hid. rewrite dict_get_converted.
    destruct (dict_get "_id" doc) as [v|] eqn:E; [|reflexivity].
    destruct Hid as [Hid | Hid]; [|discriminate].
    rewrite dict_get_set_other by exact Hid.
    now rewrite dict_get_pop_other.
  - intros k o. rewrite dict_get_converted.
    destruct (dict_get k _) as [[]|]; discriminate.
Qed.

(** X2: serializing a serialized document changes nothing. *)
Theorem serialize_doc_idempotent doc :
  unique_keys doc -> serialize_doc (serialize_doc doc) = serialize_doc doc.
Proof.
  intros Hnd.
  pose proof (serialize_doc_drops_id doc Hnd) as Hid.
  rewrite (serialize_doc_run doc Hnd) in *.
  set (d1 := match dict_get "_id" doc with
             | Some v => dict_set "id" (VStr (py_str v)) (dict_pop "_id" doc)
             | None => doc
             end) in *.
  assert (Hnd1 : unique_keys d1).
  { unfold d1. destruct (dict_get "_id" doc); [|exact Hnd].
    now apply dict_set_unique, dict_pop_unique. }
  rewrite serialize_doc_run.
  - rewrite Hid, map_map. apply map_ext.
    intros [k v]; cbn [fst snd]. now destruct v.
  - unfold unique_keys. rewrite map_map. exact Hnd1.
Qed.

(* ================================================================== *)
(** ** Creating a product *)

(** Inserting a document and fetching it again, as [create_product] and
    [create_order] both end. *)
Lemma insert_and_fetch_run c doc st :
  g_db st <> None ->
  reliable 2 st ->
  (next_oid st < 16 ^ 24)%N ->
  oid_unused (Oid (next_oid st)) (docs_of st c) ->
  dict_get "_id" doc = None ->
  (inserted_id <- create_document c doc ;;
   h <- db_getitem c ;;
   oid <- lift_option InvalidId (ObjectId_of_str inserted_id) ;;
   saved <- find_one_id h oid ;;
   match saved with
   | Some d => ret (serialize_doc d)
   | None => raise TypeError
   end) st
  = (Return (serialize_doc (("_id", VOid (Oid (next_oid st))) :: doc)),
     inserted c doc st).
Proof.
  intros Hdb Hrel Hlt Hun Hnone.
  unfold create_document.
  unfold bind at 1. unfold bind at 1. unfold db_is_None.
  destruct (g_db st) as [d|] eqn:Ed; [|congruence].
  unfold bind at 1.
  rewrite insert_one_run;
    [ | exact (reliable_hd _ _ Hrel) | exact Hnone | exact Hun ].
  unfold ret at 1. cbn [py_str].
  set (o := Oid (next_oid st)) in *.
  set (st2 := put_docs c _ _).
  assert (Hdb' : g_db st <> None) by congruence.
  assert (Hdb2 : g_db st2 <> None) by (apply put_docs_db; exact Hdb').
  assert (Hhd2 : hd false (faults st2) = false).
  { unfold st2. rewrite put_docs_faults.
    apply reliable_S in Hrel as [_ Hrel].
    exact (reliable_hd _ _ (Hrel (OpInsertOne c []))). }
  unfold bind at 1. unfold db_getitem.
  destruct (g_db st2) as [d2|] eqn:Ed2; [|congruence].
  unfold bind at 1. rewrite (ObjectId_of_str_str o Hlt). cbn [lift_option]. unfold ret at 1.
  cbn [find_one_id].
  unfold bind at 1. rewrite find_one_run, Hhd2.
  unfold st2 at 1. rewrite docs_of_put_same by exact Hdb'.
  fold (find_by_id o (docs_of st c ++ [("_id", VOid o) :: doc])).
  rewrite (find_by_id_app_new o _ _ Hun).
  reflexivity.
Qed.

Lemma inserted_docs c doc st :
  g_db st <> None ->
  docs_of (inserted c doc st) c
  = docs_of st c ++ [("_id", VOid (Oid (next_oid st))) :: doc].
Proof.
  intros Hdb. unfold inserted. rewrite docs_of_trips.
  now rewrite docs_of_put_same.
Qed.

Lemma inserted_other c c' doc st :
  c <> c' -> docs_of (inserted c doc st) c' = docs_of st c'.
Proof.
  intros H. unfold inserted. rewrite docs_of_trips.
  now rewrite docs_of_put_other.
Qed.

Lemma serialize_product o p :
  serialize_doc (("_id", VOid o) :: model_dump_ProductCreate p)
  = model_dump_ProductCreate p ++ [("id", VStr (oid_str o))].
Proof. unfold model_dump_ProductCreate. now destruct (description p). Qed.

Lemma create_product_run p st :
  g_db st <> None ->
  reliable 2 st ->
  (next_oid st < 16 ^ 24)%N ->
  oid_unused (Oid (next_oid st)) (docs_of st "product") ->
  create_product p st
  = (Return (model_dump_ProductCreate p
             ++ [("id", VStr (oid_str (Oid (next_oid st))))]),
     inserted "product" (model_dump_ProductCreate p) st).
Proof.
  intros Hdb Hrel Hlt Hun. unfold create_product.
  rewrite insert_and_fetch_run by (try assumption; reflexivity).
  now rewrite serialize_product.
Qed.

(** X3: on a connected store that answers, creating a product persists
    exactly one new product document, leaves the other collections as
    they were, and returns the fields that were sent together with the
    identifier as text; a cart item that carries that text then resolves
    to the new product, at the price it was created with. *)
Theorem create_product_then_order p st :
  g_db st <> None ->
  reliable 2 st ->
  (next_oid st < 16 ^ 24)%N ->
  oid_unused (Oid (next_oid st)) (docs_of st "product") ->
  exists doc saved pid st',
    create_product p st = (Return doc, st') /\
    docs_of st' "product" = docs_of st "product" ++ [saved] /\
    (forall c, c <> "product" -> docs_of st' c = docs_of st c) /\
    doc = model_dump_ProductCreate p ++ [("id", VStr pid)] /\
    forall sz q, 1 <= q <= 10 ->
      resolved st'
        {| r_item := {| product_id := pid; size := sz; quantity := q |};
           r_oid := Oid (next_oid st); r_prod := saved;
           r_price := price p |}.
Proof.
  intros Hdb Hrel Hlt Hun.
  exists (model_dump_ProductCreate p ++ [("id", VStr (oid_str (Oid (next_oid st))))]),
    (("_id", VOid (Oid (next_oid st))) :: model_dump_ProductCreate p),
    (oid_str (Oid (next_oid st))),
    (inserted "product" (model_dump_ProductCreate p) st).
  split; [now apply create_product_run|].
  split; [now apply inserted_docs|].
  split; [intros c Hc; apply inserted_other; congruence|].
  split; [reflexivity|].
  intros sz q Hq. unfold resolved. cbn [r_item r_oid r_prod r_price product_id quantity].
  split; [now apply oid_parse_str|].
  split; [rewrite inserted_docs by exact Hdb; now apply find_by_id_app_new|].
  split; [reflexivity | exact Hq].
Qed.

Lemma validate_strs_dump l : validate_strs (map VStr l) = Some l.
Proof. induction l as [|x l IH]; [reflexivity|]. cbn. now rewrite IH. Qed.

(** X4: the body [model_dump] gives for a product is accepted exactly
    when the price is at least 0, and validation then gives the product
    back. *)
Theorem validate_ProductCreate_model_dump p :
  validate_ProductCreate (VDict (model_dump_ProductCreate p))
  = if PrimFloat.leb zero (price p) then Some p else None.
Proof.
  destruct p as [t de pr c im sz stock].
  unfold validate_ProductCreate, model_dump_ProductCreate.
  cbn [dict_get String.eqb Ascii.eqb Bool.eqb title description price category
       images sizes in_stock validate_str validate_price validate_bool
       validate_str_list].
  assert (Hde : validate_optional_str
                  (Some match de with Some s => VStr s | None => VNone end)
                = Some de) by now destruct de.
  rewrite Hde, !validate_strs_dump.
  now destruct (PrimFloat.leb zero pr).
Qed.

(** X5: a body whose price is a float that is not at least 0 (a
    negative number, or NaN) fails validation, whatever else it holds:
    the request ends in the validation error, [create_product] does not
    run, and the process state, the store included, is what it was. *)
Theorem post_api_products_price_below_zero body x st :
  dict_get "price" body = Some (VFloat x) ->
  PrimFloat.leb zero x = false ->
  validate_ProductCreate (VDict body) = None /\
  post_api_products (VDict body) st = (Raise RequestValidationError, st).
Proof.
  intros Hprice Hneg.
  assert (Hv : validate_ProductCreate (VDict body) = None).
  { unfold validate_ProductCreate, validate_price. rewrite Hprice, Hneg.
    destruct (validate_str (dict_get "title" body));
      [destruct (validate_optional_str (dict_get "description" body))|];
      reflexivity. }
  unfold post_api_products. rewrite Hv. split; reflexivity.
Qed.

(** X6: a body with only a title, a finite price of at least 0 and a
    category creates, on a connected store that answers, a product with
    no description, no images, the sizes S, M, L and XL, and in stock,
    and answers with it. *)
Theorem post_api_products_defaults t x c st :
  PrimFloat.leb zero x = true ->
  is_finite x = true ->
  g_db st <> None ->
  reliable 2 st ->
  (next_oid st < 16 ^ 24)%N ->
  oid_unused (Oid (next_oid st)) (docs_of st "product") ->
  exists doc st',
    post_api_products
      (VDict [("title", VStr t); ("price", VFloat x); ("category", VStr c)]) st
    = (Return doc, st') /\
    docs_of st' "product"
    = docs_of st "product"
      ++ [[("_id", VOid (Oid (next_oid st)));
           ("title", VStr t); ("description", VNone); ("price", VFloat x);
           ("category", VStr c); ("images", VList []);
           ("sizes", VList [VStr "S"; VStr "M"; VStr "L"; VStr "XL"]);
           ("in_stock", VBool true)]] /\
    doc = [("title", VStr t); ("description", VNone); ("price", VFloat x);
           ("category", VStr c); ("images", VList []);
           ("sizes", VList [VStr "S"; VStr "M"; VStr "L"; VStr "XL"]);
           ("in_stock", VBool true);
           ("id", VStr (oid_str (Oid (next_oid st))))].
Proof.
  intros Hx Hfin Hdb Hrel Hlt Hun.
  set (p := {| title := t; description := None; price := x; category := c;
               images := []; sizes := ["S"; "M"; "L"; "XL"];
               in_stock := true |}).
  assert (Hv : validate_ProductCreate
                 (VDict [("title", VStr t); ("price", VFloat x);
                         ("category", VStr c)]) = Some p).
  { unfold validate_ProductCreate, validate_price.
    cbn [dict_get String.eqb Ascii.eqb Bool.eqb validate_str
         validate_optional_str validate_str_list validate_bool].
    now rewrite Hx. }
  exists (model_dump_ProductCreate p ++ [("id", VStr (oid_str (Oid (next_oid st))))]),
    (inserted "product" (model_dump_ProductCreate p) st).
  split.
  { unfold post_api_products. rewrite Hv.
    rewrite (bind_run _ _ _ _ _ (create_product_run p st Hdb Hrel Hlt Hun)).
    unfold render.
    replace (json_renderable _) with true; [reflexivity|].
    cbn. now rewrite Hfin. }
  split; [now apply inserted_docs | reflexivity].
Qed.

(* ================================================================== *)
(** ** More on validation and on placing orders *)

Lemma validate_CartItem_json item :
  validate_CartItem (json_item item)
  = if quantity_in_range item then Some item else None.
Proof.
  destruct item as [pid sz q]. unfold validate_CartItem, json_item, quantity_in_range.
  cbn [dict_get String.eqb Ascii.eqb Bool.eqb validate_str validate_quantity
       product_id size quantity].
  now destruct ((1 <=? q) && (q <=? 10)).
Qed.

Lemma validate_items_json l :
  validate_items (map json_item l)
  = if forallb quantity_in_range l then Some l else None.
Proof.
  induction l as [|item l IH]; [reflexivity|].
  cbn [map validate_items forallb]. rewrite validate_CartItem_json, IH.
  destruct (quantity_in_range item); [|reflexivity].
  now destruct (forallb quantity_in_range l).
Qed.

(** X7: the body that spells an order is accepted exactly when every
    quantity is between 1 and 10, and validation then gives the order
    back, items in the same sequence. *)
Theorem validate_OrderCreate_json order :
  validate_OrderCreate (json_OrderCreate order)
  = if forallb quantity_in_range (items order) then Some order else None.
Proof.
  destruct order as [l [n e a]].
  unfold validate_OrderCreate, json_OrderCreate.
  cbn [dict_get String.eqb Ascii.eqb Bool.eqb items customer].
  rewrite validate_items_json.
  now destruct (forallb quantity_in_range l).
Qed.

Lemma find_by_id_has_id o docs doc :
  find_by_id o docs = Some doc -> dict_get "_id" doc = Some (VOid o).
Proof.
  intros H. apply find_some in H as [_ H]. unfold matches in H. cbn in H.
  destruct (dict_get "_id" doc) as [v|]; [|discriminate].
  rewrite andb_true_r in H. now rewrite (value_eqb_oid_r o v H).
Qed.

Lemma serialize_doc_id doc v :
  unique_keys doc -> dict_get "_id" doc = Some v ->
  dict_get "id" (serialize_doc doc) = Some (VStr (py_str v)).
Proof.
  intros Hnd Hv.
  rewrite (serialize_doc_run doc Hnd), Hv, dict_get_converted, dict_get_set_same.
  reflexivity.
Qed.

(** X8: the identifier a listing shows for a product is accepted by
    order placement: for a product document with distinct keys that is
    the one the catalog holds under its 12-byte identifier, the ["id"]
    of its serialization is a text that, in a cart item of any size and
    quantity, refers back to that product. *)
Theorem listed_id_resolves st doc o :
  unique_keys doc ->
  (oid_num o < 16 ^ 24)%N ->
  find_by_id o (docs_of st "product") = Some doc ->
  exists pid,
    dict_get "id" (serialize_doc doc) = Some (VStr pid) /\
    forall sz q,
      product_of st {| product_id := pid; size := sz; quantity := q |} = Some doc.
Proof.
  intros Hnd Hlt Hfind. exists (oid_str o). split.
  - rewrite (serialize_doc_id doc (VOid o) Hnd); [reflexivity|].
    eapply find_by_id_has_id; exact Hfind.
  - intros sz q. unfold product_of. cbn [product_id].
    now rewrite (oid_parse_str o Hlt).
Qed.

Lemma zero_times_quantity q :
  1 <= q <= 10 -> (zero * int_to_float q)%float = zero.
Proof.
  intros H.
  assert (Hq : In q (map Z.of_nat (seq 1 10))).
  { apply in_map_iff. exists (Z.to_nat q). split; [lia|]. apply in_seq. lia. }
  simpl in Hq.
  repeat (destruct Hq as [<- | Hq]; [vm_compute; reflexivity|]).
  destruct Hq.
Qed.

(** X9: a product stored without a price is sold at 0.0, and one stored
    without a title gives a line item whose title is null: in a
    successful placement, the line of an item whose product has no
    ["price"] has unit price 0.0 and line total 0.0, and the line of an
    item whose product has no ["title"] has the title [None]. *)
Theorem create_order_missing_fields order rs st :
  g_db st <> None ->
  reliable (List.length rs + 2) st ->
  generator_fresh st ->
  items order = map r_item rs ->
  Forall (resolved st) rs ->
  exists doc lines st',
    create_order order st = (Return doc, st') /\
    dict_get "items" doc = Some (VList (map VDict lines)) /\
    Forall2 (fun r line =>
               (dict_get "price" (r_prod r) = None ->
                dict_get "unit_price" line = Some (VFloat zero) /\
                dict_get "line_total" line = Some (VFloat zero)) /\
               (dict_get "title" (r_prod r) = None ->
                dict_get "title" line = Some VNone))
            rs lines.
Proof.
  intros Hdb Hrel Hfresh Hitems Hres.
  exists (order_response (customer order) rs st).
  exists (map (fun r =>
                 [("product_id", VStr (product_id (r_item r)));
                  ("title", dict_get_default "title" VNone (r_prod r));
                  ("size", VStr (size (r_item r)));
                  ("quantity", VInt (quantity (r_item r)));
                  ("unit_price", VFloat (r_price r));
                  ("line_total", VFloat (line_total_of r))]) rs).
  exists (order_placed (customer order) rs st).
  split; [now apply create_order_run|].
  split; [cbn; now rewrite map_map|].
  clear Hitems Hrel Hfresh.
  induction Hres as [|r rs Hr Hrs IH]; constructor; [|exact IH].
  destruct Hr as (_ & _ & Hprice & Hq). split.
  - intros Hnone. unfold dict_get_default in Hprice. rewrite Hnone in Hprice.
    injection Hprice as Hp.
    cbn [dict_get String.eqb Ascii.eqb Bool.eqb]. unfold line_total_of.
    rewrite <- Hp. change (SF2Prim (binary_normalize prec emax 0 0 false)) with zero.
    now rewrite (zero_times_quantity _ Hq).
  - intros Hnone. cbn [dict_get String.eqb Ascii.eqb Bool.eqb].
    unfold dict_get_default. now rewrite Hnone.
Qed.

Lemma py_float_raises v e :
  py_float v = Raise e -> e = OverflowError \/ e = ValueError \/ e = TypeError.
Proof.
  destruct v; cbn; try (intros H; injection H as <-; tauto); try discriminate.
  - destruct (float_of_int n); [discriminate|]. intros H; injection H as <-; tauto.
  - destruct (float_of_str s); [discriminate|]. intros H; injection H as <-; tauto.
Qed.

(** X10: when an item's product is found but its price is of a kind
    [float] refuses (null, a list, a text that is no number), the
    placement ends in that exception, which is answered as a server
    error 500 and not as a client error, and nothing is written. *)
Theorem create_order_unreadable_price order rs item prod e post st :
  items order = map r_item rs ++ item :: post ->
  g_db st <> None ->
  reliable (List.length rs + 1) st ->
  Forall (resolved st) rs ->
  product_of st item = Some prod ->
  py_float (dict_get_default "price" (VInt 0) prod) = Raise e ->
  exists st',
    create_order order st = (Raise e, st') /\
    http_status (fst (create_order order st)) = 500 /\
    g_db st' = g_db st.
Proof.
  intros Hitems Hdb Hrel Hres Hprod Hprice.
  set (st1 := trips (map (fun r => find_product_op (r_oid r)) rs) st).
  assert (Hloop : forall total acc,
            order_loop (item :: post) total acc st1
            = (Raise e, snd (lookup_product item st1))).
  { intros total acc. cbn [order_loop]. unfold bind at 1.
    rewrite lookup_product_run.
    change (g_db st1) with (g_db st).
    destruct (g_db st) as [d|] eqn:Ed; [|congruence].
    unfold product_of in Hprod.
    destruct (oid_parse (product_id item)) as [o|] eqn:Ho; [|discriminate].
    rewrite (ObjectId_of_str_whole _ _ Ho).
    assert (Hhd : hd false (faults st1) = false).
    { apply (reliable_hd 0). unfold st1. apply reliable_trips.
      now rewrite length_map. }
    rewrite Hhd. change (docs_of st1 "product") with (docs_of st "product").
    rewrite Hprod.
    pose proof (find_by_id_nonempty _ _ _ Hprod) as Hne.
    destruct prod as [|kv prod]; [congruence|].
    unfold bind, lift_result. now rewrite Hprice. }
  assert (Hrun : create_order order st = (Raise e, snd (lookup_product item st1))).
  { unfold create_order. rewrite Hitems. apply bind_raise.
    rewrite order_loop_prefix;
      [ apply Hloop | exact Hdb
      | eapply reliable_le; [|exact Hrel]; lia | exact Hres ]. }
  eexists. split; [exact Hrun|]. rewrite Hrun. split.
  - cbn [fst]. destruct (py_float_raises _ _ Hprice) as [-> | [-> | ->]]; reflexivity.
  - rewrite lookup_product_run. change (g_db st1) with (g_db st).
    destruct (g_db st) as [d|] eqn:Ed; [|congruence].
    destruct (ObjectId_of_str (product_id item)) as [[o|bs]|]; exact Ed.
Qed.

Lemma nth_skipn_add {A : Type} (d : A) n k : forall l,
  nth k (skipn n l) d = nth (n + k) l d.
Proof.
  induction n as [|n IH]; intros l; [reflexivity|].
  destruct l as [|x l]; cbn [skipn Nat.add nth]; [now destruct k | apply IH].
Qed.

(** The same, when the insertion goes through and the re-fetch fails. *)
Lemma insert_and_fetch_refetch_fails c doc st :
  g_db st <> None ->
  hd false (faults st) = false ->
  nth 1 (faults st) false = true ->
  oid_unused (Oid (next_oid st)) (docs_of st c) ->
  (next_oid st < 16 ^ 24)%N ->
  dict_get "_id" doc = None ->
  (inserted_id <- create_document c doc ;;
   h <- db_getitem c ;;
   oid <- lift_option InvalidId (ObjectId_of_str inserted_id) ;;
   saved <- find_one_id h oid ;;
   match saved with
   | Some d => ret (serialize_doc d)
   | None => raise TypeError
   end) st
  = (Raise PyMongoError, inserted c doc st).
Proof.
  intros Hdb Hhd Hnth Hun Hlt Hnone.
  unfold create_document.
  unfold bind at 1. unfold bind at 1. unfold db_is_None.
  destruct (g_db st) as [d|] eqn:Ed; [|congruence].
  unfold bind at 1.
  rewrite insert_one_run; [ | exact Hhd | exact Hnone | exact Hun ].
  unfold ret at 1. cbn [py_str].
  set (o := Oid (next_oid st)) in *.
  set (st2 := put_docs c _ _).
  assert (Hdb' : g_db st <> None) by congruence.
  assert (Hdb2 : g_db st2 <> None) by (apply put_docs_db; exact Hdb').
  assert (Hhd2 : hd false (faults st2) = true).
  { unfold st2. rewrite put_docs_faults. cbn [trips took_oid faults List.length].
    now rewrite hd_skipn_nth. }
  unfold bind at 1. unfold db_getitem.
  destruct (g_db st2) as [d2|] eqn:Ed2; [|congruence].
  unfold bind at 1. rewrite (ObjectId_of_str_str o Hlt). cbn [lift_option]. unfold ret at 1.
  cbn [find_one_id].
  unfold bind at 1. rewrite find_one_run, Hhd2.
  reflexivity.
Qed.

(** X11: when the order has been inserted and the round trip that
    fetches it again fails, the placement is answered as a server error
    although the order is in the store. *)
Theorem create_order_refetch_failure order rs st :
  g_db st <> None ->
  reliable (List.length rs + 1) st ->
  nth (List.length rs + 1) (faults st) false = true ->
  generator_fresh st ->
  items order = map r_item rs ->
  Forall (resolved st) rs ->
  exists saved st',
    create_order order st = (Raise PyMongoError, st') /\
    server_error (fst (create_order order st)) = true /\
    docs_of st' "order" = docs_of st "order" ++ [saved] /\
    dict_get "items" saved = Some (VList (map line_of rs)) /\
    dict_get "status" saved = Some (VStr "received").
Proof.
  intros Hdb Hrel Hnth [Hlt Hun] Hitems Hres.
  set (st1 := trips (map (fun r => find_product_op (r_oid r)) rs) st).
  assert (Hrel1 : reliable 1 st1).
  { unfold st1. apply reliable_trips. now rewrite length_map. }
  assert (Hrun : create_order order st
                 = (Raise PyMongoError,
                    inserted "order" (order_doc_of (customer order) rs) st1)).
  { unfold create_order. rewrite Hitems.
    rewrite (bind_run _ _ _ _ _
               (order_loop_resolved rs zero [] st Hdb
                  (reliable_le _ _ _ (Nat.le_add_r _ _) Hrel) Hres)).
    cbn [fst snd app]. fold st1.
    fold (float_sum (map line_total_of rs)).
    fold (order_doc_of (customer order) rs).
    apply insert_and_fetch_refetch_fails.
    - exact Hdb.
    - exact (reliable_hd _ _ Hrel1).
    - unfold st1. cbn [trips faults]. now rewrite length_map, nth_skipn_add.
    - exact Hun.
    - exact Hlt.
    - reflexivity. }
  exists (("_id", VOid (Oid (next_oid st))) :: order_doc_of (customer order) rs).
  eexists. split; [exact Hrun|]. rewrite Hrun.
  split; [reflexivity|].
  split; [exact (inserted_docs "order" _ st1 Hdb)|].
  split; reflexivity.
Qed.

Lemma order_placed_products c rs st :
  docs_of (order_placed c rs st) "product" = docs_of st "product".
Proof.
  unfold order_placed. rewrite docs_of_trips.
  now rewrite docs_of_put_other by discriminate.
Qed.

Lemma order_placed_reliable c rs k st :
  reliable (List.length rs + 2 + k) st -> reliable k (order_placed c rs st).
Proof.
  intros H. unfold order_placed.
  apply (reliable_trips [_]). unfold reliable. rewrite put_docs_faults.
  apply (reliable_trips [_] (1 + k) (took_oid _)).
  change (reliable (1 + (1 + k))
            (trips (map (fun r => find_product_op (r_oid r)) rs) st)).
  apply reliable_trips. rewrite length_map.
  now replace (List.length rs + (1 + (1 + k)))%nat
    with (List.length rs + 2 + k)%nat by lia.
Qed.

Lemma oid_str_injective a b :
  (oid_num a < 16 ^ 24)%N -> (oid_num b < 16 ^ 24)%N ->
  oid_str a = oid_str b -> a = b.
Proof.
  intros Ha Hb H. apply oid_parse_str in Ha, Hb. rewrite H in Ha. congruence.
Qed.

(** X12: placing the same cart twice gives two orders: both placements
    succeed, the two answers carry different identifiers and the same
    total, and the order collection has grown by two documents. *)
Theorem create_order_twice order rs st :
  g_db st <> None ->
  reliable (List.length rs + 2 + (List.length rs + 2)) st ->
  orders_below st ->
  (N.succ (next_oid st) < 16 ^ 24)%N ->
  items order = map r_item rs ->
  Forall (resolved st) rs ->
  exists doc1 doc2 id1 id2 st1 st2,
    create_order order st = (Return doc1, st1) /\
    create_order order st1 = (Return doc2, st2) /\
    dict_get "id" doc1 = Some (VStr id1) /\
    dict_get "id" doc2 = Some (VStr id2) /\
    id1 <> id2 /\
    dict_get "total" doc1 = dict_get "total" doc2 /\
    List.length (docs_of st2 "order") = (List.length (docs_of st "order") + 2)%nat.
Proof.
  intros Hdb Hrel Hbelow Hlt Hitems Hres.
  set (c := customer order).
  set (st1 := order_placed c rs st).
  assert (Hlt0 : (next_oid st < 16 ^ 24)%N) by lia.
  assert (Hnext : next_oid st1 = N.succ (next_oid st)).
  { unfold st1, order_placed. cbn [trips next_oid]. now rewrite put_docs_next_oid. }
  assert (Hdb1 : g_db st1 <> None).
  { unfold st1, order_placed. cbn [trips g_db]. now apply put_docs_db. }
  assert (Hrun1 : create_order order st
                  = (Return (order_response c rs st), st1)).
  { apply create_order_run; try assumption.
    - eapply reliable_le; [|exact Hrel]. lia.
    - now apply orders_below_fresh. }
  assert (Hrun2 : create_order order st1
                  = (Return (order_response c rs st1), order_placed c rs st1)).
  { apply create_order_run; try assumption.
    - now apply order_placed_reliable.
    - apply orders_below_fresh.
      + now apply order_placed_below.
      + now rewrite Hnext.
    - eapply Forall_impl; [|exact Hres].
      intros r Hr. unfold resolved. unfold st1.
      rewrite order_placed_products. exact Hr. }
  exists (order_response c rs st), (order_response c rs st1),
    (oid_str (Oid (next_oid st))), (oid_str (Oid (next_oid st1))),
    st1, (order_placed c rs st1).
  split; [exact Hrun1|]. split; [exact Hrun2|].
  split; [reflexivity|]. split; [reflexivity|].
  split.
  { rewrite Hnext. intros H. apply oid_str_injective in H; cbn; try lia.
    injection H. lia. }
  split; [reflexivity|].
  rewrite order_placed_orders by exact Hdb1.
  unfold st1. rewrite order_placed_orders by exact Hdb.
  rewrite !length_app. cbn. lia.
Qed.

(* ================================================================== *)
(** ** What the handlers never do to the store *)

Lemma docs_of_same_db st st' c : g_db st' = g_db st -> docs_of st' c = docs_of st c.
Proof. unfold docs_of. now intros ->. Qed.

Lemma dbu_bind {A B : Type} (m : M A) (k : A -> M B) :
  db_unchanged m -> (forall a, db_unchanged (k a)) -> db_unchanged (bind m k).
Proof.
  intros Hm Hk st. unfold bind. specialize (Hm st).
  destruct (m st) as [[a|e] st1]; cbn [snd] in *; [|exact Hm].
  now rewrite Hk.
Qed.

Lemma dbu_lookup_product item : db_unchanged (lookup_product item).
Proof.
  intros st. rewrite lookup_product_run.
  destruct (g_db st) eqn:E; [|exact E].
  destruct (ObjectId_of_str (product_id item)) as [[o|bs]|]; exact E.
Qed.

Lemma dbu_order_loop l : forall total acc, db_unchanged (order_loop l total acc).
Proof.
  induction l as [|item l IH]; intros total acc; cbn [order_loop].
  - now intros st.
  - apply dbu_bind; [apply dbu_lookup_product|].
    intros [[|kv prod]|]; try (now intros st).
    apply dbu_bind; [now intros st|]. intros x.
    apply dbu_bind; [intros st; now destruct (float_of_int (quantity item))|].
    intros qty. apply IH.
Qed.

Lemma aam_db_same {A : Type} c (m : M A) :
  db_unchanged m -> appends_at_most 0 c m.
Proof.
  intros H st. split.
  - exists []. rewrite app_nil_r. split; [now apply docs_of_same_db | reflexivity].
  - intros c' _. now apply docs_of_same_db.
Qed.

Lemma aam_le {A : Type} n k c (m : M A) :
  (n <= k)%nat -> appends_at_most n c m -> appends_at_most k c m.
Proof.
  intros Hle H st. destruct (H st) as ((added & Hd & Hlen) & Hother).
  split; [|exact Hother]. exists added. split; [exact Hd | lia].
Qed.

Lemma aam_bind {A B : Type} n k c (m : M A) (f : A -> M B) :
  appends_at_most n c m -> (forall a, appends_at_most k c (f a)) ->
  appends_at_most (n + k) c (bind m f).
Proof.
  intros Hm Hf st. unfold bind.
  destruct (Hm st) as ((added & Hd & Hlen) & Hother).
  destruct (m st) as [[a|e] st1]; cbn [snd] in *.
  - destruct (Hf a st1) as ((added' & Hd' & Hlen') & Hother'). split.
    + exists (added ++ added'). rewrite Hd', Hd, app_assoc, length_app.
      split; [reflexivity | lia].
    + intros c' Hc. now rewrite Hother', Hother.
  - split; [|exact Hother]. exists added. split; [exact Hd | lia].
Qed.

Lemma aam_server_insert c doc : appends_at_most 1 c (server_insert c doc).
Proof.
  intros st. unfold server_insert.
  destruct (existsb (same_id doc) (docs_of st c)); cbn [snd].
  - split; [|reflexivity]. exists []. rewrite app_nil_r.
    split; [reflexivity | cbn; lia].
  - split.
    + unfold put_docs, docs_of. destruct (g_db st) as [d|] eqn:E.
      * exists [stored_form doc]. cbn. rewrite collection_set_same.
        split; [reflexivity | lia].
      * exists []. rewrite E. split; [reflexivity | cbn; lia].
    + intros c' Hc. apply docs_of_put_other. congruence.
Qed.

Lemma dbu_round_trip op : db_unchanged (round_trip op).
Proof. intros st. now rewrite round_trip_run. Qed.

Lemma dbu_find_one c q : db_unchanged (find_one c q).
Proof. intros st. now rewrite find_one_run. Qed.

Lemma dbu_db_getitem c : db_unchanged (db_getitem c).
Proof. intros st. unfold db_getitem. destruct (g_db st) eqn:E; exact E. Qed.

Lemma dbu_db_is_None : db_unchanged db_is_None.
Proof. intros st. unfold db_is_None. destruct (g_db st) eqn:E; exact E. Qed.

Lemma dbu_db_truthy : db_unchanged db_truthy.
Proof. intros st. unfold db_truthy. destruct (g_db st) eqn:E; exact E. Qed.

Lemma dbu_assign_id doc : db_unchanged (assign_id doc).
Proof. intros st. unfold assign_id. now destruct (dict_has "_id" doc). Qed.

Lemma dbu_find_one_id c o : db_unchanged (find_one_id c o).
Proof.
  destruct o as [o|bs]; cbn [find_one_id]; [apply dbu_find_one|].
  apply dbu_bind; [apply dbu_round_trip | now intros _ st].
Qed.

Lemma dbu_render doc : db_unchanged (render doc).
Proof. intros st. unfold render. now destruct (json_renderable _). Qed.

Lemma aam_insert_and_fetch c doc : appends_at_most 1 c (insert_and_fetch c doc).
Proof.
  unfold insert_and_fetch. apply (aam_bind 1 0).
  - unfold create_document. apply (aam_bind 0 1).
    + apply aam_db_same, dbu_db_is_None.
    + intros [|]; [apply (aam_le 0); [lia | now apply aam_db_same]|].
      apply (aam_bind 1 0); [|intros; now apply aam_db_same].
      unfold insert_one.
      apply (aam_bind 0 1); [apply aam_db_same, dbu_assign_id|]. intros doc'.
      apply (aam_bind 0 1); [apply aam_db_same, dbu_round_trip|]. intros _.
      apply (aam_bind 1 0); [apply aam_server_insert|].
      intros; now apply aam_db_same.
  - intros id. apply (aam_bind 0 0); [apply aam_db_same, dbu_db_getitem|].
    intros h. apply (aam_bind 0 0).
    { apply aam_db_same. intros st. now destruct (ObjectId_of_str id). }
    intros o. apply (aam_bind 0 0); [apply aam_db_same, dbu_find_one_id|].
    intros [d|]; now apply aam_db_same.
Qed.

Lemma nce_bind {A B : Type} (m : M A) (k : A -> M B) :
  no_client_error m -> (forall a, no_client_error (k a)) ->
  no_client_error (bind m k).
Proof.
  intros Hm Hk st. unfold bind. specialize (Hm st).
  destruct (m st) as [[a|e] st1]; cbn [fst] in *; [apply Hk | exact Hm].
Qed.

Lemma nce_insert_and_fetch c doc : no_client_error (insert_and_fetch c doc).
Proof.
  unfold insert_and_fetch. apply nce_bind.
  - unfold create_document. apply nce_bind.
    + intros st. unfold db_is_None. now destruct (g_db st).
    + intros [|]; [now intros st|].
      apply nce_bind; [|now intros st].
      unfold insert_one. apply nce_bind.
      { intros st. unfold assign_id. now destruct (dict_has "_id" doc). }
      intros doc'. apply nce_bind.
      { intros st. rewrite round_trip_run. now destruct (hd false (faults st)). }
      intros _. apply nce_bind; [|now intros st].
      intros st. unfold server_insert. now destruct (existsb _ _).
  - intros id. apply nce_bind.
    { intros st. unfold db_getitem. now destruct (g_db st). }
    intros h. apply nce_bind; [intros st; now destruct (ObjectId_of_str id)|].
    intros o. apply nce_bind.
    { intros st. destruct o as [o|bs]; cbn [find_one_id].
      - rewrite find_one_run. now destruct (hd false (faults st)).
      - unfold bind. rewrite round_trip_run. now destruct (hd false (faults st)). }
    intros [d|]; now intros st.
Qed.

Lemma nce_render doc : no_client_error (render doc).
Proof. intros st. unfold render. now destruct (json_renderable _). Qed.

(** X13: whatever the body and whatever the state, answering
    [POST /api/order] never changes or removes an order that is there:
    it appends at most one document to the order collection and leaves
    every other collection as it was; and when the answer is a client
    error (422 or 404) it appends none. *)
Theorem post_api_order_orders_append_only body st :
  exists added,
    docs_of (snd (post_api_order body st)) "order" = docs_of st "order" ++ added /\
    (List.length added <= 1)%nat /\
    (forall c, c <> "order" ->
       docs_of (snd (post_api_order body st)) c = docs_of st c) /\
    (client_error (fst (post_api_order body st)) = true -> added = []).
Proof.
  unfold post_api_order.
  destruct (validate_OrderCreate body) as [order|].
  2:{ exists []. cbn. rewrite app_nil_r. repeat split. lia. }
  assert (Hrun : (doc <- create_order order ;; render doc) st
                 = match order_loop (items order) zero [] st with
                   | (Return acc, st1) =>
                       (saved <- insert_and_fetch "order"
                          [("items", VList (snd acc));
                           ("customer",
                            VDict (model_dump_CustomerInfo (customer order)));
                           ("total", VFloat (round2 (fst acc)));
                           ("status", VStr "received")] ;;
                        render saved) st1
                   | (Raise e, st1) => (Raise e, st1)
                   end).
  { unfold create_order, insert_and_fetch. unfold bind at 1 2.
    now destruct (order_loop (items order) zero [] st) as [[acc|e] st1]. }
  rewrite Hrun. clear Hrun.
  pose proof (dbu_order_loop (items order) zero [] st) as Hloop.
  destruct (order_loop (items order) zero [] st) as [[acc|e] st1]; cbn [snd] in Hloop.
  - set (doc := [("items", _); _; _; _]).
    assert (Haam : appends_at_most 1 "order"
                     (saved <- insert_and_fetch "order" doc ;; render saved)).
    { apply (aam_bind 1 0); [apply aam_insert_and_fetch|].
      intros saved. apply aam_db_same, dbu_render. }
    assert (Hnce : no_client_error
                     (saved <- insert_and_fetch "order" doc ;; render saved)).
    { apply nce_bind; [apply nce_insert_and_fetch | apply nce_render]. }
    destruct (Haam st1) as ((added & Hd & Hlen) & Hother).
    exists added. rewrite Hd, (docs_of_same_db _ _ _ Hloop).
    split; [reflexivity|]. split; [exact Hlen|]. split.
    + intros c Hc. now rewrite Hother, (docs_of_same_db _ _ _ Hloop).
    + rewrite (Hnce st1). discriminate.
  - exists []. cbn [snd]. rewrite app_nil_r, (docs_of_same_db _ _ _ Hloop).
    repeat split. cbn; lia.
    intros c _. now apply docs_of_same_db.
Qed.

Lemma oa_db_same {A : Type} c (m : M A) : db_unchanged m -> only_appends c m.
Proof.
  intros H st. split.
  - exists []. rewrite app_nil_r. now apply docs_of_same_db.
  - intros c' _. now apply docs_of_same_db.
Qed.

Lemma oa_bind {A B : Type} c (m : M A) (f : A -> M B) :
  only_appends c m -> (forall a, only_appends c (f a)) ->
  only_appends c (bind m f).
Proof.
  intros Hm Hf st. unfold bind.
  destruct (Hm st) as ((added & Hd) & Hother).
  destruct (m st) as [[a|e] st1]; cbn [snd] in *.
  - destruct (Hf a st1) as ((added' & Hd') & Hother'). split.
    + exists (added ++ added'). now rewrite Hd', Hd, app_assoc.
    + intros c' Hc. now rewrite Hother', Hother.
  - split; [now exists added | exact Hother].
Qed.

Lemma oa_try {A : Type} c (m : M A) (h : exn -> M A) :
  only_appends c m -> (forall e, only_appends c (h e)) ->
  only_appends c (try_except m h).
Proof.
  intros Hm Hh st. unfold try_except.
  destruct (Hm st) as ((added & Hd) & Hother).
  destruct (m st) as [[a|e] st1]; cbn [snd] in *.
  - split; [now exists added | exact Hother].
  - destruct (Hh e st1) as ((added' & Hd') & Hother'). split.
    + exists (added ++ added'). now rewrite Hd', Hd, app_assoc.
    + intros c' Hc. now rewrite Hother', Hother.
Qed.

Lemma oa_server_insert c doc : only_appends c (server_insert c doc).
Proof.
  intros st. destruct (aam_server_insert c doc st) as ((added & Hd & _) & Hother).
  split; [now exists added | exact Hother].
Qed.

Lemma oa_server_insert_all c docs : only_appends c (server_insert_all c docs).
Proof.
  induction docs as [|d docs IH]; cbn [server_insert_all].
  - now apply oa_db_same.
  - apply oa_bind; [apply oa_server_insert | intros _; exact IH].
Qed.

Lemma dbu_assign_ids docs : db_unchanged (assign_ids docs).
Proof.
  induction docs as [|d docs IH]; cbn [assign_ids]; [now intros st|].
  apply dbu_bind; [apply dbu_assign_id|]. intros d'.
  apply dbu_bind; [exact IH | now intros st].
Qed.

Lemma oa_db_getitem {A : Type} c name (f : Collection -> M A) :
  only_appends c (f name) -> only_appends c (bind (db_getitem name) f).
Proof.
  intros H st. unfold bind, db_getitem.
  destruct (g_db st); [apply H|]. cbn [snd]. split.
  - exists []. now rewrite app_nil_r.
  - reflexivity.
Qed.

Lemma oa_ensure_seed_products : only_appends "product" ensure_seed_products.
Proof.
  unfold ensure_seed_products.
  apply oa_try; [|intros; now apply oa_db_same].
  apply oa_bind.
  - apply oa_db_same. apply dbu_bind.
    + apply dbu_db_truthy.
    + intros [|]; [|now intros st].
      apply dbu_bind; [apply dbu_db_getitem|]. intros c.
      unfold count_documents. apply dbu_bind; [apply dbu_round_trip | now intros st].
  - intros count. destruct (count =? 0); [|now apply oa_db_same].
    apply oa_db_getitem.
    unfold insert_many_SEED_PRODUCTS.
    apply oa_bind; [now apply oa_db_same|]. intros docs.
    apply oa_bind; [apply oa_db_same, dbu_assign_ids|]. intros docs'.
    apply oa_bind; [now apply oa_db_same|]. intros _.
    apply oa_bind; [apply oa_db_same, dbu_round_trip|]. intros _.
    apply oa_server_insert_all.
Qed.

Lemma ensure_seed_products_returns st : fst (ensure_seed_products st) = Return tt.
Proof.
  unfold ensure_seed_products, try_except.
  match goal with
  | |- fst (match ?m with _ => _ end) = _ => destruct m as [[[]|e] st1]
  end; reflexivity.
Qed.

(** X14: whatever the state and whatever the category, seeding never
    fails a listing ([ensure_seed_products] always returns), and a
    listing never changes or removes a product that is there and never
    touches another collection: all it may do to the store is append to
    the product collection. *)
Theorem list_products_append_only cat st :
  fst (ensure_seed_products st) = Return tt /\
  (exists added,
     docs_of (snd (list_products cat st)) "product"
     = docs_of st "product" ++ added) /\
  (forall c, c <> "product" ->
     docs_of (snd (list_products cat st)) c = docs_of st c).
Proof.
  split; [apply ensure_seed_products_returns|].
  revert st. change (only_appends "product" (list_products cat)).
  unfold list_products. apply oa_bind; [apply oa_ensure_seed_products|].
  intros _. apply oa_bind; [|intros; now apply oa_db_same].
  apply oa_db_same. unfold get_documents.
  apply dbu_bind; [apply dbu_db_is_None|].
  intros [|]; [now intros st|].
  unfold find_all. apply dbu_bind; [apply dbu_round_trip | now intros st].
Qed.

Lemma seeded_reliable ids n q k st :
  reliable (3 + k) st -> reliable k (seeded ids n q st).
Proof.
  intros H. unfold seeded.
  apply (reliable_trips [_]). unfold reliable. rewrite put_docs_faults.
  apply (reliable_trips [_] (1 + k) (set_SEED_PRODUCTS _ (set_next_oid _ _))).
  change (reliable (1 + (1 + k)) (trips [OpCount "product" []] st)).
  now apply (reliable_trips [_]).
Qed.

(** A listing on a connected store that holds products. *)
Lemma list_products_stocked_run cat st :
  g_db st <> None ->
  handle_bool = Return true ->
  reliable 2 st ->
  docs_of st "product" <> [] ->
  list_products cat st
  = (Return (map serialize_doc
               (filter (matches (category_query cat)) (docs_of st "product"))),
     trips [OpCount "product" []; OpFind "product" (category_query cat)] st).
Proof.
  intros Hdb Htrue Hrel Hne.
  apply reliable_S in Hrel as [Hhd0 Hrel].
  set (st1 := trips [OpCount "product" []] st).
  specialize (Hrel (OpCount "product" [])). fold st1 in Hrel.
  assert (Hseed : ensure_seed_products st = (Return tt, st1)).
  { unfold ensure_seed_products, try_except.
    unfold bind at 1. unfold bind at 1. unfold db_truthy.
    destruct (g_db st) as [d|] eqn:Ed; [|congruence].
    rewrite Htrue. unfold bind at 1. unfold db_getitem. rewrite Ed.
    unfold count_documents, bind. rewrite round_trip_run, Hhd0.
    fold st1. change (docs_of st1 "product") with (docs_of st "product").
    rewrite filter_matches_all.
    destruct (docs_of st "product") as [|d0 ds]; [congruence|].
    reflexivity. }
  unfold list_products. fold (category_query cat).
  rewrite (bind_run _ _ _ _ _ Hseed).
  unfold get_documents. unfold bind at 1. unfold bind at 1. unfold db_is_None.
  change (g_db st1) with (g_db st).
  destruct (g_db st) as [d|] eqn:Ed; [|congruence].
  unfold find_all, bind at 1. rewrite round_trip_run, (reliable_hd _ _ Hrel).
  unfold ret. unfold st1. rewrite trips_app. reflexivity.
Qed.

(** X15: on a connected store that answers and already holds products,
    a listing seeds nothing and writes nothing: it counts, queries, and
    returns the serialized products whose category is the one asked for
    (all of them when no category, or the empty text, is given), in the
    order the store keeps them. *)
Theorem list_products_stocked cat st :
  g_db st <> None ->
  handle_bool = Return true ->
  reliable 2 st ->
  docs_of st "product" <> [] ->
  exists answer st',
    list_products cat st = (Return answer, st') /\
    g_db st' = g_db st /\
    g_SEED_PRODUCTS st' = g_SEED_PRODUCTS st /\
    oplog st' = oplog st ++ [OpCount "product" [];
                             OpFind "product" (category_query cat)] /\
    answer = map serialize_doc
               (filter (fun doc =>
                          match cat with
                          | None | Some "" => true
                          | Some c =>
                              match dict_get "category" doc with
                              | Some v => value_eqb v (VStr c)
                              | None => false
                              end
                          end) (docs_of st "product")).
Proof.
  intros Hdb Htrue Hrel Hne.
  eexists. eexists. split; [now apply list_products_stocked_run|].
  repeat split.
  f_equal. apply filter_ext. intros doc.
  destruct cat as [[|a c]|]; cbn [category_query matches forallb fst snd];
    try reflexivity.
  now rewrite andb_true_r.
Qed.

(** X16: listing twice seeds once: after the listing that seeded an
    empty catalog, a second listing, whatever its category, finds the
    four seed products, adds none, and answers from those four. *)
Theorem list_products_twice cat1 cat2 st :
  g_db st <> None ->
  handle_bool = Return true ->
  docs_of st "product" = [] ->
  reliable 5 st ->
  seeds_intact st ->
  exists ids answer1 answer2 st1 st2,
    list_products cat1 st = (Return answer1, st1) /\
    list_products cat2 st1 = (Return answer2, st2) /\
    List.length ids = 4%nat /\
    docs_of st1 "product" = seeds_stored ids /\
    docs_of st2 "product" = seeds_stored ids /\
    answer2 = map serialize_doc
                (filter (matches (category_query cat2)) (seeds_stored ids)).
Proof.
  intros Hdb Htrue Hempty Hrel Hseeds.
  destruct (list_products_run cat1 st Hdb Htrue Hempty
              (reliable_le 5 3 st ltac:(lia) Hrel) Hseeds)
    as (ids & n' & Hlen & Hnd & Hrun1).
  set (st1 := seeded ids n' (category_query cat1) st) in *.
  assert (Hdocs1 : docs_of st1 "product" = seeds_stored ids).
  { unfold st1, seeded. rewrite docs_of_trips. now apply docs_of_put_same. }
  assert (Hdb1 : g_db st1 <> None).
  { unfold st1, seeded. cbn [trips g_db]. now apply put_docs_db. }
  assert (Hrun2 := list_products_stocked_run cat2 st1 Hdb1 Htrue
                     (seeded_reliable ids n' _ 2 st Hrel)).
  rewrite Hdocs1 in Hrun2.
  exists ids. eexists. eexists. exists st1. eexists.
  split; [exact Hrun1|]. split.
  { apply Hrun2.
    destruct ids as [|o1 [|o2 [|o3 [|o4 [|o5 ids]]]]]; discriminate. }
  split; [exact Hlen|]. split; [exact Hdocs1|].
  split; [exact Hdocs1 | reflexivity].
Qed.

(* ================================================================== *)
(** ** The stored documents and the schemas *)

Lemma seeds_conform ids :
  List.length ids = 4%nat ->
  Forall (fun doc => validate_Product (VDict doc) <> None) (seeds_stored ids).
Proof.
  intros Hlen.
  destruct ids as [|o1 [|o2 [|o3 [|o4 [|o5 ids]]]]]; try discriminate.
  repeat constructor; discriminate.
Qed.

(** X17: the product documents the code writes conform to the
    [Product] schema: the document stored for a created product with a
    price of at least 0 validates, field for field, to what was sent,
    and so does each of the four seed products as stored. *)
Theorem stored_products_conform p o ids :
  PrimFloat.leb zero (price p) = true ->
  List.length ids = 4%nat ->
  validate_Product (VDict (("_id", VOid o) :: model_dump_ProductCreate p))
  = Some {| product_title := title p; product_description := description p;
            product_price := price p; product_category := category p;
            product_images := images p; product_sizes := sizes p;
            product_in_stock := in_stock p |} /\
  Forall (fun doc => validate_Product (VDict doc) <> None) (seeds_stored ids).
Proof.
  intros Hprice Hlen. split; [|now apply seeds_conform].
  destruct p as [t de pr c im sz stock].
  unfold validate_Product, model_dump_ProductCreate.
  cbn [dict_get String.eqb Ascii.eqb Bool.eqb title description price category
       images sizes in_stock validate_str validate_price validate_bool
       validate_str_list] in *.
  assert (Hde : validate_optional_str
                  (Some match de with Some s => VStr s | None => VNone end)
                = Some de) by now destruct de.
  now rewrite Hde, !validate_strs_dump, Hprice.
Qed.

(** X18: the order documents the code writes do not conform to the
    [Order] schema: the document a successful placement persists keeps
    the customer as one nested record and has no [customer_name], so
    its validation against [Order] fails. *)
Theorem stored_order_does_not_conform order rs st :
  g_db st <> None ->
  reliable (List.length rs + 2) st ->
  generator_fresh st ->
  items order = map r_item rs ->
  Forall (resolved st) rs ->
  exists doc saved st',
    create_order order st = (Return doc, st') /\
    docs_of st' "order" = docs_of st "order" ++ [saved] /\
    dict_get "customer" saved
    = Some (VDict [("name", VStr (name (customer order)));
                   ("email", VStr (email (customer order)));
                   ("address", VStr (address (customer order)))]) /\
    dict_get "customer_name" saved = None /\
    validate_Order (VDict saved) = None.
Proof.
  intros Hdb Hrel Hfresh Hitems Hres.
  exists (order_response (customer order) rs st).
  exists (("_id", VOid (Oid (next_oid st))) :: order_doc_of (customer order) rs).
  exists (order_placed (customer order) rs st).
  split; [now apply create_order_run|].
  split; [now apply order_placed_orders|].
  repeat split.
Qed.

End Main.

Open Scope list_scope.

(* ================================================================== *)
(** ** The statements on the shop *)

Lemma shop_connected : g_db shop <> None.
Proof. discriminate. Qed.

Lemma shop_reliable n : reliable n shop.
Proof. apply reliable_nil. reflexivity. Qed.

Lemma shop_generator_fresh : generator_fresh shop.
Proof. split; [reflexivity | intros d []]. Qed.

Lemma shop_two_hoodies : resolved float_of_str_unused shop two_hoodies_resolved.
Proof.
  unfold resolved. split; [reflexivity|]. split; [reflexivity|].
  split; [reflexivity|]. cbn. lia.
Qed.

Lemma shop_three_tees : resolved float_of_str_unused shop three_tees_resolved.
Proof.
  unfold resolved. split; [reflexivity|]. split; [reflexivity|].
  split; [reflexivity|]. cbn. lia.
Qed.

Lemma sticker_shop_resolved :
  Forall (resolved float_of_str_unused sticker_shop)
         [one_sticker_resolved; one_badge_resolved].
Proof.
  constructor; [|constructor; [|constructor]];
    (unfold resolved; split; [reflexivity|]; split; [reflexivity|];
     split; [reflexivity|]; cbn; lia).
Qed.

(** One sticker at 0.1 and one badge at 0.2: the line totals add up to
    0.30000000000000004, and the total of the order is 0.3, the float
    nearest to 30/100. *)
Lemma create_order_total_witness :
  float_sum [(0x1.999999999999ap-4 * 1)%float; (0x1.999999999999ap-3 * 1)%float]
  = 0x1.3333333333334p-2%float /\
  exists doc st',
    create_order float_of_str_unused repr_unused
      {| items := [one_sticker; one_badge]; customer := alice |} sticker_shop
    = (Return doc, st') /\
    dict_get "total" doc = Some (VFloat 0x1.3333333333333p-2) /\
    dict_get "total" doc = Some (VFloat (hundredths false 30)) /\
    dict_get "status" doc = Some (VStr "received").
Proof.
  split; [vm_compute; reflexivity|].
  destruct (create_order_total float_of_str_unused repr_unused
              {| items := [one_sticker; one_badge]; customer := alice |}
              [one_sticker_resolved; one_badge_resolved] sticker_shop)
    as (doc & lines & st' & Hrun & Hstatus & _ & _ & Htotal & Hnear & _).
  - discriminate.
  - apply reliable_nil. reflexivity.
  - split; [reflexivity | intros d []].
  - reflexivity.
  - exact sticker_shop_resolved.
  - exists doc, st'. split; [exact Hrun|].
    split; [rewrite Htotal; vm_compute; reflexivity|].
    split; [|exact Hstatus].
    destruct (Hnear false 5404319552844596%positive (-54))
      as (k & Hk & [Hle _] & Hk100); [vm_compute; reflexivity|].
    change (2 ^ Z.max (- -54) 0) with 18014398509481984 in Hle.
    change (100 * (5404319552844596 * 2 ^ Z.max (-54) 0))
      with 540431955284459600 in Hle.
    assert (Hk30 : k = 30) by lia.
    now rewrite Hk100, Hk30.
Defined.

Lemma create_order_line_items_witness :
  exists saved st',
    snd (create_order float_of_str_unused repr_unused
           {| items := [two_hoodies; three_tees]; customer := alice |} shop) = st' /\
    docs_of st' "order" = [saved] /\
    dict_get "items" saved
    = Some (VList
        [VDict [("product_id", VStr "000000000000000000000000");
                ("title", VStr "Smiley Classic Hoodie");
                ("size", VStr "M"); ("quantity", VInt 2);
                ("unit_price", VFloat 59); ("line_total", VFloat 118)];
         VDict [("product_id", VStr "000000000000000000000001");
                ("title", VStr "Smiley Minimal Tee");
                ("size", VStr "XXXL"); ("quantity", VInt 3);
                ("unit_price", VFloat 24); ("line_total", VFloat 72)]]).
Proof.
  destruct (create_order_line_items float_of_str_unused repr_unused
              {| items := [two_hoodies; three_tees]; customer := alice |}
              [two_hoodies_resolved; three_tees_resolved] shop)
    as (doc & saved & st' & Hrun & Horders & _ & Hitems).
  - exact shop_connected.
  - apply shop_reliable.
  - exact shop_generator_fresh.
  - reflexivity.
  - constructor; [exact shop_two_hoodies|].
    constructor; [exact shop_three_tees | constructor].
  - exists saved, st'. split; [now rewrite Hrun|]. split; [exact Horders|].
    rewrite Hitems. vm_compute. reflexivity.
Defined.

(** The Minimal Tee declares S, M, L and XL; three of them in "XXXL" are
    ordered all the same. *)
Lemma create_order_size_unchecked_witness :
  dict_get "sizes" tee = Some (VList [VStr "S"; VStr "M"; VStr "L"; VStr "XL"]) /\
  exists doc saved lines st',
    create_order float_of_str_unused repr_unused
      {| items := [three_tees]; customer := alice |} shop = (Return doc, st') /\
    docs_of st' "order" = docs_of shop "order" ++ [saved] /\
    dict_get "items" saved = Some (VList (map VDict lines)) /\
    map (dict_get "size") lines = [Some (VStr "XXXL")].
Proof.
  split; [reflexivity|].
  apply (create_order_size_unchecked float_of_str_unused repr_unused
           {| items := [three_tees]; customer := alice |}
           [three_tees_resolved] shop).
  - exact shop_connected.
  - apply shop_reliable.
  - exact shop_generator_fresh.
  - reflexivity.
  - constructor; [exact shop_three_tees | constructor].
Defined.

(** A hoodie, then an identifier no product has, then a tee; and the
    same cart with, in the middle, a text of 24 characters with white
    space, which the store is asked about as an identifier of 8 bytes. *)
Lemma create_order_product_not_found_witness :
  (exists st',
     create_order float_of_str_unused repr_unused
       {| items := [two_hoodies; no_such_product; three_tees];
          customer := alice |} shop
     = (Raise (HTTPException 404 "Product not found: ffffffffffffffffffffffff"),
        st') /\
     g_db st' = g_db shop /\
     oplog st'
     = (oplog shop
        ++ [find_product_op (Oid 0);
            find_product_op (Oid 79228162514264337593543950335)])%list) /\
  (exists st',
     create_order float_of_str_unused repr_unused
       {| items := [two_hoodies; spaced_id; three_tees];
          customer := alice |} shop
     = (Raise (HTTPException 404 "Product not found: 00 00 00 00 00 00 00 00 "),
        st') /\
     g_db st' = g_db shop /\
     oplog st'
     = (oplog shop
        ++ [find_product_op (Oid 0);
            OpFindOneShort "product" [0; 0; 0; 0; 0; 0; 0; 0]%N])%list).
Proof.
  split.
  - destruct (create_order_product_not_found float_of_str_unused repr_unused
                {| items := [two_hoodies; no_such_product; three_tees];
                   customer := alice |}
                [two_hoodies_resolved] no_such_product [three_tees] shop)
      as (st' & Hrun & Hdb & Hlog).
    + reflexivity.
    + exact shop_connected.
    + apply shop_reliable.
    + constructor; [exact shop_two_hoodies | constructor].
    + reflexivity.
    + exists st'. split; [exact Hrun|]. split; [exact Hdb|].
      rewrite Hlog. vm_compute. reflexivity.
  - destruct (create_order_product_not_found float_of_str_unused repr_unused
                {| items := [two_hoodies; spaced_id; three_tees];
                   customer := alice |}
                [two_hoodies_resolved] spaced_id [three_tees] shop)
      as (st' & Hrun & Hdb & Hlog).
    + reflexivity.
    + exact shop_connected.
    + apply shop_reliable.
    + constructor; [exact shop_two_hoodies | constructor].
    + reflexivity.
    + exists st'. split; [exact Hrun|]. split; [exact Hdb|].
      rewrite Hlog. vm_compute. reflexivity.
Defined.

Lemma create_order_invalid_id_witness :
  exists st',
    create_order float_of_str_unused repr_unused
      {| items := [two_hoodies; not_an_id; three_tees]; customer := alice |} shop
    = (Raise (HTTPException 404 "Product not found: does-not-exist"), st') /\
    http_status
      (fst (create_order float_of_str_unused repr_unused
              {| items := [two_hoodies; not_an_id; three_tees];
                 customer := alice |} shop)) = 404 /\
    g_db st' = g_db shop /\
    oplog st' = (oplog shop ++ [find_product_op (Oid 0)])%list.
Proof.
  apply (create_order_invalid_id float_of_str_unused repr_unused
           {| items := [two_hoodies; not_an_id; three_tees]; customer := alice |}
           [two_hoodies_resolved] not_an_id [three_tees] shop).
  - reflexivity.
  - apply shop_reliable.
  - constructor; [exact shop_two_hoodies | constructor].
  - reflexivity.
Defined.

(** C3, counterexample: without a connection, and likewise when the
    lookup round trip fails, the order for an existing product is
    answered 404 "Product not found", which is not a server error. *)
Lemma create_order_store_failure_counterexample :
  fst (create_order float_of_str_unused repr_unused
         {| items := [two_hoodies]; customer := alice |} (start None))
  = Raise (HTTPException 404 "Product not found: 000000000000000000000000") /\
  server_error
    (fst (create_order float_of_str_unused repr_unused
            {| items := [two_hoodies]; customer := alice |} (start None)))
  = false /\
  product_of shop two_hoodies = Some hoodie /\
  fst (create_order float_of_str_unused repr_unused
         {| items := [two_hoodies]; customer := alice |}
         (with_faults [true] shop))
  = Raise (HTTPException 404 "Product not found: 000000000000000000000000") /\
  server_error
    (fst (create_order float_of_str_unused repr_unused
            {| items := [two_hoodies]; customer := alice |}
            (with_faults [true] shop)))
  = false.
Proof. vm_compute. repeat split. Qed.

Lemma create_order_store_failure_witness :
  exists st',
    create_order float_of_str_unused repr_unused
      {| items := [two_hoodies; three_tees]; customer := alice |}
      (with_faults [false; true] shop)
    = (Raise (HTTPException 404 "Product not found: 000000000000000000000001"),
       st') /\
    client_error
      (fst (create_order float_of_str_unused repr_unused
              {| items := [two_hoodies; three_tees]; customer := alice |}
              (with_faults [false; true] shop))) = true /\
    server_error
      (fst (create_order float_of_str_unused repr_unused
              {| items := [two_hoodies; three_tees]; customer := alice |}
              (with_faults [false; true] shop))) = false /\
    g_db st' = g_db (with_faults [false; true] shop).
Proof.
  apply (create_order_store_failure float_of_str_unused repr_unused
           {| items := [two_hoodies; three_tees]; customer := alice |}
           [two_hoodies_resolved] three_tees [] (with_faults [false; true] shop)).
  - reflexivity.
  - reflexivity.
  - constructor; [exact shop_two_hoodies | constructor].
  - right. split; [discriminate|]. split; [discriminate | reflexivity].
Defined.

Lemma post_api_order_quantity_range_witness :
  validate_OrderCreate
    (VDict [("items", VList [json_item two_hoodies;
                             VDict [("product_id", VStr "000000000000000000000001");
                                    ("size", VStr "L"); ("quantity", VInt 11)]]);
            ("customer", json_customer)]) = None /\
  post_api_order float_of_str_unused repr_unused
    (VDict [("items", VList [json_item two_hoodies;
                             VDict [("product_id", VStr "000000000000000000000001");
                                    ("size", VStr "L"); ("quantity", VInt 11)]]);
            ("customer", json_customer)]) shop
  = (Raise RequestValidationError, shop) /\
  oplog
    (snd (post_api_order float_of_str_unused repr_unused
            (VDict [("items", VList [json_item two_hoodies;
                                     VDict [("product_id", VStr "000000000000000000000001");
                                            ("size", VStr "L"); ("quantity", VInt 11)]]);
                    ("customer", json_customer)]) shop)) = oplog shop.
Proof.
  apply (post_api_order_quantity_range float_of_str_unused repr_unused _
           [json_item two_hoodies;
            VDict [("product_id", VStr "000000000000000000000001");
                   ("size", VStr "L"); ("quantity", VInt 11)]]
           [("product_id", VStr "000000000000000000000001");
            ("size", VStr "L"); ("quantity", VInt 11)] 11 shop).
  - reflexivity.
  - right. left. reflexivity.
  - reflexivity.
  - right. lia.
Defined.

(** C4, counterexample: the body with no items is not refused; it is
    answered 200 and leaves an order in the store. *)
Lemma post_api_order_empty_cart_counterexample :
  http_status
    (fst (post_api_order float_of_str_unused repr_unused
            (VDict [("items", VList []); ("customer", json_customer)]) shop))
  = 200 /\
  docs_of shop "order" = [] /\
  docs_of
    (snd (post_api_order float_of_str_unused repr_unused
            (VDict [("items", VList []); ("customer", json_customer)]) shop))
    "order"
  = [[("_id", VOid (Oid 4)); ("items", VList []);
      ("customer", json_customer); ("total", VFloat 0);
      ("status", VStr "received")]].
Proof. vm_compute. repeat split. Qed.

Lemma post_api_order_empty_cart_witness :
  exists doc saved o st',
    validate_OrderCreate (VDict [("items", VList []); ("customer", json_customer)])
    = Some {| items := []; customer := alice |} /\
    post_api_order float_of_str_unused repr_unused
      (VDict [("items", VList []); ("customer", json_customer)]) shop
    = (Return doc, st') /\
    docs_of st' "order" = (docs_of shop "order" ++ [saved])%list /\
    dict_get "_id" saved = Some (VOid o) /\
    dict_get "items" saved = Some (VList []) /\
    dict_get "total" saved = Some (VFloat zero) /\
    dict_get "status" saved = Some (VStr "received") /\
    dict_get "id" doc = Some (VStr (oid_str o)) /\
    dict_get "items" doc = Some (VList []) /\
    dict_get "total" doc = Some (VFloat zero) /\
    dict_get "status" doc = Some (VStr "received") /\
    dict_get "customer" doc = Some (VDict (model_dump_CustomerInfo alice)) /\
    exists ops,
      oplog st' = (oplog shop ++ ops)%list /\
      Forall (fun op => op_collection op = "order") ops.
Proof.
  apply (post_api_order_empty_cart float_of_str_unused repr_unused
           [("items", VList []); ("customer", json_customer)] alice shop).
  - reflexivity.
  - reflexivity.
  - exact shop_connected.
  - apply shop_reliable.
  - exact shop_generator_fresh.
Defined.

(** The shop is the state the first listing of an empty store leaves. *)
Lemma first_listing_shop :
  list_products repr_unused handle_true None (start (Some []))
  = (Return (seeds_listed seed_ids), shop).
Proof. reflexivity. Qed.

(** The first listing of a store that holds nothing. *)
Lemma list_products_seeds_witness :
  exists answer st',
    list_products repr_unused handle_true None (start (Some []))
    = (Return answer, st') /\
    List.length (docs_of st' "product") = 4%nat /\
    map (fun d => (dict_get "title" d, dict_get "category" d, dict_get "price" d))
        answer
    = [(Some (VStr "Smiley Classic Hoodie"), Some (VStr "hoodies"),
        Some (VFloat 59));
       (Some (VStr "Smiley Minimal Tee"), Some (VStr "t-shirts"),
        Some (VFloat 24));
       (Some (VStr "Smiley Oversized Hoodie"), Some (VStr "hoodies"),
        Some (VFloat 72));
       (Some (VStr "Smiley Retro Tee"), Some (VStr "t-shirts"),
        Some (VFloat 29))].
Proof.
  destruct (list_products_seeds repr_unused handle_true None (start (Some [])))
    as (ids & answer & st' & Hrun & Hlen & _ & Hdocs & _ & _ & Hall).
  - discriminate.
  - reflexivity.
  - reflexivity.
  - reflexivity.
  - left. reflexivity.
  - exists answer, st'. split; [exact Hrun|]. split.
    + rewrite Hdocs. unfold seeds_stored.
      rewrite length_map, length_combine, Hlen. reflexivity.
    + apply Hall. now left.
Defined.

(** The first listing of a store that holds nothing, through pymongo's
    handle: nothing is seeded and the answer is empty. *)
Lemma list_products_unseeded_witness :
  exists st',
    list_products repr_unused handle_refuses None (start (Some []))
    = (Return [], st') /\
    docs_of st' "product" = [] /\
    g_SEED_PRODUCTS st' = SEED_PRODUCTS /\
    oplog st' = [OpFind "product" []].
Proof.
  apply (list_products_unseeded repr_unused handle_refuses NotImplementedError
           None (start (Some []))).
  - reflexivity.
  - discriminate.
  - reflexivity.
  - reflexivity.
Defined.

(* ================================================================== *)
(** ** The further statements on the shop *)

Lemma shop_product_ids_unused : oid_unused (Oid (next_oid shop)) (docs_of shop "product").
Proof.
  intros d Hd. vm_compute in Hd.
  repeat (destruct Hd as [<- | Hd]; [discriminate|]).
  destruct Hd.
Qed.

Lemma shop_bound : (next_oid shop < 16 ^ 24)%N.
Proof. reflexivity. Qed.

(** A document with an ["id"] of its own and an ObjectId among its
    other fields. *)
Lemma serialize_doc_fields_witness :
  dict_get "_id"
    (serialize_doc repr_unused
       [("_id", VOid (Oid 10)); ("id", VInt 7); ("owner", VOid (Oid 11));
        ("title", VStr "Cap")]) = None /\
  dict_get "id"
    (serialize_doc repr_unused
       [("_id", VOid (Oid 10)); ("id", VInt 7); ("owner", VOid (Oid 11));
        ("title", VStr "Cap")]) = Some (VStr "00000000000000000000000a") /\
  dict_get "owner"
    (serialize_doc repr_unused
       [("_id", VOid (Oid 10)); ("id", VInt 7); ("owner", VOid (Oid 11));
        ("title", VStr "Cap")]) = Some (VStr "00000000000000000000000b").
Proof.
  destruct (serialize_doc_fields repr_unused
              [("_id", VOid (Oid 10)); ("id", VInt 7); ("owner", VOid (Oid 11));
               ("title", VStr "Cap")]) as (H1 & H2 & H3 & _).
  - unfold unique_keys. cbn [map fst].
    repeat (constructor;
            [cbn [In]; intros H;
             repeat (destruct H as [H | H]; [discriminate H|]); exact H|]).
    constructor.
  - split; [exact H1|]. split.
    + exact (H2 (VOid (Oid 10)) eq_refl).
    + rewrite H3; [reflexivity | discriminate | left; discriminate].
Defined.

Lemma hoodie_unique_keys : unique_keys hoodie.
Proof.
  unfold unique_keys. vm_compute.
  repeat (constructor;
          [cbn [In]; intros H;
           repeat (destruct H as [H | H]; [discriminate H|]); exact H|]).
  constructor.
Qed.

Lemma serialize_doc_idempotent_witness :
  serialize_doc repr_unused (serialize_doc repr_unused hoodie)
  = serialize_doc repr_unused hoodie.
Proof. exact (serialize_doc_idempotent repr_unused hoodie hoodie_unique_keys). Defined.

(** A scarf is created in the shop and two of them can be ordered. *)
Lemma create_product_then_order_witness :
  exists doc saved pid st',
    create_product repr_unused scarf shop = (Return doc, st') /\
    docs_of st' "product" = docs_of shop "product" ++ [saved] /\
    docs_of st' "order" = docs_of shop "order" /\
    dict_get "id" doc = Some (VStr pid) /\
    resolved float_of_str_unused st'
      {| r_item := {| product_id := pid; size := "M"; quantity := 2 |};
         r_oid := Oid 4; r_prod := saved; r_price := 19.5 |}.
Proof.
  destruct (create_product_then_order float_of_str_unused repr_unused scarf shop)
    as (doc & saved & pid & st' & Hrun & Hdocs & Hother & Hdoc & Hres).
  - exact shop_connected.
  - apply shop_reliable.
  - exact shop_bound.
  - exact shop_product_ids_unused.
  - exists doc, saved, pid, st'.
    split; [exact Hrun|]. split; [exact Hdocs|].
    split; [apply Hother; discriminate|].
    split; [rewrite Hdoc; reflexivity|].
    apply (Hres "M" 2). lia.
Defined.

Lemma post_api_products_price_below_zero_witness :
  validate_ProductCreate
    (VDict [("title", VStr "Smiley Scarf"); ("price", VFloat (-1));
            ("category", VStr "accessories")]) = None /\
  post_api_products repr_unused
    (VDict [("title", VStr "Smiley Scarf"); ("price", VFloat (-1));
            ("category", VStr "accessories")]) shop
  = (Raise RequestValidationError, shop).
Proof.
  apply (post_api_products_price_below_zero repr_unused
           [("title", VStr "Smiley Scarf"); ("price", VFloat (-1));
            ("category", VStr "accessories")] (-1)%float shop).
  - reflexivity.
  - reflexivity.
Defined.

Lemma post_api_products_defaults_witness :
  exists doc st',
    post_api_products repr_unused json_scarf shop = (Return doc, st') /\
    dict_get "sizes" doc
    = Some (VList [VStr "S"; VStr "M"; VStr "L"; VStr "XL"]) /\
    dict_get "in_stock" doc = Some (VBool true) /\
    dict_get "images" doc = Some (VList []) /\
    dict_get "description" doc = Some VNone.
Proof.
  destruct (post_api_products_defaults repr_unused
              "Smiley Scarf" 19.5%float "accessories" shop)
    as (doc & st' & Hrun & _ & Hdoc).
  - reflexivity.
  - reflexivity.
  - exact shop_connected.
  - apply shop_reliable.
  - exact shop_bound.
  - exact shop_product_ids_unused.
  - exists doc, st'. split; [exact Hrun|]. rewrite Hdoc. repeat split.
Defined.

Lemma listed_id_resolves_witness :
  exists pid,
    dict_get "id" (serialize_doc repr_unused hoodie) = Some (VStr pid) /\
    product_of shop {| product_id := pid; size := "L"; quantity := 1 |}
    = Some hoodie.
Proof.
  destruct (listed_id_resolves repr_unused shop hoodie (Oid 0))
    as (pid & Hid & Hres).
  - exact hoodie_unique_keys.
  - reflexivity.
  - reflexivity.
  - exists pid. split; [exact Hid | apply Hres].
Defined.

Lemma bare_shop_resolved : resolved float_of_str_unused bare_shop one_bare_resolved.
Proof.
  unfold resolved. split; [reflexivity|]. split; [reflexivity|].
  split; [reflexivity|]. cbn. lia.
Qed.

(** Three items of a product that has neither a price nor a title. *)
Lemma create_order_missing_fields_witness :
  exists doc line st',
    create_order float_of_str_unused repr_unused
      {| items := [one_bare]; customer := alice |} bare_shop = (Return doc, st') /\
    dict_get "items" doc = Some (VList [VDict line]) /\
    dict_get "unit_price" line = Some (VFloat zero) /\
    dict_get "line_total" line = Some (VFloat zero) /\
    dict_get "title" line = Some VNone.
Proof.
  destruct (create_order_missing_fields float_of_str_unused repr_unused
              {| items := [one_bare]; customer := alice |}
              [one_bare_resolved] bare_shop)
    as (doc & lines & st' & Hrun & Hitems & Hlines).
  - discriminate.
  - reflexivity.
  - split; [reflexivity | intros d []].
  - reflexivity.
  - constructor; [exact bare_shop_resolved | constructor].
  - inversion Hlines as [|r line rs' lines' [Hprice Htitle] Hrest]; subst.
    inversion Hrest; subst.
    exists doc, line, st'. split; [exact Hrun|]. split; [exact Hitems|].
    destruct (Hprice eq_refl) as [Hu Ht].
    split; [exact Hu|]. split; [exact Ht | exact (Htitle eq_refl)].
Defined.

(** A product whose price is null. *)
Lemma create_order_unreadable_price_witness :
  exists st',
    create_order float_of_str_unused repr_unused
      {| items := [one_bare]; customer := alice |} odd_shop
    = (Raise TypeError, st') /\
    http_status
      (fst (create_order float_of_str_unused repr_unused
              {| items := [one_bare]; customer := alice |} odd_shop)) = 500 /\
    g_db st' = g_db odd_shop.
Proof.
  apply (create_order_unreadable_price float_of_str_unused repr_unused
           {| items := [one_bare]; customer := alice |} [] one_bare
           [("_id", VOid (Oid 0)); ("title", VStr "Odd"); ("price", VNone)]
           TypeError [] odd_shop).
  - reflexivity.
  - discriminate.
  - reflexivity.
  - constructor.
  - reflexivity.
  - reflexivity.
Defined.

Lemma create_order_refetch_failure_witness :
  exists saved st',
    create_order float_of_str_unused repr_unused
      {| items := [two_hoodies]; customer := alice |}
      (with_faults [false; false; true] shop)
    = (Raise PyMongoError, st') /\
    docs_of st' "order" = [saved] /\
    dict_get "status" saved = Some (VStr "received").
Proof.
  destruct (create_order_refetch_failure float_of_str_unused repr_unused
              {| items := [two_hoodies]; customer := alice |}
              [two_hoodies_resolved] (with_faults [false; false; true] shop))
    as (saved & st' & Hrun & _ & Hdocs & _ & Hstatus).
  - discriminate.
  - reflexivity.
  - reflexivity.
  - split; [reflexivity | intros d []].
  - reflexivity.
  - constructor; [exact shop_two_hoodies | constructor].
  - exists saved, st'. split; [exact Hrun|]. split; [exact Hdocs | exact Hstatus].
Defined.

Lemma create_order_twice_witness :
  exists doc1 doc2 id1 id2 st1 st2,
    create_order float_of_str_unused repr_unused
      {| items := [two_hoodies]; customer := alice |} shop = (Return doc1, st1) /\
    create_order float_of_str_unused repr_unused
      {| items := [two_hoodies]; customer := alice |} st1 = (Return doc2, st2) /\
    dict_get "id" doc1 = Some (VStr id1) /\
    dict_get "id" doc2 = Some (VStr id2) /\
    id1 <> id2 /\
    dict_get "total" doc1 = dict_get "total" doc2 /\
    List.length (docs_of st2 "order") = (List.length (docs_of shop "order") + 2)%nat.
Proof.
  apply (create_order_twice float_of_str_unused repr_unused
           {| items := [two_hoodies]; customer := alice |}
           [two_hoodies_resolved] shop).
  - exact shop_connected.
  - apply shop_reliable.
  - intros d o [].
  - reflexivity.
  - reflexivity.
  - constructor; [exact shop_two_hoodies | constructor].
Defined.

(** The hoodies of the shop. *)
Lemma list_products_stocked_witness :
  exists answer st',
    list_products repr_unused handle_true (Some "hoodies") shop
    = (Return answer, st') /\
    g_db st' = g_db shop /\
    map (dict_get "title") answer
    = [Some (VStr "Smiley Classic Hoodie"); Some (VStr "Smiley Oversized Hoodie")].
Proof.
  destruct (list_products_stocked repr_unused handle_true (Some "hoodies") shop)
    as (answer & st' & Hrun & Hdb & _ & _ & Hanswer).
  - exact shop_connected.
  - reflexivity.
  - apply shop_reliable.
  - discriminate.
  - exists answer, st'. split; [exact Hrun|]. split; [exact Hdb|].
    rewrite Hanswer. reflexivity.
Defined.

Lemma list_products_twice_witness :
  exists ids answer1 answer2 st1 st2,
    list_products repr_unused handle_true None (start (Some []))
    = (Return answer1, st1) /\
    list_products repr_unused handle_true (Some "t-shirts") st1
    = (Return answer2, st2) /\
    List.length ids = 4%nat /\
    docs_of st1 "product" = seeds_stored ids /\
    docs_of st2 "product" = seeds_stored ids /\
    answer2 = map (serialize_doc repr_unused)
                (filter (matches (category_query (Some "t-shirts")))
                        (seeds_stored ids)).
Proof.
  apply (list_products_twice repr_unused handle_true None (Some "t-shirts")
           (start (Some []))).
  - discriminate.
  - reflexivity.
  - reflexivity.
  - reflexivity.
  - left. reflexivity.
Defined.

Lemma stored_products_conform_witness :
  validate_Product (VDict (("_id", VOid (Oid 4)) :: model_dump_ProductCreate scarf))
  = Some {| product_title := "Smiley Scarf"; product_description := None;
            product_price := 19.5; product_category := "accessories";
            product_images := []; product_sizes := ["S"; "M"; "L"; "XL"];
            product_in_stock := true |} /\
  Forall (fun doc => validate_Product (VDict doc) <> None) (seeds_stored seed_ids).
Proof.
  apply (stored_products_conform scarf (Oid 4) seed_ids).
  - reflexivity.
  - reflexivity.
Defined.

Lemma stored_order_does_not_conform_witness :
  exists saved st',
    snd (create_order float_of_str_unused repr_unused
           {| items := [two_hoodies]; customer := alice |} shop) = st' /\
    docs_of st' "order" = [saved] /\
    validate_Order (VDict saved) = None.
Proof.
  destruct (stored_order_does_not_conform float_of_str_unused repr_unused
              {| items := [two_hoodies]; customer := alice |}
              [two_hoodies_resolved] shop)
    as (doc & saved & st' & Hrun & Hdocs & _ & _ & Hv).
  - exact shop_connected.
  - apply shop_reliable.
  - exact shop_generator_fresh.
  - reflexivity.
  - constructor; [exact shop_two_hoodies | constructor].
  - exists saved, st'. split; [now rewrite Hrun|]. split; [exact Hdocs | exact Hv].
Defined.
